(** * The field-extraction core of [form_processor.py]

    A shallow embedding of [FormProcessor.parse_ocr_output] and of the
    helpers it calls (the [_extract_] methods, [_find_value],
    [_find_numeric_value] and [_find_checkbox]), together with the part of
    Python's [re], [str], [int] and [dict] these helpers rely on.

    - Text is a [string]: a sequence of characters with code points
      U+0000..U+00FF.  On that range the character classes are the ones of
      Python 3: [str.isspace] and the classes "\s", "\d" and "." of [re]
      on [str] patterns.
    - The patterns stand in the extractors as the source writes them, as
      raw strings; [Re.compile] parses them and [Re.search] runs the
      backtracking matcher from left to right.
    - A call returns or raises: [Py.result].  [int] raises [ValueError] on
      a run of digits longer than the interpreter's limit, which is the
      parameter [max_str_digits] of the extractors that convert numbers.
    - The output is a [dict] of [dict]s in insertion order, its values
      [None], [str] or [int]. *)

From Stdlib Require Import Bool Arith ZArith Lia List Ascii String.
Import ListNotations.

Local Open Scope string_scope.
Local Open Scope bool_scope.
Local Open Scope nat_scope.

(** ** Characters *)

Module Char.

Definition code (c : ascii) : nat := nat_of_ascii c.

Definition LF : ascii := ascii_of_nat 10.

Definition not_LF (c : ascii) : bool := negb (Ascii.eqb c LF).

(** [str.isspace] on one character, which is also the class [\s]:
    TAB, LF, VT, FF, CR, the separators U+001C..U+001F, SPACE,
    NEL (U+0085) and NBSP (U+00A0). *)
Definition isspace (c : ascii) : bool :=
  let n := code c in
  ((9 <=? n) && (n <=? 13)) || ((28 <=? n) && (n <=? 32))
  || (n =? 133) || (n =? 160).

(** Inclusive range of a bracket class, [[lo-hi]]. *)
Definition in_range (lo hi c : ascii) : bool :=
  (code lo <=? code c) && (code c <=? code hi).

(** The class [\d]: the decimal digits, which below U+0100 are 0-9. *)
Definition isdigit (c : ascii) : bool := in_range "0" "9" c.

Definition islower (c : ascii) : bool := in_range "a" "z" c.
Definition isupper (c : ascii) : bool := in_range "A" "Z" c.
Definition isalpha (c : ascii) : bool := islower c || isupper c.

Definition upper (c : ascii) : ascii :=
  if islower c then ascii_of_nat (code c - 32) else c.
Definition lower (c : ascii) : ascii :=
  if isupper c then ascii_of_nat (code c + 32) else c.

(** Value of a decimal digit. *)
Definition digit_value (c : ascii) : Z := Z.of_nat (code c - 48).

End Char.

(** ** The string methods the source calls *)

Module Str.

(** The longest prefix of [s] whose characters all satisfy [p], and what
    is left of [s] after it. *)
Fixpoint take_while (p : ascii -> bool) (s : string) : string :=
  match s with
  | String c s' => if p c then String c (take_while p s') else EmptyString
  | EmptyString => EmptyString
  end.

Fixpoint drop_while (p : ascii -> bool) (s : string) : string :=
  match s with
  | String c s' => if p c then drop_while p s' else s
  | EmptyString => EmptyString
  end.

Definition lstrip (s : string) : string := drop_while Char.isspace s.

Fixpoint rstrip (s : string) : string :=
  match s with
  | String c s' =>
      match rstrip s' with
      | EmptyString => if Char.isspace c then EmptyString else String c EmptyString
      | t => String c t
      end
  | EmptyString => EmptyString
  end.

(** [s.strip()] *)
Definition strip (s : string) : string := rstrip (lstrip s).

(** [s.replace(old, new)] for a one-character [old] and [new]. *)
Fixpoint replace (old new : ascii) (s : string) : string :=
  match s with
  | String c s' =>
      String (if Ascii.eqb c old then new else c) (replace old new s')
  | EmptyString => EmptyString
  end.

(** [s.title()] on ASCII text: a letter that follows a non-letter (or
    starts the string) is upper-cased, a letter that follows a letter is
    lower-cased, everything else is kept.  [prev] tells whether the
    previous character was a letter. *)
Fixpoint title_from (prev : bool) (s : string) : string :=
  match s with
  | String c s' =>
      String (if prev then Char.lower c else Char.upper c)
             (title_from (Char.isalpha c) s')
  | EmptyString => EmptyString
  end.

Definition title (s : string) : string := title_from false s.

(** [c * n] for a one-character string [c]. *)
Fixpoint times (c : ascii) (n : nat) : string :=
  match n with
  | O => EmptyString
  | S n' => String c (times c n')
  end.

(** [s[n:]] *)
Fixpoint skip (n : nat) (s : string) : string :=
  match n, s with
  | S n', String _ s' => skip n' s'
  | _, _ => s
  end.

(** [s[:n]] *)
Fixpoint take (n : nat) (s : string) : string :=
  match n, s with
  | S n', String c s' => String c (take n' s')
  | _, _ => EmptyString
  end.

Fixpoint all (p : ascii -> bool) (s : string) : bool :=
  match s with
  | String c s' => p c && all p s'
  | EmptyString => true
  end.

(** What follows [prefix] in [s], when [s] starts with it. *)
Fixpoint after (prefix s : string) : option string :=
  match prefix, s with
  | EmptyString, _ => Some s
  | String a prefix', String c s' =>
      if Ascii.eqb c a then after prefix' s' else None
  | String _ _, EmptyString => None
  end.

(** Whether [s] starts with a line break followed by a character that is
    not whitespace: the lookahead "(?=\n\S)". *)
Definition unindented_line_ahead (s : string) : bool :=
  match s with
  | String a (String b _) => Ascii.eqb a Char.LF && negb (Char.isspace b)
  | _ => false
  end.

(** A line break, as a string. *)
Definition nl : string := String Char.LF EmptyString.

End Str.

(** ** Python values, exceptions and dictionaries *)

Module Py.

(** The exceptions the modelled calls can raise; [ReError] is [re.error]. *)
Inductive exn : Type := ValueError | TypeError | AttributeError | ReError.

(** The outcome of a call: a value, or an exception that propagates. *)
Inductive result (A : Type) : Type :=
| Return (a : A)
| Raise (e : exn).

Arguments Return {A} a.
Arguments Raise {A} e.

Definition bind {A B : Type} (m : result A) (f : A -> result B) : result B :=
  match m with
  | Return a => f a
  | Raise e => Raise e
  end.

(** What a field of the output holds: [None], a [str] or an [int]. *)
Inductive value : Type :=
| VNone
| VStr (s : string)
| VInt (n : Z).

(** A [dict] with [str] keys, in insertion order. *)
Definition dict (V : Type) : Type := list (string * V).

(** [d[k] = v] *)
Fixpoint dict_set {V : Type} (d : dict V) (k : string) (v : V) : dict V :=
  match d with
  | [] => [(k, v)]
  | (k', v') :: d' =>
      if String.eqb k' k then (k', v) :: d' else (k', v') :: dict_set d' k v
  end.

(** [d.get(k)] *)
Fixpoint dict_get {V : Type} (d : dict V) (k : string) : option V :=
  match d with
  | [] => None
  | (k', v) :: d' => if String.eqb k' k then Some v else dict_get d' k
  end.

Definition keys {V : Type} (d : dict V) : list string := map fst d.

(** [{k: f(k) for k in ks}], the entries evaluated from left to right. *)
Fixpoint dict_comp_from {V : Type} (f : string -> result V) (ks : list string)
    (d : dict V) : result (dict V) :=
  match ks with
  | [] => Return d
  | k :: ks' => bind (f k) (fun v => dict_comp_from f ks' (dict_set d k v))
  end.

Definition dict_comp {V : Type} (f : string -> result V) (ks : list string)
    : result (dict V) :=
  dict_comp_from f ks [].

(** The digits of an [int] literal in a string: decimal digits, with single
    underscores allowed between two digits.  Returns the value and the
    number of digits read; [prev] tells whether the previous character was
    a digit. *)
Fixpoint int_digits (prev : bool) (acc : Z) (n : nat) (s : string)
    : option (Z * nat) :=
  match s with
  | String c s' =>
      if Char.isdigit c
      then int_digits true (10 * acc + Char.digit_value c)%Z (S n) s'
      else if Ascii.eqb c "_" && prev then int_digits false acc n s'
      else None
  | EmptyString => if prev then Some (acc, n) else None
  end.

(** The number a run of decimal digits writes, after the digits [acc]
    stands for. *)
Fixpoint decimal (acc : Z) (s : string) : Z :=
  match s with
  | String c s' => decimal (10 * acc + Char.digit_value c)%Z s'
  | EmptyString => acc
  end.

(** [int(x)] for [x] a [str] or [None].  Surrounding whitespace and a sign
    are accepted.  CPython refuses a string of more than
    [sys.get_int_max_str_digits()] digits with [ValueError]: the limit,
    [max_str_digits], is 4300 unless configured otherwise, 0 turns it off,
    and strings of up to 640 digits always convert. *)
Definition int (max_str_digits : nat) (x : option string) : result Z :=
  match x with
  | None => Raise TypeError
  | Some s =>
      let t := Str.strip s in
      let '(neg, body) :=
        match t with
        | String "-" b => (true, b)
        | String "+" b => (false, b)
        | _ => (false, t)
        end in
      match int_digits false 0%Z 0 body with
      | Some (v, n) =>
          if (0 <? max_str_digits) && (640 <? n) && (max_str_digits <? n)
          then Raise ValueError
          else Return (if neg then (- v)%Z else v)
      | None => Raise ValueError
      end
  end.

Definition default_max_str_digits : nat := 4300.

End Py.

Declare Scope py_scope.
Delimit Scope py_scope with py.
Notation "x <- m ;; k" := (Py.bind m (fun x => k))
  (at level 61, m at next level, right associativity) : py_scope.

(** ** Regular expressions

    The fragment of [re] the patterns of the source are written in: literal
    characters and escaped punctuation, the classes written ".", "\s", "\S",
    "\d" and "[lo-hi]", the escape "\n", a quantifier ("*", "+", "?",
    "{m,n}", each with its lazy form) on a one-character item,
    concatenation, alternation, one capturing group and the lookahead
    assertion "(?=".  There is no anchor, word boundary or lookbehind in
    this fragment, so a match attempt at a position depends only on the
    text from that position on.  A pattern outside the fragment is refused
    with [ReError]. *)

Module Re.

Import Py.

Inductive charset : Type :=
| Char (c : ascii)             (* the character itself *)
| Dot                          (* any character but LF; any at all with DOTALL *)
| Space                        (* \s *)
| NotSpace                     (* \S *)
| Digit                        (* \d *)
| Range (lo hi : ascii).       (* [lo-hi] *)

Inductive regex : Type :=
| Empty
| OneOf (cs : charset)
| Repeat (greedy : bool) (min : nat) (max : option nat) (cs : charset)
| Seq (r1 r2 : regex)
| Alt (r1 r2 : regex)
| Group (r : regex)
| Ahead (r : regex).

(** The pattern that reads the characters of [label] and goes on as
    [tail]: what a pattern text that starts with plain characters parses
    to. *)
Fixpoint lit_seq (label : string) (tail : regex) : regex :=
  match label with
  | String c label' => Seq (OneOf (Char c)) (lit_seq label' tail)
  | EmptyString => tail
  end.

(** The pattern "\s*". *)
Definition ws : regex := Repeat true 0 None Space.

(** The shapes the patterns of the source parse to, [label] standing for
    the literal text a pattern starts with.  [colon_then tail] reads
    "\s*:\s*" and goes on as [tail].  The rules end in the group: the rest
    of the line for [line_rule] and [rest_rule], YES or NO for
    [checkbox_rule], a run of digits for [number_rule], one digit from 0
    to 5 for [rating_rule], one or two digits for [symptom_rule], and the
    lazy group with its lookahead for [paragraph_rule]. *)
Definition colon_then (tail : regex) : regex :=
  Seq ws (Seq (OneOf (Char ":")) (Seq ws tail)).

Definition line_rule (label : string) : regex :=
  lit_seq label (colon_then (Group (Repeat true 0 None Dot))).

Definition checkbox_rule (label : string) : regex :=
  lit_seq label
    (colon_then
       (Group (Alt (Seq (OneOf (Char "Y")) (Seq (OneOf (Char "E")) (OneOf (Char "S"))))
                   (Seq (OneOf (Char "N")) (OneOf (Char "O")))))).

Definition number_rule (label : string) : regex :=
  lit_seq label (colon_then (Group (Repeat true 1 None Digit))).

Definition rating_rule (label : string) : regex :=
  lit_seq label (Seq ws (Group (OneOf (Range "0" "5")))).

Definition symptom_rule (label : string) : regex :=
  lit_seq label (Seq ws (Group (Repeat true 1 (Some 2) (Range "0" "9")))).

Definition rest_rule (label : string) : regex :=
  lit_seq label (Group (Repeat true 0 None Dot)).

Definition paragraph_rule (label : string) : regex :=
  lit_seq label
    (Seq (Group (Repeat false 0 None Dot))
         (Ahead (Seq (OneOf (Char Char.LF)) (OneOf NotSpace)))).

(** *** Parsing a pattern *)

Inductive atom : Type :=
| One (cs : charset)
| Sub (r : regex).

Definition regex_of_atom (a : atom) : regex :=
  match a with
  | One cs => OneOf cs
  | Sub r => r
  end.

Definition isalnum (c : ascii) : bool := Char.isalpha c || Char.isdigit c.

(** A run of decimal digits, as in "{1,2}". *)
Fixpoint parse_nat (acc : option nat) (s : string) : option nat * string :=
  match s with
  | String c s' =>
      if Char.isdigit c
      then parse_nat (Some (10 * (match acc with Some n => n | None => 0 end)
                            + (Char.code c - 48))) s'
      else (acc, s)
  | EmptyString => (acc, s)
  end.

(** A quantifier at the head of [s], if there is one: the least and the
    greatest count, and the text after it. *)
Definition parse_quant (s : string) : option (nat * option nat * string) :=
  match s with
  | String "*" s1 => Some (0, None, s1)
  | String "+" s1 => Some (1, None, s1)
  | String "?" s1 => Some (0, Some 1, s1)
  | String "{" s1 =>
      match parse_nat None s1 with
      | (Some m, String "," s2) =>
          match parse_nat None s2 with
          | (Some n, String "}" s3) => Some (m, Some n, s3)
          | _ => None
          end
      | _ => None
      end
  | _ => None
  end.

(** A "?" after a quantifier makes it lazy. *)
Definition parse_lazy (s : string) : bool * string :=
  match s with
  | String "?" s1 => (false, s1)
  | _ => (true, s)
  end.

Fixpoint parse_alt (fuel : nat) (s : string) : option (regex * string) :=
  match fuel with
  | O => None
  | S f =>
      match parse_branch f s with
      | Some (r1, String "|" s1) =>
          match parse_alt f s1 with
          | Some (r2, s2) => Some (Alt r1 r2, s2)
          | None => None
          end
      | other => other
      end
  end
with parse_branch (fuel : nat) (s : string) : option (regex * string) :=
  match fuel with
  | O => None
  | S f =>
      match s with
      | EmptyString => Some (Empty, s)
      | String "|" _ => Some (Empty, s)
      | String ")" _ => Some (Empty, s)
      | _ =>
          match parse_piece f s with
          | Some (r1, s1) =>
              match parse_branch f s1 with
              | Some (Empty, s2) => Some (r1, s2)
              | Some (r2, s2) => Some (Seq r1 r2, s2)
              | None => None
              end
          | None => None
          end
      end
  end
with parse_piece (fuel : nat) (s : string) : option (regex * string) :=
  match fuel with
  | O => None
  | S f =>
      match parse_atom f s with
      | Some (a, s1) =>
          match parse_quant s1 with
          | Some (min, max, s2) =>
              let '(greedy, s3) := parse_lazy s2 in
              match a with
              | One cs => Some (Repeat greedy min max cs, s3)
              | Sub _ => None
              end
          | None => Some (regex_of_atom a, s1)
          end
      | None => None
      end
  end
with parse_atom (fuel : nat) (s : string) : option (atom * string) :=
  match fuel with
  | O => None
  | S f =>
      match s with
      | String "\" (String c s1) =>
          if Ascii.eqb c "s" then Some (One Space, s1)
          else if Ascii.eqb c "S" then Some (One NotSpace, s1)
          else if Ascii.eqb c "d" then Some (One Digit, s1)
          else if Ascii.eqb c "n" then Some (One (Char Char.LF), s1)
          else if isalnum c then None
          else Some (One (Char c), s1)
      | String "\" EmptyString => None
      | String "." s1 => Some (One Dot, s1)
      | String "[" (String lo (String "-" (String hi (String "]" s1)))) =>
          if Ascii.eqb lo "\" || Ascii.eqb lo "^" || Ascii.eqb lo "]"
             || Ascii.eqb hi "\" || Ascii.eqb hi "]"
             || negb (Char.code lo <=? Char.code hi)
          then None
          else Some (One (Range lo hi), s1)
      | String "[" _ => None
      | String "(" (String "?" (String "=" s1)) =>
          match parse_alt f s1 with
          | Some (r, String ")" s2) => Some (Sub (Ahead r), s2)
          | _ => None
          end
      | String "(" (String "?" _) => None
      | String "(" s1 =>
          match parse_alt f s1 with
          | Some (r, String ")" s2) => Some (Sub (Group r), s2)
          | _ => None
          end
      | String "*" _ => None
      | String "+" _ => None
      | String "?" _ => None
      | String "{" _ => None
      | String "^" _ => None
      | String "$" _ => None
      | String c s1 => Some (One (Char c), s1)
      | EmptyString => None
      end
  end.

(** Number of capturing groups. *)
Fixpoint groups (r : regex) : nat :=
  match r with
  | Seq r1 r2 => groups r1 + groups r2
  | Alt r1 r2 => groups r1 + groups r2
  | Group r1 => S (groups r1)
  | Ahead r1 => groups r1
  | _ => 0
  end.

(** [re.compile]: the whole pattern must parse, with at most one group. *)
Definition compile (pattern : string) : result regex :=
  match parse_alt (4 * String.length pattern + 4) pattern with
  | Some (r, EmptyString) => if groups r <=? 1 then Return r else Raise ReError
  | _ => Raise ReError
  end.

(** *** Matching *)

(** The flag [re.DOTALL] is the only one the source passes. *)
Definition member (dotall : bool) (cs : charset) (c : ascii) : bool :=
  match cs with
  | Char a => Ascii.eqb c a
  | Dot => dotall || Char.not_LF c
  | Space => Char.isspace c
  | NotSpace => negb (Char.isspace c)
  | Digit => Char.isdigit c
  | Range lo hi => Char.in_range lo hi c
  end.

Definition dec_max (max : option nat) : option nat := option_map pred max.

Definition exhausted (max : option nat) : bool :=
  match max with
  | Some O => true
  | _ => false
  end.

Section Repeat.

Context {R : Type}.
Variable p : ascii -> bool.

(** Greedy repeat: take as many characters as allowed, then give them back
    one at a time until the rest of the pattern, [k], matches. *)
Fixpoint max_repeat (min : nat) (max : option nat) (s : string)
    (k : string -> option R) : option R :=
  let stop := match min with O => k s | S _ => None end in
  if exhausted max then stop else
  match s with
  | String c s' =>
      if p c then
        match max_repeat (pred min) (dec_max max) s' k with
        | Some r => Some r
        | None => stop
        end
      else stop
  | EmptyString => stop
  end.

(** Lazy repeat: try the rest of the pattern first, take one more character
    only when it fails. *)
Fixpoint min_repeat (min : nat) (max : option nat) (s : string)
    (k : string -> option R) : option R :=
  let more :=
    if exhausted max then None else
    match s with
    | String c s' => if p c then min_repeat (pred min) (dec_max max) s' k else None
    | EmptyString => None
    end in
  match min with
  | O => match k s with Some r => Some r | None => more end
  | S _ => more
  end.

End Repeat.

(** The text a group has consumed: what lies between [s], where it was
    entered, and [s'], where it was left. *)
Definition consumed (s s' : string) : string :=
  Str.take (String.length s - String.length s') s.

(** Backtracking matcher, in continuation-passing style: [k] is the rest of
    the pattern, [s] the text from the current position on and [g] the
    content of the group so far.  Alternatives are tried in the order of
    the pattern and the first success is returned. *)
Fixpoint exec {R : Type} (dotall : bool) (r : regex) (s : string)
    (g : option string) (k : string -> option string -> option R) : option R :=
  match r with
  | Empty => k s g
  | OneOf cs =>
      match s with
      | String a s' => if member dotall cs a then k s' g else None
      | EmptyString => None
      end
  | Repeat true min max cs =>
      max_repeat (member dotall cs) min max s (fun s' => k s' g)
  | Repeat false min max cs =>
      min_repeat (member dotall cs) min max s (fun s' => k s' g)
  | Seq r1 r2 => exec dotall r1 s g (fun s' g' => exec dotall r2 s' g' k)
  | Alt r1 r2 =>
      match exec dotall r1 s g k with
      | Some x => Some x
      | None => exec dotall r2 s g k
      end
  | Group r1 => exec dotall r1 s g (fun s' _ => k s' (Some (consumed s s')))
  | Ahead r1 =>
      match exec dotall r1 s g (fun _ g' => Some g') with
      | Some g' => k s g'
      | None => None
      end
  end.

(** A match object: where the match starts and ends and what group 1 holds
    ([None] when the group took no part in the match). *)
Record Match : Type := mkMatch {
  m_start : nat;
  m_end : nat;
  m_group1 : option string
}.

(** One match attempt at the head of [s], which is the text from position
    [pos] on.  [found] is the end of the pattern: it reports the text left
    and the group. *)
Definition found (s' : string) (g : option string)
    : option (string * option string) :=
  Some (s', g).

Definition match_at (dotall : bool) (r : regex) (pos : nat) (s : string)
    : option Match :=
  match exec dotall r s None found with
  | Some (s', g) =>
      Some (mkMatch pos (pos + (String.length s - String.length s')) g)
  | None => None
  end.

(** The attempt is made at every position from left to right, the end of
    the text included, and the first success is returned. *)
Fixpoint search_from (dotall : bool) (r : regex) (pos : nat) (s : string)
    : option Match :=
  match match_at dotall r pos s with
  | Some m => Some m
  | None =>
      match s with
      | String _ s' => search_from dotall r (S pos) s'
      | EmptyString => None
      end
  end.

(** [re.search(pattern, text, re.DOTALL if dotall else 0)] *)
Definition search (pattern : string) (text : string) (dotall : bool)
    : result (option Match) :=
  bind (compile pattern) (fun r => Return (search_from dotall r 0 text)).

End Re.

(** ** The form processor *)

Module FormProcessor.

Import Re Py.
Local Open Scope py_scope.
Local Open Scope string_scope.

(** The attributes [__init__] sets. *)
Record t : Type := mk {
  difficulty_tasks : list string;
  pain_symptoms : list string
}.

Definition init : t := {|
  difficulty_tasks := [
    "bending_or_stooping"; "putting_on_shoes"; "sleeping";
    "standing_for_an_hour"; "stairs"; "walking_through_store";
    "driving"; "preparing_meal"; "yard_work"; "picking_up_items"
  ];
  pain_symptoms := ["pain"; "numbness"; "tingling"; "burning"; "tightness"]
|}.

Section Interpreter.

(** The running interpreter's [sys.get_int_max_str_digits()]. *)
Variable max_str_digits : nat.

Definition _find_value (pattern : string) (text : string) (dotall : bool)
    : result value :=
  m <- search pattern text dotall ;;
  match m with
  | Some m =>
      match m_group1 m with
      | Some g => Return (VStr (Str.strip g))
      | None => Raise AttributeError
      end
  | None => Return VNone
  end.

Definition _find_numeric_value (pattern : string) (text : string)
    : result value :=
  m <- search pattern text false ;;
  match m with
  | Some m => n <- int max_str_digits (m_group1 m) ;; Return (VInt n)
  | None => Return VNone
  end.

Definition _find_checkbox (pattern : string) (text : string) : result value :=
  m <- search pattern text false ;;
  match m with
  | Some m =>
      match m_group1 m with
      | Some g => Return (VStr g)
      | None => Return VNone
      end
  | None => Return VNone
  end.

Definition _extract_patient_info (text : string) : result (dict value) :=
  patient_name <- _find_value "Patient Name\s*:\s*(.*)" text false ;;
  dob <- _find_value "DOB\s*:\s*(.*)" text false ;;
  Return [("patient_name", patient_name); ("dob", dob)].

Definition _extract_treatment_info (text : string) : result (dict value) :=
  date <- _find_value "Date\s*:\s*(.*)" text false ;;
  injection <- _find_checkbox "INJECTION\s*:\s*(YES|NO)" text ;;
  exercise_therapy <- _find_checkbox "Exercise Therapy\s*:\s*(YES|NO)" text ;;
  Return [("date", date); ("injection", injection);
          ("exercise_therapy", exercise_therapy)].

(** [task.replace('_', ' ').title()] *)
Definition task_label (task : string) : string :=
  Str.title (Str.replace "_" " " task).

Definition _extract_difficulty_ratings (self : t) (text : string)
    : result (dict value) :=
  dict_comp
    (fun task => _find_numeric_value (task_label task ++ ":\s*([0-5])") text)
    (difficulty_tasks self).

Definition _extract_patient_changes (text : string) : result (dict value) :=
  since_last_treatment <- _find_value
    "Patient changes since last treatment:(.*?)(?=\n\S)" text true ;;
  since_start_of_treatment <- _find_value
    "Patient changes since the start of treatment:(.*?)(?=\n\S)" text true ;;
  last_3_days <- _find_value
    "Describe any functional changes within the last three days \(good or bad\):(.*)"
    text false ;;
  Return [("since_last_treatment", since_last_treatment);
          ("since_start_of_treatment", since_start_of_treatment);
          ("last_3_days", last_3_days)].

(** The doubled braces of the source's f-string stand for single ones. *)
Definition _extract_pain_symptoms (self : t) (text : string)
    : result (dict value) :=
  dict_comp
    (fun symptom =>
       _find_numeric_value (Str.title symptom ++ ":\s*([0-9]{1,2})") text)
    (pain_symptoms self).

Definition _extract_ma_data (text : string) : result (dict value) :=
  blood_pressure <- _find_value "Blood Pressure\s*:\s*(.*)" text false ;;
  hr <- _find_numeric_value "HR\s*:\s*(\d+)" text ;;
  weight <- _find_numeric_value "Weight\s*:\s*(\d+)" text ;;
  height <- _find_value "Height\s*:\s*(.*)" text false ;;
  spo2 <- _find_numeric_value "SpO2\s*:\s*(\d+)" text ;;
  temperature <- _find_value "Temperature\s*:\s*(.*)" text false ;;
  blood_glucose <- _find_numeric_value "Blood Glucose\s*:\s*(\d+)" text ;;
  respirations <- _find_numeric_value "Respirations\s*:\s*(\d+)" text ;;
  Return [("blood_pressure", blood_pressure); ("hr", hr); ("weight", weight);
          ("height", height); ("spo2", spo2); ("temperature", temperature);
          ("blood_glucose", blood_glucose); ("respirations", respirations)].

Definition parse_ocr_output (self : t) (text : string)
    : result (dict (dict value)) :=
  patient_details <- _extract_patient_info text ;;
  treatment_details <- _extract_treatment_info text ;;
  difficulty_ratings <- _extract_difficulty_ratings self text ;;
  patient_changes <- _extract_patient_changes text ;;
  pain_symptoms <- _extract_pain_symptoms self text ;;
  medical_assistant_data <- _extract_ma_data text ;;
  Return [("patient_details", patient_details);
          ("treatment_details", treatment_details);
          ("difficulty_ratings", difficulty_ratings);
          ("patient_changes", patient_changes);
          ("pain_symptoms", pain_symptoms);
          ("medical_assistant_data", medical_assistant_data)].

End Interpreter.

(** *** The declared output schema *)

(** The six groups and the field names of each, in the order of the
    source. *)
Definition schema (self : t) : dict (list string) := [
  ("patient_details", ["patient_name"; "dob"]);
  ("treatment_details", ["date"; "injection"; "exercise_therapy"]);
  ("difficulty_ratings", difficulty_tasks self);
  ("patient_changes",
     ["since_last_treatment"; "since_start_of_treatment"; "last_3_days"]);
  ("pain_symptoms", pain_symptoms self);
  ("medical_assistant_data",
     ["blood_pressure"; "hr"; "weight"; "height"; "spo2"; "temperature";
      "blood_glucose"; "respirations"])
].

(** Every pattern the extractors search for, with its DOTALL flag. *)
Definition rules (self : t) : list (string * bool) :=
  [ ("Patient Name\s*:\s*(.*)", false);
    ("DOB\s*:\s*(.*)", false);
    ("Date\s*:\s*(.*)", false);
    ("INJECTION\s*:\s*(YES|NO)", false);
    ("Exercise Therapy\s*:\s*(YES|NO)", false) ]
  ++ map (fun task => ((task_label task ++ ":\s*([0-5])")%string, false))
         (difficulty_tasks self)
  ++ [ ("Patient changes since last treatment:(.*?)(?=\n\S)", true);
       ("Patient changes since the start of treatment:(.*?)(?=\n\S)", true);
       ("Describe any functional changes within the last three days \(good or bad\):(.*)",
        false) ]
  ++ map (fun symptom => ((Str.title symptom ++ ":\s*([0-9]{1,2})")%string, false))
         (pain_symptoms self)
  ++ [ ("Blood Pressure\s*:\s*(.*)", false);
       ("HR\s*:\s*(\d+)", false);
       ("Weight\s*:\s*(\d+)", false);
       ("Height\s*:\s*(.*)", false);
       ("SpO2\s*:\s*(\d+)", false);
       ("Temperature\s*:\s*(.*)", false);
       ("Blood Glucose\s*:\s*(\d+)", false);
       ("Respirations\s*:\s*(\d+)", false) ].

(** No rule matches [text]. *)
Definition no_rule_matches (self : t) (text : string) : Prop :=
  forall (pattern : string) (dotall : bool),
    In (pattern, dotall) (rules self) ->
    search pattern text dotall = Return None.

(** The groups of a record with the keys of each. *)
Definition shape (r : dict (dict value)) : dict (list string) :=
  map (fun kg => (fst kg, keys (snd kg))) r.

(** The record whose every declared field is [None]. *)
Definition null_record (self : t) : dict (dict value) :=
  map (fun kf => (fst kf, map (fun f => (f, VNone)) (snd kf))) (schema self).

(** [r[group][name]] on the outcome of a call; nothing when the call
    raised or a key is missing. *)
Definition field (r : result (dict (dict value))) (group name : string)
    : option value :=
  match r with
  | Return d =>
      match dict_get d group with
      | Some g => dict_get g name
      | None => None
      end
  | Raise _ => None
  end.

(** The same on the outcome of one [_extract_] method. *)
Definition entry (r : result (dict value)) (name : string) : option value :=
  match r with
  | Return g => dict_get g name
  | Raise _ => None
  end.

(** [line] is a line of [text] found after [label]: the label is followed
    by optional whitespace, a colon and optional whitespace, line breaks
    included; [line] starts at the first character after them that is not
    whitespace and runs to the end of its line, or is empty when the text
    ends first. *)
Definition line_after (label text line : string) : Prop :=
  exists pre ws1 ws2 post : string,
    text = (pre ++ label ++ ws1 ++ ":" ++ ws2 ++ line ++ post)%string
    /\ Str.all Char.isspace ws1 = true
    /\ Str.all Char.isspace ws2 = true
    /\ Str.all Char.not_LF line = true
    /\ (forall c t, line = String c t -> Char.isspace c = false)
    /\ (post = "" \/ exists t, post = String Char.LF t)
    /\ (line = "" -> post = "").

(** [w] is the paragraph of [text] found after [label]: it runs from the
    label to the first place where a line break followed by a character
    that is not whitespace lies ahead. *)
Definition paragraph_after (label text w : string) : Prop :=
  exists pre post : string,
    text = (pre ++ label ++ w ++ post)%string
    /\ Str.unindented_line_ahead post = true
    /\ (forall w1 w2, w = (w1 ++ w2)%string -> w2 <> "" ->
          Str.unindented_line_ahead (w2 ++ post) = false).

(** The single-line text rules: group, field name and label.  The pattern
    of each is its label followed by "\s*:\s*" and the group that holds
    the rest of the line. *)
Definition single_line_rules : list (string * string * string) := [
  ("patient_details", "patient_name", "Patient Name");
  ("patient_details", "dob", "DOB");
  ("treatment_details", "date", "Date");
  ("medical_assistant_data", "blood_pressure", "Blood Pressure");
  ("medical_assistant_data", "height", "Height");
  ("medical_assistant_data", "temperature", "Temperature")
].

Definition single_line_pattern (label : string) : string :=
  (label ++ "\s*:\s*(.*)")%string.

(** A field of integer type holds [None] or an [int] between [lo] and
    [hi]. *)
Definition int_or_none (lo hi : Z) (v : value) : Prop :=
  v = VNone \/ exists n : Z, v = VInt n /\ (lo <= n <= hi)%Z.

End FormProcessor.

(** ** Vocabulary of the further properties *)

Module Text.

(** [l] occurs in [text], letter for letter. *)
Definition occurs (l text : string) : Prop :=
  exists pre post : string, text = (pre ++ l ++ post)%string.

(** [v] neither starts nor ends with whitespace. *)
Definition trimmed (v : string) : Prop :=
  (forall c t, v = String c t -> Char.isspace c = false)
  /\ (forall t c, v = (t ++ String c "")%string -> Char.isspace c = false).

(** The length of the longest run of consecutive characters of [s] that
    satisfy [p]. *)
Fixpoint longest_run (p : ascii -> bool) (s : string) : nat :=
  match s with
  | String c s' =>
      Nat.max (String.length (Str.take_while p s)) (longest_run p s')
  | EmptyString => 0
  end.

(** Whether somewhere in [s] a line break is followed by a character that
    is not whitespace. *)
Fixpoint has_unindented_line (s : string) : bool :=
  match s with
  | String c s' => Str.unindented_line_ahead s || has_unindented_line s'
  | EmptyString => false
  end.

(** [post] is empty or starts with a line break: a line ends where it
    starts. *)
Definition ends_line (post : string) : Prop :=
  post = "" \/ exists t, post = String Char.LF t.

(** [s] is [text] from the leftmost place on at which [P] holds of the
    rest of the text, and [pre] is what stands before that place. *)
Definition leftmost (P : string -> Prop) (text pre s : string) : Prop :=
  text = (pre ++ s)%string
  /\ P s
  /\ forall pre' s' : string,
       text = (pre' ++ s')%string ->
       String.length pre' < String.length pre -> ~ P s'.

(** [P] holds of the rest of [text] at no place. *)
Definition nowhere (P : string -> Prop) (text : string) : Prop :=
  forall pre s : string, text = (pre ++ s)%string -> ~ P s.

End Text.

Module Fields.

Import Re Py FormProcessor.

(** Every field of the output with the call that fills it: group, field
    name, the literal text its pattern starts with, and the lookup. *)
Definition lookups (lim : nat) (self : t) (text : string)
    : list (string * string * string * result value) :=
  [ ("patient_details", "patient_name", "Patient Name",
       _find_value "Patient Name\s*:\s*(.*)" text false);
    ("patient_details", "dob", "DOB",
       _find_value "DOB\s*:\s*(.*)" text false);
    ("treatment_details", "date", "Date",
       _find_value "Date\s*:\s*(.*)" text false);
    ("treatment_details", "injection", "INJECTION",
       _find_checkbox "INJECTION\s*:\s*(YES|NO)" text);
    ("treatment_details", "exercise_therapy", "Exercise Therapy",
       _find_checkbox "Exercise Therapy\s*:\s*(YES|NO)" text) ]
  ++ map (fun task =>
            ("difficulty_ratings", task, (task_label task ++ ":")%string,
             _find_numeric_value lim (task_label task ++ ":\s*([0-5])") text))
         (difficulty_tasks self)
  ++ [ ("patient_changes", "since_last_treatment",
          "Patient changes since last treatment:",
          _find_value "Patient changes since last treatment:(.*?)(?=\n\S)"
            text true);
       ("patient_changes", "since_start_of_treatment",
          "Patient changes since the start of treatment:",
          _find_value
            "Patient changes since the start of treatment:(.*?)(?=\n\S)"
            text true);
       ("patient_changes", "last_3_days",
          "Describe any functional changes within the last three days (good or bad):",
          _find_value
            "Describe any functional changes within the last three days \(good or bad\):(.*)"
            text false) ]
  ++ map (fun symptom =>
            ("pain_symptoms", symptom, (Str.title symptom ++ ":")%string,
             _find_numeric_value lim (Str.title symptom ++ ":\s*([0-9]{1,2})")
               text))
         (pain_symptoms self)
  ++ [ ("medical_assistant_data", "blood_pressure", "Blood Pressure",
          _find_value "Blood Pressure\s*:\s*(.*)" text false);
       ("medical_assistant_data", "hr", "HR",
          _find_numeric_value lim "HR\s*:\s*(\d+)" text);
       ("medical_assistant_data", "weight", "Weight",
          _find_numeric_value lim "Weight\s*:\s*(\d+)" text);
       ("medical_assistant_data", "height", "Height",
          _find_value "Height\s*:\s*(.*)" text false);
       ("medical_assistant_data", "spo2", "SpO2",
          _find_numeric_value lim "SpO2\s*:\s*(\d+)" text);
       ("medical_assistant_data", "temperature", "Temperature",
          _find_value "Temperature\s*:\s*(.*)" text false);
       ("medical_assistant_data", "blood_glucose", "Blood Glucose",
          _find_numeric_value lim "Blood Glucose\s*:\s*(\d+)" text);
       ("medical_assistant_data", "respirations", "Respirations",
          _find_numeric_value lim "Respirations\s*:\s*(\d+)" text) ].

(** The fields a number fills, with their labels; the pattern of each is
    its label followed by "\s*:\s*" and the group of digits. *)
Definition number_rules : list (string * string) := [
  ("hr", "HR"); ("weight", "Weight"); ("spo2", "SpO2");
  ("blood_glucose", "Blood Glucose"); ("respirations", "Respirations")
].

Definition number_pattern (label : string) : string :=
  (label ++ "\s*:\s*(\d+)")%string.

End Fields.

(** ** Names of generated rules *)

Module Names.

(** A character of a name: a lower-case letter, a digit or an underscore. *)
Definition name_char (c : ascii) : bool :=
  Char.islower c || Char.isdigit c || Ascii.eqb c "_".

(** A name made of such characters, as the names [__init__] lists are. *)
Definition plain_name (s : string) : bool := Str.all name_char s.

(** A character a label made from such a name can hold: a letter, a digit,
    a space or an underscore.  None of them has a meaning of its own in a
    pattern. *)
Definition label_char (c : ascii) : bool :=
  Char.isalpha c || Char.isdigit c || Ascii.eqb c " " || Ascii.eqb c "_".

End Names.

(** ** class DatabaseManager: what [insert_data] stores of a record *)

Module DatabaseManager.

Import Py.

(** [d.get(k, default)] *)
Definition get_or {V : Type} (d : dict V) (k : string) (default : V) : V :=
  match dict_get d k with
  | Some v => v
  | None => default
  end.

(** The two parameters [insert_data] binds to its first statement, the
    INSERT INTO patients (name, dob): the entries [patient_name] and [dob]
    of [data['patient_details']], each with the default ['Unknown'].
    [None] stands for the KeyError of [data['patient_details']].  The
    statements themselves run inside SQLite and are not modelled. *)
Definition patients_parameters (data : dict (dict value))
    : option (value * value) :=
  match dict_get data "patient_details" with
  | Some patient_details =>
      Some (get_or patient_details "patient_name" (VStr "Unknown"),
            get_or patient_details "dob" (VStr "Unknown"))
  | None => None
  end.

End DatabaseManager.

(** ** What a rating and a checkbox look like in the text *)

Module Places.

(** [s] starts with a rating: the label with its colon, optional
    whitespace, and the digit [c] from 0 to 5. *)
Definition rating_at (label s : string) (c : ascii) : Prop :=
  exists wsp post : string,
    s = (label ++ wsp ++ String c post)%string
    /\ Str.all Char.isspace wsp = true
    /\ Char.in_range "0" "5" c = true.

Definition rated (label s : string) : Prop := exists c, rating_at label s c.

(** [s] starts with a ticked checkbox: the label, optional whitespace, a
    colon, optional whitespace, and the letters [v], which are YES or NO. *)
Definition checkbox_at (label s v : string) : Prop :=
  exists ws1 ws2 post : string,
    s = (label ++ ws1 ++ ":" ++ ws2 ++ v ++ post)%string
    /\ Str.all Char.isspace ws1 = true
    /\ Str.all Char.isspace ws2 = true
    /\ (v = "YES" \/ v = "NO").

Definition checked (label s : string) : Prop := exists v, checkbox_at label s v.

(** The two checkbox fields with their labels. *)
Definition checkbox_rules : list (string * string) := [
  ("injection", "INJECTION"); ("exercise_therapy", "Exercise Therapy")
].

End Places.

(** * Properties of the embedding *)

Import Re Py FormProcessor.
Local Open Scope string_scope.
Local Open Scope list_scope.
Local Open Scope nat_scope.

(** Splits a successful sequence of calls into its steps: each call bound
    in [H] either returned, and is named, or raised, which [H] refutes. *)
Ltac returned H :=
  repeat match type of H with
  | bind ?m _ = Return _ =>
      let v := fresh "v" in
      let E := fresh "E" in
      destruct m as [v | ?] eqn:E; simpl in H; [ | discriminate H ]
  end.

(** Settles a fact about one character by looking at all 256 of them. *)
Ltac each_char c :=
  destruct c as [[] [] [] [] [] [] [] []]; vm_compute;
  try reflexivity; try discriminate; try tauto.

(** ** Dictionaries *)

Section Dict.

Context {V : Type}.

Lemma keys_dict_set_fresh (d : dict V) (k : string) (v : V) :
  ~ In k (keys d) -> keys (dict_set d k v) = keys d ++ [k].
Proof.
  induction d as [ | [k' v'] d IH ]; simpl; intros Hk; [ reflexivity | ].
  destruct (String.eqb_spec k' k) as [ -> | _ ].
  - exfalso. apply Hk. now left.
  - simpl. f_equal. apply IH. intros Hin. apply Hk. now right.
Qed.

Lemma dict_comp_from_keys (f : string -> result V) (ks : list string) :
  forall d d' : dict V,
    NoDup (keys d ++ ks) ->
    dict_comp_from f ks d = Return d' ->
    keys d' = keys d ++ ks.
Proof.
  induction ks as [ | k ks IH ]; simpl; intros d d' Hnd H.
  - inversion H. now rewrite app_nil_r.
  - returned H.
    assert (Hk : ~ In k (keys d)).
    { intros Hin. apply NoDup_remove_2 in Hnd. apply Hnd.
      apply in_or_app. now left. }
    apply IH in H.
    + rewrite H, keys_dict_set_fresh by exact Hk.
      now rewrite <- app_assoc.
    + rewrite keys_dict_set_fresh by exact Hk.
      rewrite <- app_assoc. exact Hnd.
Qed.

Lemma dict_comp_keys (f : string -> result V) (ks : list string) (d : dict V) :
  NoDup ks -> dict_comp f ks = Return d -> keys d = ks.
Proof.
  intros Hnd H. apply dict_comp_from_keys in H; assumption.
Qed.

Variable P : V -> Prop.

Lemma dict_set_values (d : dict V) (k : string) (v : V) :
  Forall (fun kv => P (snd kv)) d -> P v ->
  Forall (fun kv => P (snd kv)) (dict_set d k v).
Proof.
  induction d as [ | [k' v'] d IH ]; simpl; intros Hd Hv.
  - constructor; [ exact Hv | constructor ].
  - inversion Hd; subst.
    destruct (String.eqb k' k); constructor; auto.
Qed.

Lemma dict_comp_from_values (f : string -> result V) (ks : list string) :
  (forall k v, In k ks -> f k = Return v -> P v) ->
  forall d d' : dict V,
    Forall (fun kv => P (snd kv)) d ->
    dict_comp_from f ks d = Return d' ->
    Forall (fun kv => P (snd kv)) d'.
Proof.
  induction ks as [ | k ks IH ]; simpl; intros Hf d d' Hd H.
  - now inversion H; subst.
  - returned H. apply (IH (fun k' v' Hk' => Hf k' v' (or_intror Hk'))) in H.
    + exact H.
    + apply dict_set_values; [ exact Hd | ].
      apply (Hf k); [ now left | assumption ].
Qed.

Lemma dict_get_values (d : dict V) (k : string) (v : V) :
  Forall (fun kv => P (snd kv)) d -> dict_get d k = Some v -> P v.
Proof.
  induction d as [ | [k' v'] d IH ]; simpl; intros Hd H; [ discriminate | ].
  inversion Hd; subst.
  destruct (String.eqb k' k); [ | auto ].
  now inversion H; subst.
Qed.

(** Every value of a comprehension was returned by [f]. *)
Lemma dict_comp_values (f : string -> result V) (ks : list string)
    (d : dict V) (k : string) (v : V) :
  (forall k v, In k ks -> f k = Return v -> P v) ->
  dict_comp f ks = Return d -> dict_get d k = Some v -> P v.
Proof.
  intros Hf H Hget.
  apply (dict_get_values d k v); [ | exact Hget ].
  apply (dict_comp_from_values f ks Hf [] d); [ constructor | exact H ].
Qed.

(** A comprehension returns as soon as [f] returns on every key. *)
Lemma dict_comp_from_returns (f : string -> result V) (ks : list string) :
  (forall k, In k ks -> exists v, f k = Return v) ->
  forall d : dict V, exists d', dict_comp_from f ks d = Return d'.
Proof.
  induction ks as [ | k ks IH ]; simpl; intros Hf d.
  - now exists d.
  - destruct (Hf k) as [v Hv]; [ now left | ].
    rewrite Hv. simpl. apply IH. intros k' Hk'. apply Hf. now right.
Qed.

End Dict.

Lemma difficulty_tasks_nodup : NoDup (difficulty_tasks init).
Proof.
  simpl. repeat constructor; simpl; intuition discriminate.
Qed.

Lemma pain_symptoms_nodup : NoDup (pain_symptoms init).
Proof.
  simpl. repeat constructor; simpl; intuition discriminate.
Qed.

(** ** The shape of the output *)

Lemma _extract_patient_info_keys (text : string) (g : dict value) :
  _extract_patient_info text = Return g -> keys g = ["patient_name"; "dob"].
Proof.
  unfold _extract_patient_info. intros H. returned H. now inversion H.
Qed.

Lemma _extract_treatment_info_keys (text : string) (g : dict value) :
  _extract_treatment_info text = Return g ->
  keys g = ["date"; "injection"; "exercise_therapy"].
Proof.
  unfold _extract_treatment_info. intros H. returned H. now inversion H.
Qed.

Lemma _extract_patient_changes_keys (text : string) (g : dict value) :
  _extract_patient_changes text = Return g ->
  keys g = ["since_last_treatment"; "since_start_of_treatment"; "last_3_days"].
Proof.
  unfold _extract_patient_changes. intros H. returned H. now inversion H.
Qed.

Lemma _extract_ma_data_keys (lim : nat) (text : string) (g : dict value) :
  _extract_ma_data lim text = Return g ->
  keys g = ["blood_pressure"; "hr"; "weight"; "height"; "spo2"; "temperature";
            "blood_glucose"; "respirations"].
Proof.
  unfold _extract_ma_data. intros H. returned H. now inversion H.
Qed.

Lemma parse_ocr_output_shape (lim : nat) (text : string) (r : dict (dict value)) :
  parse_ocr_output lim init text = Return r -> shape r = schema init.
Proof.
  unfold parse_ocr_output. intros H. returned H.
  inversion H; subst r; clear H. unfold shape, schema. simpl.
  repeat match goal with
  | E : _ = Return _ |- _ =>
      first [ apply _extract_patient_info_keys in E
            | apply _extract_treatment_info_keys in E
            | apply _extract_patient_changes_keys in E
            | apply _extract_ma_data_keys in E
            | apply dict_comp_keys in E;
              [ | first [ exact difficulty_tasks_nodup | exact pain_symptoms_nodup ] ] ];
      rewrite E; clear E
  end.
  reflexivity.
Qed.

(** ** Strings *)

Lemma length_app (s1 s2 : string) :
  String.length (s1 ++ s2) = String.length s1 + String.length s2.
Proof.
  induction s1 as [ | c s1 IH ]; simpl; [ reflexivity | now rewrite IH ].
Qed.

Lemma take_skip (n : nat) (s : string) : (Str.take n s ++ Str.skip n s)%string = s.
Proof.
  revert s. induction n as [ | n IH ]; intros [ | c s ]; simpl; try reflexivity.
  now rewrite IH.
Qed.

Lemma take_drop_while (p : ascii -> bool) (s : string) :
  (Str.take_while p s ++ Str.drop_while p s)%string = s.
Proof.
  induction s as [ | c s IH ]; simpl; [ reflexivity | ].
  destruct (p c); simpl; [ now rewrite IH | reflexivity ].
Qed.

Lemma take_while_all (p : ascii -> bool) (s : string) :
  Str.all p (Str.take_while p s) = true.
Proof.
  induction s as [ | c s IH ]; simpl; [ reflexivity | ].
  destruct (p c) eqn:E; simpl; [ now rewrite E | reflexivity ].
Qed.

Lemma drop_while_length (p : ascii -> bool) (s : string) :
  String.length (Str.drop_while p s) <= String.length s.
Proof.
  induction s as [ | c s IH ]; simpl; [ lia | ].
  destruct (p c); simpl; lia.
Qed.

Lemma drop_while_head (p : ascii -> bool) (s : string) (c : ascii) (s' : string) :
  Str.drop_while p s = String c s' -> p c = false.
Proof.
  induction s as [ | a s IH ]; simpl; [ discriminate | ].
  destruct (p a) eqn:E; [ exact IH | ].
  intros H. inversion H; subst. exact E.
Qed.

Lemma drop_while_all (p : ascii -> bool) (w s : string) :
  Str.all p w = true -> Str.drop_while p (w ++ s) = Str.drop_while p s.
Proof.
  induction w as [ | c w IH ]; simpl; [ reflexivity | ].
  destruct (p c); simpl; [ exact IH | discriminate ].
Qed.

Lemma drop_while_only (p : ascii -> bool) (w : string) :
  Str.all p w = true -> Str.drop_while p w = "".
Proof.
  induction w as [ | c w IH ]; simpl; [ reflexivity | ].
  destruct (p c); simpl; [ exact IH | discriminate ].
Qed.

Lemma consumed_drop_while (p : ascii -> bool) (s : string) :
  consumed s (Str.drop_while p s) = Str.take_while p s.
Proof.
  unfold consumed. induction s as [ | c s IH ]; [ reflexivity | ].
  cbn [Str.drop_while Str.take_while]. destruct (p c) eqn:E.
  - pose proof (drop_while_length p s) as Hl. cbn [String.length].
    replace (S (String.length s) - String.length (Str.drop_while p s))
      with (S (String.length s - String.length (Str.drop_while p s))) by lia.
    cbn [Str.take]. now rewrite IH.
  - now rewrite Nat.sub_diag.
Qed.

Lemma consumed_app (w s : string) : consumed (w ++ s) s = w.
Proof.
  unfold consumed. rewrite length_app.
  replace (String.length w + String.length s - String.length s)
    with (String.length w) by lia.
  induction w as [ | c w IH ]; simpl; [ now destruct s | now rewrite IH ].
Qed.

Lemma consumed_w (w s : string) :
  forall s', s' = (w ++ s)%string -> consumed s' s = w.
Proof. intros s' ->. apply consumed_app. Qed.

Lemma consumed_1 (c : ascii) (s : string) : consumed (String c s) s = String c "".
Proof. exact (consumed_app (String c "") s). Qed.

Lemma consumed_2 (a b : ascii) (s : string) :
  consumed (String a (String b s)) s = String a (String b "").
Proof. exact (consumed_app (String a (String b "")) s). Qed.

Lemma consumed_cons (c : ascii) (s s' : string) :
  String.length s' <= String.length s ->
  consumed (String c s) s' = String c (consumed s s').
Proof.
  intros H. unfold consumed. cbn [String.length].
  replace (S (String.length s) - String.length s')
    with (S (String.length s - String.length s')) by lia.
  reflexivity.
Qed.

Lemma after_app (l s s' : string) : Str.after l s = Some s' -> s = (l ++ s')%string.
Proof.
  revert s. induction l as [ | a l IH ]; intros s; simpl.
  - intros H. now inversion H.
  - destruct s as [ | c s ]; [ discriminate | ].
    destruct (Ascii.eqb_spec c a) as [ -> | ]; [ | discriminate ].
    intros H. now rewrite (IH _ H).
Qed.

Lemma after_prefix (l s : string) : Str.after l (l ++ s) = Some s.
Proof.
  induction l as [ | a l IH ]; simpl; [ reflexivity | ].
  now rewrite Ascii.eqb_refl.
Qed.

(** ** The matcher *)

Section Matcher.

Context {R : Type}.

Lemma exec_lit_seq (d : bool) (l : string) (tail : regex) :
  forall (s : string) (g : option string) (k : string -> option string -> option R),
    exec d (lit_seq l tail) s g k =
    match Str.after l s with
    | Some s' => exec d tail s' g k
    | None => None
    end.
Proof.
  induction l as [ | a l IH ]; intros s g k; simpl; [ reflexivity | ].
  destruct s as [ | c s ]; [ reflexivity | ].
  destruct (Ascii.eqb c a); [ apply IH | reflexivity ].
Qed.

(** A greedy star commits to the longest run when the rest of the pattern
    matches after it. *)
Lemma max_repeat_star_greedy (p : ascii -> bool) (k : string -> option R) :
  forall (s : string) (x : R),
    k (Str.drop_while p s) = Some x -> max_repeat p 0 None s k = Some x.
Proof.
  induction s as [ | c s IH ]; simpl; intros x H; [ exact H | ].
  destruct (p c); [ | exact H ].
  now rewrite (IH x H).
Qed.

(** A greedy star gives nothing back usefully when the rest of the pattern
    cannot start with a character of the run: the only attempt that counts
    is the one after the longest run. *)
Lemma max_repeat_star_skip (p : ascii -> bool) (k : string -> option R) :
  (forall c s, p c = true -> k (String c s) = None) ->
  forall s : string, max_repeat p 0 None s k = k (Str.drop_while p s).
Proof.
  intros Hk. induction s as [ | c s IH ]; simpl; [ reflexivity | ].
  destruct (p c) eqn:E; [ | reflexivity ].
  rewrite IH. destruct (k (Str.drop_while p s)); [ reflexivity | ].
  now apply Hk.
Qed.

Lemma max_repeat_exhausted (p : ascii -> bool) (k : string -> option R)
    (s : string) :
  max_repeat p 0 (Some 0) s k = k s.
Proof. destruct s; reflexivity. Qed.

End Matcher.

(** The two ways the source's patterns use "\s*": before an item no
    whitespace can start, and before an item that always matches. *)
Section Whitespace.

Context {R : Type}.
Variables (d : bool) (tail : regex) (g : option string).
Variable k : string -> option string -> option R.

Lemma exec_ws_skip (s : string) :
  (forall c s', Char.isspace c = true -> exec d tail (String c s') g k = None) ->
  exec d (Seq ws tail) s g k = exec d tail (Str.lstrip s) g k.
Proof.
  intros Hk. simpl.
  now rewrite (max_repeat_star_skip Char.isspace (fun s' => exec d tail s' g k) Hk).
Qed.

Lemma exec_ws_greedy (s : string) (x : R) :
  exec d tail (Str.lstrip s) g k = Some x ->
  exec d (Seq ws tail) s g k = Some x.
Proof.
  intros H. simpl.
  now apply (max_repeat_star_greedy Char.isspace (fun s' => exec d tail s' g k)).
Qed.

End Whitespace.

(** ** Search *)

Section Search.

Variables (d : bool) (r : regex).

Lemma match_at_start (p : nat) (s : string) (m : Match) :
  match_at d r p s = Some m -> m_start m = p.
Proof.
  unfold match_at.
  destruct (exec d r s None found) as [ [s' g] | ];
    [ | discriminate ].
  intros H. now inversion H.
Qed.

(** The search returns the match of the leftmost position at which an
    attempt succeeds. *)
Lemma search_from_leftmost :
  forall (i : nat) (s : string) (pos : nat) (m : Match),
    i <= String.length s ->
    match_at d r (pos + i) (Str.skip i s) = Some m ->
    (forall j, j < i -> match_at d r (pos + j) (Str.skip j s) = None) ->
    search_from d r pos s = Some m.
Proof.
  induction i as [ | i IH ]; intros s pos m Hi Hm Hnone.
  - rewrite Nat.add_0_r in Hm. destruct s; simpl in *; now rewrite Hm.
  - destruct s as [ | c s ]; [ simpl in Hi; lia | ].
    simpl. pose proof (Hnone 0 (Nat.lt_0_succ i)) as H0.
    rewrite Nat.add_0_r in H0. simpl in H0. rewrite H0.
    apply IH.
    + simpl in Hi. lia.
    + replace (S pos + i) with (pos + S i) by lia. exact Hm.
    + intros j Hj. replace (S pos + j) with (pos + S j) by lia.
      apply (Hnone (S j)). lia.
Qed.

Lemma search_from_found :
  forall (s : string) (pos : nat) (m : Match),
    search_from d r pos s = Some m ->
    exists i,
      i <= String.length s
      /\ match_at d r (pos + i) (Str.skip i s) = Some m
      /\ (forall j, j < i -> match_at d r (pos + j) (Str.skip j s) = None).
Proof.
  induction s as [ | c s IH ]; intros pos m; simpl.
  - destruct (match_at d r pos "") eqn:E; [ | discriminate ].
    intros H. inversion H; subst. exists 0. rewrite Nat.add_0_r.
    repeat split; [ lia | exact E | intros j Hj; lia ].
  - destruct (match_at d r pos (String c s)) eqn:E.
    + intros H. inversion H; subst. exists 0. rewrite Nat.add_0_r.
      repeat split; [ lia | exact E | intros j Hj; lia ].
    + intros H. destruct (IH _ _ H) as (i & Hi & Hm & Hnone).
      exists (S i). replace (pos + S i) with (S pos + i) by lia.
      repeat split; [ lia | exact Hm | ].
      intros [ | j ] Hj.
      * now rewrite Nat.add_0_r.
      * replace (pos + S j) with (S pos + j) by lia. apply Hnone. lia.
Qed.

(** What a found match holds was captured by an attempt on a suffix of the
    text. *)
Lemma search_from_group (s : string) (pos : nat) (m : Match) :
  search_from d r pos s = Some m ->
  exists (i : nat) (s' : string),
    i <= String.length s
    /\ exec d r (Str.skip i s) None found
       = Some (s', m_group1 m).
Proof.
  intros H. destruct (search_from_found _ _ _ H) as (i & Hi & Hm & _).
  unfold match_at in Hm.
  destruct (exec d r (Str.skip i s) None found)
    as [ [s' g] | ] eqn:E; [ | discriminate ].
  exists i, s'. split; [ exact Hi | ]. now inversion Hm.
Qed.

End Search.

(** ** Characters *)

Lemma space_not_digit (c : ascii) :
  Char.isspace c = true -> Char.isdigit c = false.
Proof. each_char c. Qed.

Lemma space_not_rating (c : ascii) :
  Char.isspace c = true -> Char.in_range "0" "5" c = false.
Proof. each_char c. Qed.

Lemma space_not_colon (c : ascii) :
  Char.isspace c = true -> Ascii.eqb c ":" = false.
Proof. each_char c. Qed.

Lemma space_not_Y (c : ascii) :
  Char.isspace c = true -> Ascii.eqb c "Y" = false.
Proof. each_char c. Qed.

Lemma space_not_N (c : ascii) :
  Char.isspace c = true -> Ascii.eqb c "N" = false.
Proof. each_char c. Qed.

Lemma LF_is_space : Char.isspace Char.LF = true.
Proof. reflexivity. Qed.

Lemma rating_is_digit (c : ascii) :
  Char.in_range "0" "5" c = true -> Char.isdigit c = true.
Proof. each_char c. Qed.

Lemma digit_value_bounds (hi c : ascii) :
  Char.in_range "0" hi c = true ->
  (0 <= Char.digit_value c <= Z.of_nat (Char.code hi - 48))%Z.
Proof.
  unfold Char.in_range, Char.digit_value. intros H.
  apply andb_true_iff in H. destruct H as [H1 H2].
  apply Nat.leb_le in H1, H2. change (Char.code "0") with 48 in H1. lia.
Qed.

(** ** Conversion to [int] *)

Lemma all_impl (p q : ascii -> bool) (s : string) :
  (forall c, p c = true -> q c = true) ->
  Str.all p s = true -> Str.all q s = true.
Proof.
  intros Hpq. induction s as [ | c s IH ]; simpl; [ reflexivity | ].
  intros H. apply andb_true_iff in H. destruct H as [Hc Hs].
  now rewrite (Hpq c Hc), (IH Hs).
Qed.

Lemma rstrip_no_space (s : string) :
  Str.all (fun c => negb (Char.isspace c)) s = true -> Str.rstrip s = s.
Proof.
  induction s as [ | c s IH ]; simpl; [ reflexivity | ].
  intros H. apply andb_true_iff in H. destruct H as [Hc Hs].
  rewrite (IH Hs). destruct s; [ | reflexivity ].
  now destruct (Char.isspace c).
Qed.

Lemma strip_digits (s : string) :
  Str.all Char.isdigit s = true -> Str.strip s = s.
Proof.
  intros H. unfold Str.strip, Str.lstrip.
  assert (Hns : Str.all (fun c => negb (Char.isspace c)) s = true).
  { apply (all_impl Char.isdigit); [ | exact H ].
    intros c Hc. destruct (Char.isspace c) eqn:E; [ | reflexivity ].
    apply space_not_digit in E. congruence. }
  replace (Str.drop_while Char.isspace s) with s.
  - now apply rstrip_no_space.
  - destruct s as [ | c s ]; simpl; [ reflexivity | ].
    simpl in Hns. apply andb_true_iff in Hns. destruct Hns as [Hc _].
    now destruct (Char.isspace c).
Qed.

Lemma int_digits_run (s : string) :
  Str.all Char.isdigit s = true ->
  forall (prev : bool) (acc : Z) (n : nat),
    prev = true \/ s <> "" ->
    int_digits prev acc n s = Some (decimal acc s, n + String.length s).
Proof.
  induction s as [ | c s IH ]; simpl; intros H prev acc n Hp.
  - destruct Hp as [ -> | Hp ]; [ | congruence ].
    now rewrite Nat.add_0_r.
  - apply andb_true_iff in H. destruct H as [Hc Hs]. rewrite Hc.
    rewrite (IH Hs); [ | now left ].
    now rewrite Nat.add_succ_r.
Qed.

(** On a run of digits [int] gives the number the run writes, unless the
    run is longer than the interpreter allows. *)
Lemma int_of_digits (lim : nat) (s : string) :
  s <> "" -> Str.all Char.isdigit s = true ->
  int lim (Some s) =
  if (0 <? lim) && (640 <? String.length s) && (lim <? String.length s)
  then Raise ValueError
  else Return (decimal 0 s).
Proof.
  intros Hne H. unfold int. rewrite (strip_digits s H).
  destruct s as [ | c s ]; [ congruence | ].
  assert (Hsign : (match String c s with
                   | String "-" b => (true, b)
                   | String "+" b => (false, b)
                   | _ => (false, String c s)
                   end) = (false, String c s)).
  { simpl in H. apply andb_true_iff in H. destruct H as [Hc _].
    revert Hc. clear. each_char c. }
  rewrite Hsign.
  rewrite (int_digits_run (String c s) H false 0%Z 0); [ | right; congruence ].
  reflexivity.
Qed.

Lemma int_of_short_digits (lim : nat) (s : string) :
  s <> "" -> Str.all Char.isdigit s = true -> String.length s <= 640 ->
  int lim (Some s) = Return (decimal 0 s).
Proof.
  intros Hne H Hl. rewrite (int_of_digits lim s Hne H).
  destruct (Nat.ltb_spec 640 (String.length s)); [ lia | ].
  now rewrite andb_false_r.
Qed.


(** ** What one attempt of each rule does *)

Section Rules.

Variable l : string.

Lemma exec_colon_then {R : Type} (d : bool) (tail : regex) (s : string)
    (g : option string) (k : string -> option string -> option R) :
  exec d (colon_then tail) s g k =
  match Str.lstrip s with
  | String c s' => if Ascii.eqb c ":" then exec d (Seq ws tail) s' g k else None
  | EmptyString => None
  end.
Proof.
  unfold colon_then. rewrite exec_ws_skip.
  - destruct (Str.lstrip s); reflexivity.
  - intros c s' Hc. cbn [exec member]. now rewrite (space_not_colon c Hc).
Qed.

(** [line_rule]: the group is the line that starts at the first
    character after the colon that is not whitespace. *)
Lemma exec_line_rule (s : string) :
  exec false (line_rule l) s None found =
  match Str.after l s with
  | Some s1 =>
      match Str.lstrip s1 with
      | String c s2 =>
          if Ascii.eqb c ":"
          then Some (Str.drop_while Char.not_LF (Str.lstrip s2),
                     Some (Str.take_while Char.not_LF (Str.lstrip s2)))
          else None
      | EmptyString => None
      end
  | None => None
  end.
Proof.
  unfold line_rule. rewrite exec_lit_seq.
  destruct (Str.after l s) as [s1 | ]; [ | reflexivity ].
  rewrite exec_colon_then.
  destruct (Str.lstrip s1) as [ | c s2 ]; [ reflexivity | ].
  destruct (Ascii.eqb c ":"); [ | reflexivity ].
  apply exec_ws_greedy. cbn [exec]. change (member false Dot) with Char.not_LF.
  apply max_repeat_star_greedy. unfold found.
  now rewrite consumed_drop_while.
Qed.

(** [rest_rule]: the group is what is left of the line. *)
Lemma exec_rest_rule (s : string) :
  exec false (rest_rule l) s None found =
  match Str.after l s with
  | Some s1 =>
      Some (Str.drop_while Char.not_LF s1, Some (Str.take_while Char.not_LF s1))
  | None => None
  end.
Proof.
  unfold rest_rule. rewrite exec_lit_seq.
  destruct (Str.after l s) as [s1 | ]; [ | reflexivity ].
  cbn [exec]. change (member false Dot) with Char.not_LF.
  apply max_repeat_star_greedy. unfold found.
  now rewrite consumed_drop_while.
Qed.

(** [rating_rule]: the group is the first character after the label
    that is not whitespace, when it is a digit from 0 to 5. *)
Lemma exec_rating_rule (s : string) :
  exec false (rating_rule l) s None found =
  match Str.after l s with
  | Some s1 =>
      match Str.lstrip s1 with
      | String c s2 =>
          if Char.in_range "0" "5" c
          then Some (s2, Some (String c ""))
          else None
      | EmptyString => None
      end
  | None => None
  end.
Proof.
  unfold rating_rule. rewrite exec_lit_seq.
  destruct (Str.after l s) as [s1 | ]; [ | reflexivity ].
  rewrite exec_ws_skip.
  - cbn [exec member]. destruct (Str.lstrip s1) as [ | c s2 ]; [ reflexivity | ].
    destruct (Char.in_range "0" "5" c); [ | reflexivity ].
    unfold found. now rewrite consumed_1.
  - intros c s' Hc. cbn [exec member]. now rewrite (space_not_rating c Hc).
Qed.

(** [symptom_rule]: the group is the first one or two digits. *)
Lemma exec_symptom_rule (s : string) :
  exec false (symptom_rule l) s None found =
  match Str.after l s with
  | Some s1 =>
      match Str.lstrip s1 with
      | String c1 (String c2 s2) =>
          if Char.isdigit c1
          then if Char.isdigit c2
               then Some (s2, Some (String c1 (String c2 "")))
               else Some (String c2 s2, Some (String c1 ""))
          else None
      | String c1 EmptyString =>
          if Char.isdigit c1 then Some ("", Some (String c1 "")) else None
      | EmptyString => None
      end
  | None => None
  end.
Proof.
  unfold symptom_rule. rewrite exec_lit_seq.
  destruct (Str.after l s) as [s1 | ]; [ | reflexivity ].
  rewrite exec_ws_skip.
  - cbn [exec member]. unfold Char.isdigit.
    destruct (Str.lstrip s1) as [ | c1 [ | c2 s2 ] ]; [ reflexivity | | ].
    + cbn [max_repeat exhausted dec_max option_map pred member].
      destruct (Char.in_range "0" "9" c1); [ | reflexivity ].
      unfold found. now rewrite consumed_1.
    + cbn [max_repeat exhausted dec_max option_map pred member].
      destruct (Char.in_range "0" "9" c1); [ | reflexivity ].
      rewrite max_repeat_exhausted.
      destruct (Char.in_range "0" "9" c2); unfold found.
      * now rewrite consumed_2.
      * now rewrite consumed_1.
  - intros c s' Hc. cbn [exec max_repeat exhausted member].
    pose proof (space_not_digit c Hc) as Hd. unfold Char.isdigit in Hd.
    now rewrite Hd.
Qed.

(** [number_rule]: the group is the whole run of digits. *)
Lemma exec_number_rule (s : string) :
  exec false (number_rule l) s None found =
  match Str.after l s with
  | Some s1 =>
      match Str.lstrip s1 with
      | String c s2 =>
          if Ascii.eqb c ":"
          then match Str.lstrip s2 with
               | String a s3 =>
                   if Char.isdigit a
                   then Some (Str.drop_while Char.isdigit s3,
                              Some (String a (Str.take_while Char.isdigit s3)))
                   else None
               | EmptyString => None
               end
          else None
      | EmptyString => None
      end
  | None => None
  end.
Proof.
  unfold number_rule. rewrite exec_lit_seq.
  destruct (Str.after l s) as [s1 | ]; [ | reflexivity ].
  rewrite exec_colon_then.
  destruct (Str.lstrip s1) as [ | c s2 ]; [ reflexivity | ].
  destruct (Ascii.eqb c ":"); [ | reflexivity ].
  rewrite exec_ws_skip.
  - cbn [exec member]. destruct (Str.lstrip s2) as [ | a s3 ]; [ reflexivity | ].
    cbn [max_repeat exhausted dec_max option_map pred member].
    destruct (Char.isdigit a) eqn:Ea; [ | reflexivity ].
    rewrite (max_repeat_star_greedy Char.isdigit _ s3
               (Str.drop_while Char.isdigit s3,
                Some (String a (Str.take_while Char.isdigit s3)))).
    + reflexivity.
    + unfold found.
      rewrite consumed_cons by apply drop_while_length.
      now rewrite consumed_drop_while.
  - intros a s' Ha. cbn [exec max_repeat exhausted member].
    now rewrite (space_not_digit a Ha).
Qed.

(** [checkbox_rule]: the group is YES or NO, whichever the text
    after the colon and the whitespace starts with. *)
Lemma exec_checkbox_rule (s : string) :
  exec false (checkbox_rule l) s None found =
  match Str.after l s with
  | Some s1 =>
      match Str.lstrip s1 with
      | String c s2 =>
          if Ascii.eqb c ":"
          then match Str.after "YES" (Str.lstrip s2) with
               | Some s3 => Some (s3, Some "YES")
               | None =>
                   match Str.after "NO" (Str.lstrip s2) with
                   | Some s3 => Some (s3, Some "NO")
                   | None => None
                   end
               end
          else None
      | EmptyString => None
      end
  | None => None
  end.
Proof.
  unfold checkbox_rule. rewrite exec_lit_seq.
  destruct (Str.after l s) as [s1 | ]; [ | reflexivity ].
  rewrite exec_colon_then.
  destruct (Str.lstrip s1) as [ | c s2 ]; [ reflexivity | ].
  destruct (Ascii.eqb c ":"); [ | reflexivity ].
  rewrite exec_ws_skip.
  - generalize (Str.lstrip s2). intros t. cbn [exec member Str.after].
    destruct t as [ | a t ]; [ reflexivity | ].
    destruct (Ascii.eqb_spec a "Y") as [ -> | Ha ].
    + destruct t as [ | b t ]; [ reflexivity | ].
      destruct (Ascii.eqb_spec b "E") as [ -> | Hb ]; [ | reflexivity ].
      destruct t as [ | e t ]; [ reflexivity | ].
      destruct (Ascii.eqb_spec e "S") as [ -> | He ]; [ | reflexivity ].
      unfold found. now rewrite (consumed_w "YES" t (String "Y" (String "E" (String "S" t))) eq_refl).
    + destruct (Ascii.eqb_spec a "N") as [ -> | Hn ]; [ | reflexivity ].
      destruct t as [ | b t ]; [ reflexivity | ].
      destruct (Ascii.eqb_spec b "O") as [ -> | Hb ]; [ | reflexivity ].
      unfold found. now rewrite (consumed_w "NO" t (String "N" (String "O" t)) eq_refl).
  - intros a s' Ha. cbn [exec member].
    now rewrite (space_not_Y a Ha), (space_not_N a Ha).
Qed.

End Rules.

(** [paragraph_rule]: the lazy group stops at the first place where a
    line break followed by a character that is not whitespace lies ahead. *)
Lemma min_repeat_first {R : Type} (p : ascii -> bool) (k : string -> option R) :
  forall (s : string) (x : R),
    min_repeat p 0 None s k = Some x ->
    exists w s',
      s = (w ++ s')%string
      /\ Str.all p w = true
      /\ k s' = Some x
      /\ (forall w1 w2, w = (w1 ++ w2)%string -> w2 <> "" ->
            k (w2 ++ s')%string = None).
Proof.
  induction s as [ | c s IH ]; intros x; cbn [min_repeat exhausted dec_max option_map pred].
  - destruct (k "") eqn:E; [ | discriminate ].
    intros H. inversion H; subst. exists "", "".
    repeat split; try assumption.
    intros [ | ? ? ] w2 Hw Hne; [ simpl in Hw; congruence | discriminate ].
  - destruct (k (String c s)) eqn:E.
    + intros H. inversion H; subst. exists "", (String c s).
      repeat split; try assumption.
      intros [ | ? ? ] w2 Hw Hne; [ simpl in Hw; congruence | discriminate ].
    + destruct (p c) eqn:Ec; [ | discriminate ].
      intros H. destruct (IH x H) as (w & s' & -> & Hall & Hk & Hmin).
      exists (String c w), s'. repeat split.
      * simpl. now rewrite Ec.
      * exact Hk.
      * intros [ | a w1 ] w2 Hw Hne.
        -- simpl in Hw. subst w2. exact E.
        -- simpl in Hw. inversion Hw; subst. now apply (Hmin w1 w2).
Qed.

Lemma exec_paragraph_rule (l s s' : string) (g : option string) :
  exec true (paragraph_rule l) s None found = Some (s', g) ->
  exists w,
    Str.after l s = Some (w ++ s')%string
    /\ g = Some w
    /\ Str.unindented_line_ahead s' = true
    /\ (forall w1 w2, w = (w1 ++ w2)%string -> w2 <> "" ->
          Str.unindented_line_ahead (w2 ++ s') = false).
Proof.
  unfold paragraph_rule. rewrite exec_lit_seq.
  destruct (Str.after l s) as [s1 | ]; [ | discriminate ].
  cbn [exec]. intros H. apply min_repeat_first in H.
  destruct H as (w & t & -> & _ & Hk & Hmin).
  assert (Hahead : forall (u : string) (h : option string) y,
            exec true (Ahead (Seq (OneOf (Char Char.LF)) (OneOf NotSpace)))
              u h found = y ->
            y = if Str.unindented_line_ahead u then Some (u, h) else None).
  { intros u h y <-. cbn [exec member]. unfold Str.unindented_line_ahead.
    destruct u as [ | a [ | b u ] ]; [ reflexivity | | ].
    - now destruct (Ascii.eqb a Char.LF).
    - destruct (Ascii.eqb a Char.LF); [ | reflexivity ].
      now destruct (Char.isspace b). }
  apply Hahead in Hk.
  destruct (Str.unindented_line_ahead t) eqn:Et; [ | discriminate ].
  inversion Hk; subst. rewrite consumed_app.
  exists w. split; [ reflexivity | ]. split; [ reflexivity | ].
  split; [ exact Et | ].
  intros w1 w2 Hw Hne. specialize (Hmin w1 w2 Hw Hne).
  apply Hahead in Hmin.
  match type of Hmin with
  | context [ if ?b then _ else _ ] => now destruct b
  end.
Qed.

(** ** What the lookup helpers return *)

Lemma search_compiled (pattern : string) (r : regex) (text : string) (d : bool) :
  compile pattern = Return r ->
  search pattern text d = Return (search_from d r 0 text).
Proof. intros H. unfold search. now rewrite H. Qed.

Lemma decimal_nonneg (s : string) :
  forall acc : Z, (0 <= acc)%Z -> (0 <= decimal acc s)%Z.
Proof.
  induction s as [ | c s IH ]; cbn [decimal]; intros acc Hacc; [ exact Hacc | ].
  apply IH. unfold Char.digit_value. lia.
Qed.

Section Lookup.

Variables (lim : nat) (pattern : string) (r : regex) (text : string).
Hypothesis compiled : compile pattern = Return r.

Lemma _find_value_compiled (d : bool) :
  _find_value pattern text d =
  match search_from d r 0 text with
  | Some m =>
      match m_group1 m with
      | Some g => Return (VStr (Str.strip g))
      | None => Raise AttributeError
      end
  | None => Return VNone
  end.
Proof.
  unfold _find_value. now rewrite (search_compiled _ _ _ _ compiled).
Qed.

Lemma _find_numeric_value_compiled :
  _find_numeric_value lim pattern text =
  match search_from false r 0 text with
  | Some m => bind (int lim (m_group1 m)) (fun n => Return (VInt n))
  | None => Return VNone
  end.
Proof.
  unfold _find_numeric_value. now rewrite (search_compiled _ _ _ _ compiled).
Qed.

Lemma _find_checkbox_compiled :
  _find_checkbox pattern text =
  match search_from false r 0 text with
  | Some m =>
      match m_group1 m with
      | Some g => Return (VStr g)
      | None => Return VNone
      end
  | None => Return VNone
  end.
Proof.
  unfold _find_checkbox. now rewrite (search_compiled _ _ _ _ compiled).
Qed.

End Lookup.

Section Values.

Variables (lim : nat) (pattern l text : string).

(** A rating is [None] or the digit from 0 to 5 that was captured, and
    the lookup never raises. *)
Lemma rating_rule_value :
  compile pattern = Return (rating_rule l) ->
  exists v, _find_numeric_value lim pattern text = Return v
            /\ int_or_none 0 5 v.
Proof.
  intros Hc. rewrite (_find_numeric_value_compiled _ _ _ _ Hc).
  destruct (search_from false (rating_rule l) 0 text) as [m | ] eqn:E.
  - apply search_from_group in E. destruct E as (i & s' & _ & E).
    rewrite exec_rating_rule in E.
    destruct (Str.after l (Str.skip i text)) as [s1 | ]; [ | discriminate ].
    destruct (Str.lstrip s1) as [ | c s2 ]; [ discriminate | ].
    destruct (Char.in_range "0" "5" c) eqn:Ec; [ | discriminate ].
    inversion E as [[Hs Hg]]. clear E Hs Hg.
    rewrite int_of_short_digits.
    + exists (VInt (decimal 0 (String c ""))). split; [ reflexivity | ].
      right. eexists. split; [ reflexivity | ].
      pose proof (digit_value_bounds "5" c Ec) as Hb.
      cbn [decimal]. change (Z.of_nat (Char.code "5" - 48)) with 5%Z in Hb. lia.
    + discriminate.
    + simpl. now rewrite (rating_is_digit c Ec).
    + simpl. lia.
  - exists VNone. split; [ reflexivity | now left ].
Qed.

(** A symptom score is [None] or the number the one or two captured digits
    write, and the lookup never raises. *)
Lemma symptom_rule_value :
  compile pattern = Return (symptom_rule l) ->
  exists v, _find_numeric_value lim pattern text = Return v
            /\ int_or_none 0 99 v.
Proof.
  intros Hc. rewrite (_find_numeric_value_compiled _ _ _ _ Hc).
  destruct (search_from false (symptom_rule l) 0 text) as [m | ] eqn:E.
  - apply search_from_group in E. destruct E as (i & s' & _ & E).
    rewrite exec_symptom_rule in E.
    destruct (Str.after l (Str.skip i text)) as [s1 | ]; [ | discriminate ].
    assert (Hd : forall c, Char.isdigit c = true ->
                   (0 <= Char.digit_value c <= 9)%Z).
    { intros c Hc'. exact (digit_value_bounds "9" c Hc'). }
    assert (Hg : exists w, m_group1 m = Some w /\ w <> ""
                           /\ Str.all Char.isdigit w = true
                           /\ String.length w <= 2
                           /\ (0 <= decimal 0 w <= 99)%Z).
    { destruct (Str.lstrip s1) as [ | c1 [ | c2 s2 ] ]; [ discriminate | | ].
      - destruct (Char.isdigit c1) eqn:E1; [ | discriminate ].
        inversion E as [[Hs Hg]]. eexists. split; [ reflexivity | ].
        split; [ discriminate | ]. cbn [Str.all decimal String.length].
        rewrite E1. split; [ reflexivity | ]. split; [ lia | ].
        specialize (Hd c1 E1). lia.
      - destruct (Char.isdigit c1) eqn:E1; [ | discriminate ].
        destruct (Char.isdigit c2) eqn:E2; inversion E as [[Hs Hg]];
          (eexists; split; [ reflexivity | ]; split; [ discriminate | ]);
          cbn [Str.all decimal String.length]; rewrite ?E1, ?E2;
          (split; [ reflexivity | ]); (split; [ lia | ]);
          pose proof (Hd c1 E1); try pose proof (Hd c2 E2); lia. }
    destruct Hg as (w & -> & Hne & Hall & Hlen & Hb).
    rewrite int_of_short_digits; [ | assumption | assumption | lia ].
    exists (VInt (decimal 0 w)). split; [ reflexivity | ].
    right. now exists (decimal 0 w).
  - exists VNone. split; [ reflexivity | now left ].
Qed.

(** A number is [None] or the value of the captured run of digits; the
    lookup raises [ValueError], and nothing else, when the run is longer
    than the interpreter converts. *)
Lemma number_rule_value :
  compile pattern = Return (number_rule l) ->
  (exists v, _find_numeric_value lim pattern text = Return v
             /\ (v = VNone \/ exists n : Z, v = VInt n /\ (0 <= n)%Z))
  \/ (0 < lim /\ _find_numeric_value lim pattern text = Raise ValueError).
Proof.
  intros Hc. rewrite (_find_numeric_value_compiled _ _ _ _ Hc).
  destruct (search_from false (number_rule l) 0 text) as [m | ] eqn:E.
  - apply search_from_group in E. destruct E as (i & s' & _ & E).
    rewrite exec_number_rule in E.
    destruct (Str.after l (Str.skip i text)) as [s1 | ]; [ | discriminate ].
    destruct (Str.lstrip s1) as [ | c s2 ]; [ discriminate | ].
    destruct (Ascii.eqb c ":"); [ | discriminate ].
    destruct (Str.lstrip s2) as [ | a s3 ]; [ discriminate | ].
    destruct (Char.isdigit a) eqn:Ea; [ | discriminate ].
    inversion E as [[Hs Hg]]. clear E Hs Hg.
    rewrite int_of_digits.
    + destruct (0 <? lim) eqn:El; cbn [andb].
      * match goal with
        | |- context [ if ?b then _ else _ ] => destruct b
        end.
        -- right. apply Nat.ltb_lt in El. now split.
        -- left. eexists. split; [ reflexivity | ]. right.
           eexists. split; [ reflexivity | ]. now apply decimal_nonneg.
      * left. eexists. split; [ reflexivity | ]. right.
        eexists. split; [ reflexivity | ]. now apply decimal_nonneg.
    + discriminate.
    + cbn [Str.all]. rewrite Ea. apply take_while_all.
  - left. exists VNone. split; [ reflexivity | now left ].
Qed.

(** A checkbox is [None], YES or NO, and the lookup never raises. *)
Lemma checkbox_rule_value :
  compile pattern = Return (checkbox_rule l) ->
  exists v, _find_checkbox pattern text = Return v
            /\ (v = VNone \/ v = VStr "YES" \/ v = VStr "NO").
Proof.
  intros Hc. rewrite (_find_checkbox_compiled _ _ _ Hc).
  destruct (search_from false (checkbox_rule l) 0 text) as [m | ] eqn:E.
  - apply search_from_group in E. destruct E as (i & s' & _ & E).
    rewrite exec_checkbox_rule in E.
    destruct (Str.after l (Str.skip i text)) as [s1 | ]; [ | discriminate ].
    destruct (Str.lstrip s1) as [ | c s2 ]; [ discriminate | ].
    destruct (Ascii.eqb c ":"); [ | discriminate ].
    destruct (Str.after "YES" (Str.lstrip s2)).
    + inversion E as [[Hs Hg]]. eexists. split; [ reflexivity | tauto ].
    + destruct (Str.after "NO" (Str.lstrip s2)); [ | discriminate ].
      inversion E as [[Hs Hg]]. eexists. split; [ reflexivity | tauto ].
  - exists VNone. split; [ reflexivity | tauto ].
Qed.

End Values.

Section Texts.

Variables (pattern l text : string).

(** A single-line text field is [None] or the trimmed line found after its
    label, and the lookup never raises. *)
Lemma line_rule_value :
  compile pattern = Return (line_rule l) ->
  exists v, _find_value pattern text false = Return v
            /\ (v = VNone
                \/ exists line, line_after l text line
                                /\ v = VStr (Str.strip line)).
Proof.
  intros Hc. rewrite (_find_value_compiled _ _ _ Hc).
  destruct (search_from false (line_rule l) 0 text) as [m | ] eqn:E.
  - apply search_from_group in E. destruct E as (i & s' & _ & E).
    rewrite exec_line_rule in E.
    destruct (Str.after l (Str.skip i text)) as [s1 | ] eqn:E1; [ | discriminate ].
    destruct (Str.lstrip s1) as [ | c s2 ] eqn:E2; [ discriminate | ].
    destruct (Ascii.eqb_spec c ":") as [ -> | ]; [ | discriminate ].
    inversion E as [[Hs Hg]]. clear E Hs Hg.
    eexists. split; [ reflexivity | ]. right.
    exists (Str.take_while Char.not_LF (Str.lstrip s2)). split; [ | reflexivity ].
    exists (Str.take i text), (Str.take_while Char.isspace s1),
           (Str.take_while Char.isspace s2),
           (Str.drop_while Char.not_LF (Str.lstrip s2)).
    split; [ | split; [ | split; [ | split; [ | split; [ | split ] ] ] ] ].
    + rewrite take_drop_while. change (":" ++ ?x)%string with (String ":" x).
      change (Str.drop_while Char.isspace s2) with (Str.lstrip s2).
      cbn [append]. unfold Str.lstrip at 1. rewrite take_drop_while.
      rewrite <- E2. unfold Str.lstrip. rewrite take_drop_while.
      rewrite <- (after_app _ _ _ E1). now rewrite take_skip.
    + apply take_while_all.
    + apply take_while_all.
    + apply take_while_all.
    + intros a t Ha. unfold Str.lstrip in Ha.
      destruct (Str.drop_while Char.isspace s2) as [ | b u ] eqn:E3;
        [ discriminate | ].
      apply drop_while_head in E3. cbn [Str.take_while] in Ha.
      destruct (Char.not_LF b); [ | discriminate ].
      now inversion Ha; subst.
    + destruct (Str.drop_while Char.not_LF (Str.lstrip s2)) as [ | b u ] eqn:E3;
        [ now left | right ].
      apply drop_while_head in E3. unfold Char.not_LF in E3.
      destruct (Ascii.eqb_spec b Char.LF) as [ -> | ]; [ | discriminate ].
      now exists u.
    + unfold Str.lstrip.
      destruct (Str.drop_while Char.isspace s2) as [ | b u ] eqn:E3;
        [ reflexivity | ].
      apply drop_while_head in E3. cbn [Str.take_while Str.drop_while].
      destruct (Char.not_LF b) eqn:E4; [ discriminate | ].
      unfold Char.not_LF in E4.
      destruct (Ascii.eqb_spec b Char.LF) as [ -> | ]; [ | discriminate ].
      rewrite LF_is_space in E3. discriminate.
  - exists VNone. split; [ reflexivity | now left ].
Qed.

(** When only whitespace follows the colon up to the end of the text, the
    field is the empty string. *)
Lemma line_rule_blank (ws1 ws2 : string) :
  compile pattern = Return (line_rule l) ->
  Str.all Char.isspace ws1 = true ->
  Str.all Char.isspace ws2 = true ->
  _find_value pattern (l ++ ws1 ++ ":" ++ ws2) false = Return (VStr "").
Proof.
  intros Hc H1 H2. rewrite (_find_value_compiled _ _ _ Hc).
  assert (E : exec false (line_rule l) (l ++ ws1 ++ ":" ++ ws2) None found
              = Some ("", Some "")).
  { rewrite exec_line_rule, after_prefix. unfold Str.lstrip.
    rewrite (drop_while_all _ ws1 _ H1).
    change (Str.drop_while Char.isspace (":" ++ ws2)) with (String ":" ws2).
    cbn iota. rewrite Ascii.eqb_refl.
    now rewrite (drop_while_only _ ws2 H2). }
  destruct (l ++ ws1 ++ ":" ++ ws2)%string eqn:Et;
    cbn [search_from]; unfold match_at; rewrite E; reflexivity.
Qed.

(** The field read to the end of the label's line never raises. *)
Lemma rest_rule_value :
  compile pattern = Return (rest_rule l) ->
  exists v, _find_value pattern text false = Return v
            /\ (v = VNone \/ exists s, v = VStr s).
Proof.
  intros Hc. rewrite (_find_value_compiled _ _ _ Hc).
  destruct (search_from false (rest_rule l) 0 text) as [m | ] eqn:E.
  - apply search_from_group in E. destruct E as (i & s' & _ & E).
    rewrite exec_rest_rule in E.
    destruct (Str.after l (Str.skip i text)) as [s1 | ]; [ | discriminate ].
    inversion E as [[Hs Hg]]. eexists. split; [ reflexivity | ].
    right. now eexists.
  - exists VNone. split; [ reflexivity | now left ].
Qed.

(** A multi-line text field is [None] or the trimmed paragraph found after
    its label, and the lookup never raises. *)
Lemma paragraph_rule_value :
  compile pattern = Return (paragraph_rule l) ->
  exists v, _find_value pattern text true = Return v
            /\ (v = VNone
                \/ exists w, paragraph_after l text w
                             /\ v = VStr (Str.strip w)).
Proof.
  intros Hc. rewrite (_find_value_compiled _ _ _ Hc).
  destruct (search_from true (paragraph_rule l) 0 text) as [m | ] eqn:E.
  - apply search_from_group in E. destruct E as (i & s' & _ & E).
    apply exec_paragraph_rule in E.
    destruct E as (w & Ha & -> & Hahead & Hmin).
    eexists. split; [ reflexivity | ]. right.
    exists w. split; [ | reflexivity ].
    exists (Str.take i text), s'. split; [ | now split ].
    rewrite <- (after_app _ _ _ Ha). now rewrite take_skip.
  - exists VNone. split; [ reflexivity | now left ].
Qed.

End Texts.

(** ** Looking a key up in a comprehension *)

Section DictGet.

Context {V : Type}.

Lemma dict_get_set_same (d : dict V) (k : string) (v : V) :
  dict_get (dict_set d k v) k = Some v.
Proof.
  induction d as [ | [k' v'] d IH ]; simpl.
  - now rewrite String.eqb_refl.
  - destruct (String.eqb k' k) eqn:E; simpl; now rewrite E.
Qed.

Lemma dict_get_set_other (d : dict V) (k k' : string) (v : V) :
  k <> k' -> dict_get (dict_set d k v) k' = dict_get d k'.
Proof.
  intros Hne. induction d as [ | [k0 v0] d IH ]; simpl.
  - destruct (String.eqb_spec k k'); [ contradiction | reflexivity ].
  - destruct (String.eqb_spec k0 k) as [ -> | ]; simpl.
    + destruct (String.eqb_spec k k'); [ contradiction | reflexivity ].
    + now rewrite IH.
Qed.

Lemma dict_comp_from_get (f : string -> result V) (ks : list string) :
  NoDup ks ->
  forall (d d' : dict V) (k : string),
    dict_comp_from f ks d = Return d' ->
    (In k ks -> exists v, f k = Return v /\ dict_get d' k = Some v)
    /\ (~ In k ks -> dict_get d' k = dict_get d k).
Proof.
  induction ks as [ | k0 ks IH ]; simpl; intros Hnd d d' k H.
  - inversion H; subst. split; [ contradiction | reflexivity ].
  - returned H. inversion Hnd as [ | ? ? Hk0 Hnd' ]; subst.
    destruct (IH Hnd' _ _ k H) as [Hin Hout]. split.
    + intros [ -> | Hk ]; [ | now apply Hin ].
      exists v. split; [ assumption | ].
      rewrite (Hout Hk0). apply dict_get_set_same.
    + intros Hk. rewrite Hout by tauto.
      apply dict_get_set_other. tauto.
Qed.

Lemma dict_comp_get (f : string -> result V) (ks : list string)
    (d : dict V) (k : string) :
  NoDup ks -> In k ks -> dict_comp f ks = Return d ->
  exists v, f k = Return v /\ dict_get d k = Some v.
Proof.
  intros Hnd Hk H.
  now destruct (dict_comp_from_get f ks Hnd [] d k H) as [Hin _]; apply Hin.
Qed.

End DictGet.

(** ** The patterns of the source *)

Lemma rating_patterns (task : string) :
  In task (difficulty_tasks init) ->
  compile (task_label task ++ ":\s*([0-5])")
  = Return (rating_rule (task_label task ++ ":")).
Proof. simpl. intuition subst; reflexivity. Qed.

Lemma symptom_patterns (symptom : string) :
  In symptom (pain_symptoms init) ->
  compile (Str.title symptom ++ ":\s*([0-9]{1,2})")
  = Return (symptom_rule (Str.title symptom ++ ":")).
Proof. simpl. intuition subst; reflexivity. Qed.

Lemma single_line_patterns (group name label : string) :
  In (group, name, label) single_line_rules ->
  compile (single_line_pattern label) = Return (line_rule label).
Proof.
  simpl. intros H.
  repeat (destruct H as [ H | H ]; [ inversion H; subst; reflexivity | ]).
  contradiction.
Qed.

(** ** The extractors *)

Section Extractors.

Variables (lim : nat) (text : string).

Lemma _extract_difficulty_ratings_returns :
  exists g, _extract_difficulty_ratings lim init text = Return g.
Proof.
  apply dict_comp_from_returns. intros task Htask.
  destruct (rating_rule_value lim _ _ text (rating_patterns task Htask))
    as (v & Hv & _).
  now exists v.
Qed.

Lemma _extract_difficulty_ratings_values (g : dict value) (task : string)
    (v : value) :
  _extract_difficulty_ratings lim init text = Return g ->
  dict_get g task = Some v -> int_or_none 0 5 v.
Proof.
  apply dict_comp_values. intros k w Hk Hw.
  destruct (rating_rule_value lim _ _ text (rating_patterns k Hk))
    as (v' & Hv' & Hr).
  congruence.
Qed.

Lemma _extract_pain_symptoms_returns :
  exists g, _extract_pain_symptoms lim init text = Return g.
Proof.
  apply dict_comp_from_returns. intros s Hs.
  destruct (symptom_rule_value lim _ _ text (symptom_patterns s Hs))
    as (v & Hv & _).
  now exists v.
Qed.

Lemma _extract_pain_symptoms_values (g : dict value) (symptom : string)
    (v : value) :
  _extract_pain_symptoms lim init text = Return g ->
  dict_get g symptom = Some v -> int_or_none 0 99 v.
Proof.
  apply dict_comp_values. intros k w Hk Hw.
  destruct (symptom_rule_value lim _ _ text (symptom_patterns k Hk))
    as (v' & Hv' & Hr).
  congruence.
Qed.

Lemma _extract_patient_info_returns :
  exists g, _extract_patient_info text = Return g.
Proof.
  unfold _extract_patient_info.
  destruct (line_rule_value "Patient Name\s*:\s*(.*)" "Patient Name" text eq_refl)
    as (v1 & -> & _).
  destruct (line_rule_value "DOB\s*:\s*(.*)" "DOB" text eq_refl)
    as (v2 & -> & _).
  cbn [bind]. now eexists.
Qed.

Lemma _extract_treatment_info_returns :
  exists g, _extract_treatment_info text = Return g.
Proof.
  unfold _extract_treatment_info.
  destruct (line_rule_value "Date\s*:\s*(.*)" "Date" text eq_refl)
    as (v1 & -> & _).
  destruct (checkbox_rule_value "INJECTION\s*:\s*(YES|NO)" "INJECTION" text eq_refl)
    as (v2 & -> & _).
  destruct (checkbox_rule_value "Exercise Therapy\s*:\s*(YES|NO)"
              "Exercise Therapy" text eq_refl)
    as (v3 & -> & _).
  cbn [bind]. now eexists.
Qed.

Lemma _extract_patient_changes_returns :
  exists g, _extract_patient_changes text = Return g.
Proof.
  unfold _extract_patient_changes.
  destruct (paragraph_rule_value
              "Patient changes since last treatment:(.*?)(?=\n\S)"
              "Patient changes since last treatment:" text eq_refl)
    as (v1 & -> & _).
  destruct (paragraph_rule_value
              "Patient changes since the start of treatment:(.*?)(?=\n\S)"
              "Patient changes since the start of treatment:" text eq_refl)
    as (v2 & -> & _).
  destruct (rest_rule_value
              "Describe any functional changes within the last three days \(good or bad\):(.*)"
              "Describe any functional changes within the last three days (good or bad):"
              text eq_refl)
    as (v3 & -> & _).
  cbn [bind]. now eexists.
Qed.

(** The vital signs are the one group that can fail: a run of digits too
    long for [int] raises [ValueError]. *)
Lemma _extract_ma_data_outcome :
  (exists g, _extract_ma_data lim text = Return g)
  \/ (0 < lim /\ _extract_ma_data lim text = Raise ValueError).
Proof.
  unfold _extract_ma_data.
  destruct (line_rule_value "Blood Pressure\s*:\s*(.*)" "Blood Pressure" text eq_refl)
    as (v1 & -> & _).
  destruct (line_rule_value "Height\s*:\s*(.*)" "Height" text eq_refl)
    as (v2 & -> & _).
  destruct (line_rule_value "Temperature\s*:\s*(.*)" "Temperature" text eq_refl)
    as (v3 & -> & _).
  cbn [bind].
  destruct (number_rule_value lim "HR\s*:\s*(\d+)" "HR" text eq_refl)
    as [ (n1 & -> & _) | (Hlim & ->) ]; [ cbn [bind] | now right ].
  destruct (number_rule_value lim "Weight\s*:\s*(\d+)" "Weight" text eq_refl)
    as [ (n2 & -> & _) | (Hlim & ->) ]; [ cbn [bind] | now right ].
  destruct (number_rule_value lim "SpO2\s*:\s*(\d+)" "SpO2" text eq_refl)
    as [ (n3 & -> & _) | (Hlim & ->) ]; [ cbn [bind] | now right ].
  destruct (number_rule_value lim "Blood Glucose\s*:\s*(\d+)" "Blood Glucose" text eq_refl)
    as [ (n4 & -> & _) | (Hlim & ->) ]; [ cbn [bind] | now right ].
  destruct (number_rule_value lim "Respirations\s*:\s*(\d+)" "Respirations" text eq_refl)
    as [ (n5 & -> & _) | (Hlim & ->) ]; [ cbn [bind] | now right ].
  left. now eexists.
Qed.

(** [parse_ocr_output] returns a record or raises [ValueError], which
    takes a limit on the digits [int] converts. *)
Lemma parse_ocr_output_outcome :
  (exists r, parse_ocr_output lim init text = Return r)
  \/ (0 < lim /\ parse_ocr_output lim init text = Raise ValueError).
Proof.
  unfold parse_ocr_output.
  destruct _extract_patient_info_returns as (g1 & ->).
  destruct _extract_treatment_info_returns as (g2 & ->).
  destruct _extract_difficulty_ratings_returns as (g3 & ->).
  destruct _extract_patient_changes_returns as (g4 & ->).
  destruct _extract_pain_symptoms_returns as (g5 & ->).
  cbn [bind].
  destruct _extract_ma_data_outcome as [ (g6 & ->) | (Hlim & ->) ].
  - left. now eexists.
  - now right.
Qed.

(** The record is made of what the six extractors returned. *)
Lemma parse_ocr_output_groups (r : dict (dict value)) :
  parse_ocr_output lim init text = Return r ->
  exists g1 g2 g3 g4 g5 g6,
    _extract_patient_info text = Return g1
    /\ _extract_treatment_info text = Return g2
    /\ _extract_difficulty_ratings lim init text = Return g3
    /\ _extract_patient_changes text = Return g4
    /\ _extract_pain_symptoms lim init text = Return g5
    /\ _extract_ma_data lim text = Return g6
    /\ r = [("patient_details", g1); ("treatment_details", g2);
            ("difficulty_ratings", g3); ("patient_changes", g4);
            ("pain_symptoms", g5); ("medical_assistant_data", g6)].
Proof.
  unfold parse_ocr_output. intros H. returned H.
  inversion H; subst. now repeat eexists.
Qed.

End Extractors.

(** With the limit on digits turned off, every text gives a record. *)
Lemma parse_ocr_output_returns_unlimited (text : string) :
  exists r, parse_ocr_output 0 init text = Return r.
Proof.
  destruct (parse_ocr_output_outcome 0 text) as [ H | [H _] ];
    [ exact H | inversion H ].
Qed.

(** An attempt that succeeds at the start of the text is what the search
    returns. *)
Lemma search_from_start (d : bool) (r : regex) (text s' : string)
    (g : option string) :
  exec d r text None found = Some (s', g) ->
  exists m, search_from d r 0 text = Some m /\ m_group1 m = g.
Proof.
  intros H. eexists. split.
  - apply (search_from_leftmost d r 0 text 0); [ lia | | intros j Hj; lia ].
    unfold match_at. cbn [Str.skip]. now rewrite H.
  - reflexivity.
Qed.

Lemma rating_not_space (c : ascii) :
  Char.in_range "0" "5" c = true -> Char.isspace c = false.
Proof.
  intros H. destruct (Char.isspace c) eqn:E; [ | reflexivity ].
  apply space_not_rating in E. congruence.
Qed.

(** The rating is the first digit after the label and the whitespace,
    whatever comes after that digit. *)
Lemma rating_rule_first_digit (lim : nat) (pattern l wsp : string) (c : ascii)
    (tail : string) :
  compile pattern = Return (rating_rule l) ->
  Str.all Char.isspace wsp = true ->
  Char.in_range "0" "5" c = true ->
  _find_numeric_value lim pattern (l ++ wsp ++ String c tail)
  = Return (VInt (Char.digit_value c)).
Proof.
  intros Hc Hw Hd. rewrite (_find_numeric_value_compiled _ _ _ _ Hc).
  destruct (search_from_start false (rating_rule l) (l ++ wsp ++ String c tail)
              tail (Some (String c ""))) as (m & -> & ->).
  - rewrite exec_rating_rule, after_prefix. unfold Str.lstrip.
    rewrite (drop_while_all _ wsp _ Hw). cbn [Str.drop_while].
    now rewrite (rating_not_space c Hd), Hd.
  - rewrite int_of_short_digits.
    + reflexivity.
    + discriminate.
    + cbn [Str.all]. now rewrite (rating_is_digit c Hd).
    + cbn [String.length]. lia.
Qed.

(** The checkbox is YES or NO as soon as the text after the colon and the
    whitespace starts with it, whatever comes after. *)
Lemma checkbox_rule_prefix (pattern l wsp token tail : string) :
  compile pattern = Return (checkbox_rule l) ->
  Str.all Char.isspace wsp = true ->
  token = "YES" \/ token = "NO" ->
  _find_checkbox pattern (l ++ " :" ++ wsp ++ token ++ tail)
  = Return (VStr token).
Proof.
  intros Hc Hw Ht. rewrite (_find_checkbox_compiled _ _ _ Hc).
  destruct (search_from_start false (checkbox_rule l)
              (l ++ " :" ++ wsp ++ token ++ tail) tail (Some token))
    as (m & -> & ->); [ | reflexivity ].
  rewrite exec_checkbox_rule, after_prefix.
  change (Str.lstrip (" :" ++ wsp ++ token ++ tail))
    with (String ":" (wsp ++ token ++ tail)).
  cbn iota. rewrite Ascii.eqb_refl. unfold Str.lstrip.
  rewrite (drop_while_all _ wsp _ Hw).
  destruct Ht as [ -> | -> ]; reflexivity.
Qed.

(** Which lookup fills a single-line text field. *)
Lemma single_line_field (lim : nat) (text : string) (r : dict (dict value))
    (group name label : string) (v : value) :
  parse_ocr_output lim init text = Return r ->
  In (group, name, label) single_line_rules ->
  field (Return r) group name = Some v ->
  _find_value (single_line_pattern label) text false = Return v.
Proof.
  intros Hr Hin Hv.
  destruct (parse_ocr_output_groups _ _ _ Hr)
    as (g1 & g2 & g3 & g4 & g5 & g6 & H1 & H2 & _ & _ & _ & H6 & ->).
  unfold _extract_patient_info in H1. returned H1.
  unfold _extract_treatment_info in H2. returned H2.
  unfold _extract_ma_data in H6. returned H6.
  inversion H1; inversion H2; inversion H6; subst; clear H1 H2 H6.
  simpl in Hin.
  repeat (destruct Hin as [ Hin | Hin ];
          [ inversion Hin; subst; cbn in Hv; inversion Hv; subst; assumption | ]).
  contradiction.
Qed.

(** ** A text no rule matches *)

Section NoMatch.

Variables (lim : nat) (text : string).
Hypothesis unmatched : no_rule_matches init text.

Lemma _find_value_unmatched (pattern : string) (dotall : bool) :
  In (pattern, dotall) (rules init) ->
  _find_value pattern text dotall = Return VNone.
Proof. intros H. unfold _find_value. now rewrite (unmatched _ _ H). Qed.

Lemma _find_numeric_value_unmatched (pattern : string) :
  In (pattern, false) (rules init) ->
  _find_numeric_value lim pattern text = Return VNone.
Proof. intros H. unfold _find_numeric_value. now rewrite (unmatched _ _ H). Qed.

Lemma _find_checkbox_unmatched (pattern : string) :
  In (pattern, false) (rules init) ->
  _find_checkbox pattern text = Return VNone.
Proof. intros H. unfold _find_checkbox. now rewrite (unmatched _ _ H). Qed.

Lemma parse_ocr_output_unmatched :
  parse_ocr_output lim init text = Return (null_record init).
Proof.
  unfold parse_ocr_output, _extract_patient_info, _extract_treatment_info,
    _extract_difficulty_ratings, _extract_patient_changes,
    _extract_pain_symptoms, _extract_ma_data.
  cbn [dict_comp dict_comp_from difficulty_tasks pain_symptoms init].
  repeat first
    [ rewrite _find_value_unmatched by (cbn; repeat first [ left; reflexivity | right ])
    | rewrite _find_numeric_value_unmatched by (cbn; repeat first [ left; reflexivity | right ])
    | rewrite _find_checkbox_unmatched by (cbn; repeat first [ left; reflexivity | right ])
    | progress cbn [bind] ].
  reflexivity.
Qed.

End NoMatch.

Lemma no_rule_matches_empty : no_rule_matches init "".
Proof.
  intros pattern dotall H. cbn in H.
  repeat (destruct H as [ H | H ]; [ inversion H; subst; reflexivity | ]).
  contradiction.
Qed.


(** ** Places of the text *)

Lemma skip_app (pre s : string) :
  Str.skip (String.length pre) (pre ++ s) = s.
Proof. induction pre as [ | c pre IH ]; [ now destruct s | exact IH ]. Qed.

Lemma length_take (i : nat) (s : string) :
  i <= String.length s -> String.length (Str.take i s) = i.
Proof.
  revert s. induction i as [ | i IH ]; intros s Hi; [ now destruct s | ].
  destruct s as [ | c s ]; simpl in *; [ lia | ].
  rewrite IH; [ reflexivity | lia ].
Qed.

Section Places.

Variables (d : bool) (r : regex) (P : string -> Prop).
Hypothesis attempt : forall s, P s <-> exec d r s None found <> None.

Lemma match_at_none (pos : nat) (s : string) :
  match_at d r pos s = None <-> ~ P s.
Proof.
  rewrite attempt. unfold match_at.
  destruct (exec d r s None found) as [ [s' g] | ].
  - split; [ discriminate | intros H; exfalso; apply H; discriminate ].
  - tauto.
Qed.

Lemma search_from_none :
  forall (s : string) (pos : nat),
    search_from d r pos s = None <->
    forall i, i <= String.length s ->
              match_at d r (pos + i) (Str.skip i s) = None.
Proof.
  induction s as [ | c s IH ]; intros pos; cbn [search_from String.length].
  - split.
    + intros H i Hi. replace i with 0 by lia. rewrite Nat.add_0_r.
      cbn [Str.skip]. now destruct (match_at d r pos "").
    + intros H. specialize (H 0 (le_n 0)). rewrite Nat.add_0_r in H.
      cbn [Str.skip] in H. now rewrite H.
  - split.
    + intros H i Hi.
      destruct (match_at d r pos (String c s)) eqn:E; [ discriminate | ].
      destruct i as [ | i ].
      * now rewrite Nat.add_0_r.
      * cbn [Str.skip]. rewrite Nat.add_succ_r.
        apply (proj1 (IH (S pos)) H). lia.
    + intros H. pose proof (H 0 (Nat.le_0_l _)) as H0.
      rewrite Nat.add_0_r in H0. cbn [Str.skip] in H0. rewrite H0.
      apply IH. intros i Hi. specialize (H (S i)).
      rewrite Nat.add_succ_r in H. apply H. lia.
Qed.

(** The search finds nothing exactly when [P] holds nowhere. *)
Lemma search_nowhere (text : string) :
  search_from d r 0 text = None <-> Text.nowhere P text.
Proof.
  rewrite search_from_none. split.
  - intros H pre s ->. specialize (H (String.length pre)).
    rewrite skip_app in H. apply (match_at_none (0 + String.length pre)).
    apply H. rewrite length_app. lia.
  - intros H i Hi. apply match_at_none.
    apply (H (Str.take i text)). now rewrite take_skip.
Qed.

(** What the search finds stands at the leftmost place where [P] holds. *)
Lemma search_leftmost_place (text : string) (m : Match) :
  search_from d r 0 text = Some m ->
  exists pre s s' : string,
    Text.leftmost P text pre s
    /\ exec d r s None found = Some (s', m_group1 m).
Proof.
  intros H. apply search_from_found in H.
  destruct H as (i & Hi & Hm & Hbefore).
  assert (Hex : exists s', exec d r (Str.skip i text) None found
                           = Some (s', m_group1 m)).
  { cbn [Nat.add] in Hm. unfold match_at in Hm.
    destruct (exec d r (Str.skip i text) None found) as [ [s' g] | ];
      [ | discriminate ].
    inversion Hm; subst. now exists s'. }
  destruct Hex as (s' & Hex).
  exists (Str.take i text), (Str.skip i text), s'. split; [ | exact Hex ].
  split; [ now rewrite take_skip | split ].
  - apply attempt. rewrite Hex. discriminate.
  - intros pre' t Ht Hlen. rewrite (length_take i text Hi) in Hlen.
    specialize (Hbefore (String.length pre') Hlen).
    rewrite Ht, skip_app in Hbefore.
    exact (proj1 (match_at_none _ _) Hbefore).
Qed.

Lemma leftmost_place_search (text pre s s' : string) (g : option string) :
  Text.leftmost P text pre s ->
  exec d r s None found = Some (s', g) ->
  exists m, search_from d r 0 text = Some m /\ m_group1 m = g.
Proof.
  intros (Ht & _ & Hbefore) Hex. eexists. split.
  - apply (search_from_leftmost d r (String.length pre) text 0).
    + rewrite Ht, length_app. lia.
    + rewrite Ht, skip_app. unfold match_at. rewrite Hex. reflexivity.
    + intros j Hj. apply match_at_none.
      apply (Hbefore (Str.take j text)).
      * now rewrite take_skip.
      * rewrite length_take; [ exact Hj | ]. rewrite Ht, length_app. lia.
  - reflexivity.
Qed.

End Places.

(** ** Ratings, place by place *)

Section RatingPlaces.

Import Places.

Variable l : string.

Lemma rating_at_exec (s : string) (c : ascii) :
  rating_at l s c ->
  exists s', exec false (rating_rule l) s None found
             = Some (s', Some (String c "")).
Proof.
  intros (wsp & post & -> & Hw & Hc). exists post.
  rewrite exec_rating_rule, after_prefix. unfold Str.lstrip.
  rewrite (drop_while_all _ wsp _ Hw). cbn [Str.drop_while].
  now rewrite (rating_not_space c Hc), Hc.
Qed.

Lemma exec_rating_at (s s' : string) (g : option string) :
  exec false (rating_rule l) s None found = Some (s', g) ->
  exists c, rating_at l s c /\ g = Some (String c "").
Proof.
  rewrite exec_rating_rule.
  destruct (Str.after l s) as [ s1 | ] eqn:Ea; [ | discriminate ].
  destruct (Str.lstrip s1) as [ | c s2 ] eqn:El; [ discriminate | ].
  destruct (Char.in_range "0" "5" c) eqn:Ec; [ | discriminate ].
  intros H. inversion H; subst. exists c. split; [ | reflexivity ].
  exists (Str.take_while Char.isspace s1), s'. split; [ | split ].
  - rewrite (after_app _ _ _ Ea). f_equal.
    unfold Str.lstrip in El. rewrite <- El. symmetry. apply take_drop_while.
  - apply take_while_all.
  - exact Ec.
Qed.

Lemma rated_attempt (s : string) :
  rated l s <-> exec false (rating_rule l) s None found <> None.
Proof.
  split.
  - intros (c & H). destruct (rating_at_exec s c H) as (s' & ->). discriminate.
  - intros H.
    destruct (exec false (rating_rule l) s None found) as [ [s' g] | ] eqn:E;
      [ | contradiction ].
    destruct (exec_rating_at _ _ _ E) as (c & Hc & _). now exists c.
Qed.

Variables (lim : nat) (pattern text : string).
Hypothesis compiled : compile pattern = Return (rating_rule l).

Lemma rating_lookup_digit (n : Z) :
  _find_numeric_value lim pattern text = Return (VInt n) <->
  exists (pre s : string) (c : ascii),
    Text.leftmost (rated l) text pre s
    /\ rating_at l s c /\ n = Char.digit_value c.
Proof.
  rewrite (_find_numeric_value_compiled _ _ _ _ compiled). split.
  - destruct (search_from false (rating_rule l) 0 text) as [ m | ] eqn:E;
      [ | discriminate ].
    destruct (search_leftmost_place _ _ _ rated_attempt _ _ E)
      as (pre & s & s' & Hl & Hex).
    destruct (exec_rating_at _ _ _ Hex) as (c & Hc & ->).
    assert (Hd : Char.in_range "0" "5" c = true)
      by (destruct Hc as (? & ? & _ & _ & Hd); exact Hd).
    rewrite int_of_short_digits.
    + intros H. inversion H. now exists pre, s, c.
    + discriminate.
    + simpl. now rewrite (rating_is_digit c Hd).
    + simpl. lia.
  - intros (pre & s & c & Hl & Hc & ->).
    destruct (rating_at_exec s c Hc) as (s' & Hex).
    destruct (leftmost_place_search _ _ _ rated_attempt _ _ _ _ _ Hl Hex)
      as (m & -> & ->).
    assert (Hd : Char.in_range "0" "5" c = true)
      by (destruct Hc as (? & ? & _ & _ & Hd); exact Hd).
    rewrite int_of_short_digits.
    + reflexivity.
    + discriminate.
    + simpl. now rewrite (rating_is_digit c Hd).
    + simpl. lia.
Qed.

Lemma rating_lookup_none :
  _find_numeric_value lim pattern text = Return VNone <->
  Text.nowhere (rated l) text.
Proof.
  rewrite (_find_numeric_value_compiled _ _ _ _ compiled).
  rewrite <- (search_nowhere _ _ _ rated_attempt).
  destruct (search_from false (rating_rule l) 0 text) as [ m | ].
  - split; [ | discriminate ].
    destruct (int lim (m_group1 m)); simpl; discriminate.
  - tauto.
Qed.

End RatingPlaces.

(** ** Checkboxes, place by place *)

Section CheckboxPlaces.

Import Places.

Variable l : string.

Lemma checkbox_at_exec (s v : string) :
  checkbox_at l s v ->
  exists s', exec false (checkbox_rule l) s None found = Some (s', Some v).
Proof.
  intros (ws1 & ws2 & post & -> & H1 & H2 & Hv). exists post.
  rewrite exec_checkbox_rule, after_prefix. unfold Str.lstrip.
  rewrite (drop_while_all _ ws1 _ H1). cbn [append Str.drop_while].
  change (Char.isspace ":") with false. cbn iota.
  change (Ascii.eqb ":" ":") with true. cbn iota.
  rewrite (drop_while_all _ ws2 _ H2).
  destruct Hv as [ -> | -> ]; reflexivity.
Qed.

Lemma exec_checkbox_at (s s' : string) (g : option string) :
  exec false (checkbox_rule l) s None found = Some (s', g) ->
  exists v, checkbox_at l s v /\ g = Some v.
Proof.
  rewrite exec_checkbox_rule.
  destruct (Str.after l s) as [ s1 | ] eqn:Ea; [ | discriminate ].
  destruct (Str.lstrip s1) as [ | c s2 ] eqn:El; [ discriminate | ].
  destruct (Ascii.eqb_spec c ":") as [ -> | ]; [ | discriminate ].
  assert (Hs : s = (l ++ Str.take_while Char.isspace s1 ++ ":"
                    ++ Str.take_while Char.isspace s2
                    ++ Str.lstrip s2)%string).
  { rewrite (after_app _ _ _ Ea). f_equal.
    rewrite <- (take_drop_while Char.isspace s1) at 1. f_equal.
    unfold Str.lstrip in El. rewrite El. cbn [append]. f_equal.
    symmetry. apply take_drop_while. }
  destruct (Str.after "YES" (Str.lstrip s2)) as [ s3 | ] eqn:Ey.
  - intros H. inversion H; subst s3 g. exists "YES". split; [ | reflexivity ].
    exists (Str.take_while Char.isspace s1),
           (Str.take_while Char.isspace s2), s'.
    rewrite <- (after_app _ _ _ Ey).
    repeat split; [ exact Hs | apply take_while_all | apply take_while_all
                  | now left ].
  - destruct (Str.after "NO" (Str.lstrip s2)) as [ s3 | ] eqn:En;
      [ | discriminate ].
    intros H. inversion H; subst s3 g. exists "NO". split; [ | reflexivity ].
    exists (Str.take_while Char.isspace s1),
           (Str.take_while Char.isspace s2), s'.
    rewrite <- (after_app _ _ _ En).
    repeat split; [ exact Hs | apply take_while_all | apply take_while_all
                  | now right ].
Qed.

Lemma checked_attempt (s : string) :
  checked l s <-> exec false (checkbox_rule l) s None found <> None.
Proof.
  split.
  - intros (v & H). destruct (checkbox_at_exec s v H) as (s' & ->).
    discriminate.
  - intros H.
    destruct (exec false (checkbox_rule l) s None found) as [ [s' g] | ] eqn:E;
      [ | contradiction ].
    destruct (exec_checkbox_at _ _ _ E) as (v & Hv & _). now exists v.
Qed.

Variables (pattern text : string).
Hypothesis compiled : compile pattern = Return (checkbox_rule l).

Lemma checkbox_lookup_literal (v : string) :
  _find_checkbox pattern text = Return (VStr v) <->
  exists pre s : string,
    Text.leftmost (checked l) text pre s /\ checkbox_at l s v.
Proof.
  rewrite (_find_checkbox_compiled _ _ _ compiled). split.
  - destruct (search_from false (checkbox_rule l) 0 text) as [ m | ] eqn:E;
      [ | discriminate ].
    destruct (search_leftmost_place _ _ _ checked_attempt _ _ E)
      as (pre & s & s' & Hl & Hex).
    destruct (exec_checkbox_at _ _ _ Hex) as (w & Hw & ->).
    intros H. inversion H; subst. now exists pre, s.
  - intros (pre & s & Hl & Hv).
    destruct (checkbox_at_exec s v Hv) as (s' & Hex).
    destruct (leftmost_place_search _ _ _ checked_attempt _ _ _ _ _ Hl Hex)
      as (m & -> & ->).
    reflexivity.
Qed.

Lemma checkbox_lookup_none :
  _find_checkbox pattern text = Return VNone <->
  Text.nowhere (checked l) text.
Proof.
  rewrite (_find_checkbox_compiled _ _ _ compiled).
  rewrite <- (search_nowhere _ _ _ checked_attempt).
  destruct (search_from false (checkbox_rule l) 0 text) as [ m | ] eqn:E.
  - split; [ | discriminate ].
    apply search_from_group in E. destruct E as (i & s' & _ & E).
    destruct (exec_checkbox_at _ _ _ E) as (w & _ & ->). discriminate.
  - tauto.
Qed.

End CheckboxPlaces.
(** * The claims *)

(** Claim C1.  Whenever [parse_ocr_output] produces a record, the record
    holds exactly the six declared groups, each with exactly its declared
    field names as keys, whatever the text and whether the values are
    [None] or not.  A record is produced for every text when the
    interpreter puts no limit on the digits [int] converts.  For a text
    in which no rule matches, as the empty text is, a record is produced
    and every declared field in it is [None]. *)
Theorem parse_ocr_output_has_every_field :
  (forall (lim : nat) (text : string) (r : dict (dict value)),
     parse_ocr_output lim init text = Return r -> shape r = schema init)
  /\ (forall text : string, exists r, parse_ocr_output 0 init text = Return r)
  /\ (forall (lim : nat) (text : string),
        no_rule_matches init text ->
        parse_ocr_output lim init text = Return (null_record init))
  /\ no_rule_matches init "".
Proof.
  split; [ | split; [ | split ] ].
  - exact parse_ocr_output_shape.
  - exact parse_ocr_output_returns_unlimited.
  - exact parse_ocr_output_unmatched.
  - exact no_rule_matches_empty.
Qed.

Lemma parse_ocr_output_has_every_field_witness :
  parse_ocr_output default_max_str_digits init "" = Return (null_record init)
  /\ shape (null_record init) = schema init.
Proof.
  destruct parse_ocr_output_has_every_field as (Hshape & _ & Hnull & Hempty).
  pose proof (Hnull default_max_str_digits "" Hempty) as H.
  split; [ exact H | exact (Hshape _ _ _ H) ].
Defined.

(** Claim C2, as stated, fails: on the text of the claim the capture ends
    before the line "sleeping more", which starts with a character that is
    not whitespace, so the field is "feeling better" alone. *)
Lemma since_last_treatment_two_lines_cex :
  field (parse_ocr_output default_max_str_digits init
           ("Patient changes since last treatment: feeling better" ++ Str.nl
            ++ "sleeping more" ++ Str.nl ++ "Date : 2024-01-01")%string)
        "patient_changes" "since_last_treatment"
  = Some (VStr "feeling better")
  /\ field (parse_ocr_output default_max_str_digits init
              ("Patient changes since last treatment: feeling better" ++ Str.nl
               ++ "sleeping more" ++ Str.nl ++ "Date : 2024-01-01")%string)
           "patient_changes" "since_last_treatment"
     <> Some (VStr ("feeling better" ++ Str.nl ++ "sleeping more")%string).
Proof. split; vm_compute; [ reflexivity | discriminate ]. Qed.

(** Claim C2, amended.  On the text of the claim the field
    [since_last_treatment] is "feeling better": the multi-line capture ends
    before the first line that starts with a character that is not
    whitespace, here "sleeping more".  It goes on across a line break only
    into a line that starts with whitespace: with " sleeping more" indented
    the field holds both lines and ends before "Date :".  In general the
    field is the trimmed paragraph that runs from the label to the first
    place where a line break followed by a character that is not
    whitespace lies ahead. *)
Theorem since_last_treatment_ends_at_first_unindented_line :
  (forall lim : nat,
     field (parse_ocr_output lim init
              ("Patient changes since last treatment: feeling better" ++ Str.nl
               ++ "sleeping more" ++ Str.nl ++ "Date : 2024-01-01")%string)
           "patient_changes" "since_last_treatment"
     = Some (VStr "feeling better"))
  /\ (forall lim : nat,
        field (parse_ocr_output lim init
                 ("Patient changes since last treatment: feeling better" ++ Str.nl
                  ++ " sleeping more" ++ Str.nl ++ "Date : 2024-01-01")%string)
              "patient_changes" "since_last_treatment"
        = Some (VStr ("feeling better" ++ Str.nl ++ " sleeping more")%string))
  /\ (forall (lim : nat) (text : string) (r : dict (dict value)) (v : string),
        parse_ocr_output lim init text = Return r ->
        field (Return r) "patient_changes" "since_last_treatment" = Some (VStr v) ->
        exists w,
          paragraph_after "Patient changes since last treatment:" text w
          /\ v = Str.strip w).
Proof.
  split; [ | split ].
  - intros lim. vm_compute. reflexivity.
  - intros lim. vm_compute. reflexivity.
  - intros lim text r v Hr Hv.
    destruct (parse_ocr_output_groups _ _ _ Hr)
      as (g1 & g2 & g3 & g4 & g5 & g6 & _ & _ & _ & H4 & _ & _ & ->).
    unfold _extract_patient_changes in H4. returned H4.
    inversion H4; subst; clear H4. cbn in Hv. inversion Hv; subst; clear Hv.
    destruct (paragraph_rule_value
                "Patient changes since last treatment:(.*?)(?=\n\S)"
                "Patient changes since last treatment:" text eq_refl)
      as (v' & Hv' & [ -> | (w & Hw & ->) ]).
    + congruence.
    + exists w. split; [ exact Hw | congruence ].
Qed.

Lemma since_last_treatment_ends_at_first_unindented_line_witness :
  exists w,
    paragraph_after "Patient changes since last treatment:"
      ("Patient changes since last treatment: feeling better" ++ Str.nl
       ++ "sleeping more" ++ Str.nl ++ "Date : 2024-01-01")%string w
    /\ "feeling better" = Str.strip w.
Proof.
  refine (proj2 (proj2 since_last_treatment_ends_at_first_unindented_line)
            default_max_str_digits _ _ "feeling better" _ _).
  - vm_compute. reflexivity.
  - vm_compute. reflexivity.
Defined.

(** Claim C3, as stated, fails: a two-digit value lies outside the
    one-digit width, yet "Stairs: 12" gives 1 and not [None]. *)
Lemma stairs_two_digits_cex :
  field (parse_ocr_output default_max_str_digits init "Stairs: 12")
        "difficulty_ratings" "stairs"
  = Some (VInt 1)
  /\ field (parse_ocr_output default_max_str_digits init "Stairs: 12")
           "difficulty_ratings" "stairs"
     <> Some VNone.
Proof. split; vm_compute; [ reflexivity | discriminate ]. Qed.

(** Which lookup fills a rating, and that the record holds the entry. *)
Lemma rating_entry (lim : nat) (text task : string) (v : value) :
  In task (difficulty_tasks init) ->
  entry (_extract_difficulty_ratings lim init text) task = Some v <->
  _find_numeric_value lim (task_label task ++ ":\s*([0-5])") text = Return v.
Proof.
  intros Hin.
  destruct (_extract_difficulty_ratings_returns lim text) as (g & Hg).
  rewrite Hg. cbn [entry].
  destruct (dict_comp_get _ _ g task difficulty_tasks_nodup Hin Hg)
    as (w & Hw & Hget).
  rewrite Hw, Hget. split; congruence.
Qed.

Lemma rating_field (lim : nat) (text task : string) (r : dict (dict value)) :
  parse_ocr_output lim init text = Return r ->
  field (Return r) "difficulty_ratings" task
  = entry (_extract_difficulty_ratings lim init text) task.
Proof.
  intros Hr.
  destruct (parse_ocr_output_groups _ _ _ Hr)
    as (g1 & g2 & g3 & g4 & g5 & g6 & _ & _ & H3 & _ & _ & _ & ->).
  rewrite H3. reflexivity.
Qed.

(** Claim C3, amended.  For every text and every difficulty task, the
    rating is present exactly when somewhere in the text the task's label
    with its colon is followed by optional whitespace and a digit from 0
    to 5; it is then that one digit, taken at the leftmost such place, and
    it is [None] when there is no such place; the record holds what the
    extraction gives.  "Stairs: 3" gives 3 and "Stairs: 7" gives [None].
    The capture is the first character after the label and the
    whitespace, and what follows it plays no part: a longer number is not
    refused, its first digit is taken, so that "Stairs: 12" gives 1. *)
Theorem rating_is_first_digit_after_label :
  (forall (lim : nat) (text task : string),
     In task (difficulty_tasks init) ->
     (forall n : Z,
        entry (_extract_difficulty_ratings lim init text) task
        = Some (VInt n) <->
        exists (pre s : string) (c : ascii),
          Text.leftmost (Places.rated (task_label task ++ ":")) text pre s
          /\ Places.rating_at (task_label task ++ ":") s c
          /\ n = Char.digit_value c)
     /\ (entry (_extract_difficulty_ratings lim init text) task = Some VNone
         <-> Text.nowhere (Places.rated (task_label task ++ ":")) text)
     /\ (forall r : dict (dict value),
           parse_ocr_output lim init text = Return r ->
           field (Return r) "difficulty_ratings" task
           = entry (_extract_difficulty_ratings lim init text) task))
  /\ (forall (lim : nat) (task wsp : string) (c : ascii) (tail : string),
        In task (difficulty_tasks init) ->
        Str.all Char.isspace wsp = true ->
        Char.in_range "0" "5" c = true ->
        entry (_extract_difficulty_ratings lim init
                 ((task_label task ++ ":") ++ wsp ++ String c tail)%string)
              task
        = Some (VInt (Char.digit_value c)))
  /\ (forall (lim : nat) (text : string) (r : dict (dict value))
             (task : string) (v : value),
        parse_ocr_output lim init text = Return r ->
        field (Return r) "difficulty_ratings" task = Some v ->
        int_or_none 0 5 v)
  /\ (forall lim : nat,
        field (parse_ocr_output lim init "Stairs: 3")
              "difficulty_ratings" "stairs" = Some (VInt 3))
  /\ (forall lim : nat,
        field (parse_ocr_output lim init "Stairs: 7")
              "difficulty_ratings" "stairs" = Some VNone)
  /\ (forall lim : nat,
        field (parse_ocr_output lim init "Stairs: 12")
              "difficulty_ratings" "stairs" = Some (VInt 1)).
Proof.
  split; [ | split; [ | split; [ | split; [ | split ] ] ] ].
  - intros lim text task Hin. split; [ | split ].
    + intros n. rewrite (rating_entry lim text task (VInt n) Hin).
      apply rating_lookup_digit, rating_patterns, Hin.
    + rewrite (rating_entry lim text task VNone Hin).
      apply rating_lookup_none, rating_patterns, Hin.
    + intros r Hr. exact (rating_field lim text task r Hr).
  - intros lim task wsp c tail Hin Hw Hc.
    apply (rating_entry lim _ task _ Hin).
    exact (rating_rule_first_digit lim _ (task_label task ++ ":") wsp c tail
             (rating_patterns task Hin) Hw Hc).
  - intros lim text r task v Hr Hv.
    destruct (parse_ocr_output_groups _ _ _ Hr)
      as (g1 & g2 & g3 & g4 & g5 & g6 & _ & _ & H3 & _ & _ & _ & ->).
    cbn in Hv. exact (_extract_difficulty_ratings_values _ _ _ _ _ H3 Hv).
  - intros [ | lim ]; vm_compute; reflexivity.
  - intros lim. vm_compute. reflexivity.
  - intros [ | lim ]; vm_compute; reflexivity.
Qed.

Lemma rating_is_first_digit_after_label_witness :
  (exists (pre s : string) (c : ascii),
     Text.leftmost (Places.rated "Stairs:") "Stairs: 7, Stairs: 45" pre s
     /\ Places.rating_at "Stairs:" s c
     /\ 4%Z = Char.digit_value c)
  /\ entry (_extract_difficulty_ratings default_max_str_digits init
              "Sleeping:  45") "sleeping" = Some (VInt 4)
  /\ int_or_none 0 5 (VInt 3).
Proof.
  assert (Hstairs : In "stairs" (difficulty_tasks init)) by (simpl; tauto).
  assert (Hsleeping : In "sleeping" (difficulty_tasks init)) by (simpl; tauto).
  split; [ | split ].
  - refine (proj1 (proj1 (proj1 rating_is_first_digit_after_label
                            default_max_str_digits "Stairs: 7, Stairs: 45"
                            "stairs" Hstairs) 4%Z) _).
    vm_compute. reflexivity.
  - exact (proj1 (proj2 rating_is_first_digit_after_label)
             default_max_str_digits "sleeping" "  " "4"%char "5"
             Hsleeping eq_refl eq_refl).
  - refine (proj1 (proj2 (proj2 rating_is_first_digit_after_label))
              default_max_str_digits "Stairs: 3" _ "stairs" (VInt 3) _ _).
    + vm_compute. reflexivity.
    + vm_compute. reflexivity.
Defined.

(** Claim C4, as stated, fails: NOPE is neither YES nor NO, yet
    "INJECTION : NOPE" gives "NO" and not [None]. *)
Lemma injection_nope_cex :
  field (parse_ocr_output default_max_str_digits init "INJECTION : NOPE")
        "treatment_details" "injection"
  = Some (VStr "NO")
  /\ field (parse_ocr_output default_max_str_digits init "INJECTION : NOPE")
           "treatment_details" "injection"
     <> Some VNone.
Proof. split; vm_compute; [ reflexivity | discriminate ]. Qed.

(** Which lookup fills a checkbox field. *)
Lemma checkbox_patterns (name label : string) :
  In (name, label) Places.checkbox_rules ->
  compile (label ++ "\s*:\s*(YES|NO)") = Return (checkbox_rule label).
Proof.
  simpl. intros H.
  repeat (destruct H as [ H | H ]; [ inversion H; subst; reflexivity | ]).
  contradiction.
Qed.

Lemma checkbox_entry (text name label : string) (v : value) :
  In (name, label) Places.checkbox_rules ->
  entry (_extract_treatment_info text) name = Some v <->
  _find_checkbox (label ++ "\s*:\s*(YES|NO)") text = Return v.
Proof.
  intros Hin. unfold _extract_treatment_info.
  destruct (line_rule_value "Date\s*:\s*(.*)" "Date" text eq_refl)
    as (v1 & -> & _).
  destruct (checkbox_rule_value "INJECTION\s*:\s*(YES|NO)" "INJECTION" text
              eq_refl) as (v2 & E2 & _).
  destruct (checkbox_rule_value "Exercise Therapy\s*:\s*(YES|NO)"
              "Exercise Therapy" text eq_refl) as (v3 & E3 & _).
  rewrite E2, E3. simpl in Hin.
  destruct Hin as [ H | [ H | [] ] ]; inversion H; subst; clear H.
  - change ("INJECTION" ++ "\s*:\s*(YES|NO)")%string
      with "INJECTION\s*:\s*(YES|NO)".
    rewrite E2. cbn. split; congruence.
  - change ("Exercise Therapy" ++ "\s*:\s*(YES|NO)")%string
      with "Exercise Therapy\s*:\s*(YES|NO)".
    rewrite E3. cbn. split; congruence.
Qed.

Lemma checkbox_field (lim : nat) (text name : string)
    (r : dict (dict value)) :
  parse_ocr_output lim init text = Return r ->
  field (Return r) "treatment_details" name
  = entry (_extract_treatment_info text) name.
Proof.
  intros Hr.
  destruct (parse_ocr_output_groups _ _ _ Hr)
    as (g1 & g2 & g3 & g4 & g5 & g6 & _ & H2 & _ & _ & _ & _ & ->).
  rewrite H2. reflexivity.
Qed.

(** Claim C4, amended.  For every text, each of the checkbox fields
    [injection] and [exercise_therapy] is present exactly when somewhere
    in the text its label is followed by optional whitespace, a colon,
    optional whitespace and the letters YES or NO; it then holds that
    literal, taken at the leftmost such place, and it is [None] when there
    is no such place, so that a token that starts with neither yields
    [None]: "INJECTION : MAYBE" gives [None] and "INJECTION : YES" gives
    "YES".  What is compared with YES and NO is the start of the text
    after the colon and the whitespace, not a whole token: a longer word
    that starts with YES or NO gives that literal, so that
    "INJECTION : NOPE" gives "NO". *)
Theorem checkbox_is_yes_or_no_prefix :
  (forall name label text : string,
     In (name, label) Places.checkbox_rules ->
     (forall v : string,
        entry (_extract_treatment_info text) name = Some (VStr v) <->
        exists pre s : string,
          Text.leftmost (Places.checked label) text pre s
          /\ Places.checkbox_at label s v)
     /\ (entry (_extract_treatment_info text) name = Some VNone <->
         Text.nowhere (Places.checked label) text)
     /\ (forall (lim : nat) (r : dict (dict value)),
           parse_ocr_output lim init text = Return r ->
           field (Return r) "treatment_details" name
           = entry (_extract_treatment_info text) name))
  /\ (forall name label ws1 ws2 token tail : string,
        In (name, label) Places.checkbox_rules ->
        Str.all Char.isspace ws1 = true ->
        Str.all Char.isspace ws2 = true ->
        token = "YES" \/ token = "NO" ->
        entry (_extract_treatment_info
                 (label ++ ws1 ++ ":" ++ ws2 ++ token ++ tail)%string) name
        = Some (VStr token))
  /\ (forall (lim : nat) (text : string) (r : dict (dict value))
             (name : string) (v : value),
        parse_ocr_output lim init text = Return r ->
        name = "injection" \/ name = "exercise_therapy" ->
        field (Return r) "treatment_details" name = Some v ->
        v = VNone \/ v = VStr "YES" \/ v = VStr "NO")
  /\ (forall lim : nat,
        field (parse_ocr_output lim init "INJECTION : MAYBE")
              "treatment_details" "injection" = Some VNone)
  /\ (forall lim : nat,
        field (parse_ocr_output lim init "INJECTION : YES")
              "treatment_details" "injection" = Some (VStr "YES"))
  /\ (forall lim : nat,
        field (parse_ocr_output lim init "INJECTION : NOPE")
              "treatment_details" "injection" = Some (VStr "NO")).
Proof.
  split; [ | split; [ | split; [ | split; [ | split ] ] ] ].
  - intros name label text Hin. split; [ | split ].
    + intros v. rewrite (checkbox_entry text name label (VStr v) Hin).
      apply checkbox_lookup_literal, (checkbox_patterns name), Hin.
    + rewrite (checkbox_entry text name label VNone Hin).
      apply checkbox_lookup_none, (checkbox_patterns name), Hin.
    + intros lim r Hr. exact (checkbox_field lim text name r Hr).
  - intros name label ws1 ws2 token tail Hin H1 H2 Ht.
    apply (checkbox_entry _ name label _ Hin).
    apply (checkbox_lookup_literal label _ _ (checkbox_patterns name label Hin)).
    exists "", (label ++ ws1 ++ ":" ++ ws2 ++ token ++ tail)%string.
    assert (Hat : Places.checkbox_at label
                    (label ++ ws1 ++ ":" ++ ws2 ++ token ++ tail)%string token)
      by (exists ws1, ws2, tail; repeat split; assumption).
    split; [ | exact Hat ].
    split; [ reflexivity | split ].
    + now exists token.
    + intros pre' s' _ Hlen. simpl in Hlen. lia.
  - intros lim text r name v Hr Hname Hv.
    destruct (parse_ocr_output_groups _ _ _ Hr)
      as (g1 & g2 & g3 & g4 & g5 & g6 & _ & H2 & _ & _ & _ & _ & ->).
    unfold _extract_treatment_info in H2. returned H2.
    inversion H2; subst g2; clear H2.
    destruct Hname as [ -> | -> ]; cbn in Hv; inversion Hv; subst; clear Hv.
    + destruct (checkbox_rule_value "INJECTION\s*:\s*(YES|NO)" "INJECTION"
                  text eq_refl) as (v' & Hv' & Hc).
      congruence.
    + destruct (checkbox_rule_value "Exercise Therapy\s*:\s*(YES|NO)"
                  "Exercise Therapy" text eq_refl) as (v' & Hv' & Hc).
      congruence.
  - intros lim. vm_compute. reflexivity.
  - intros lim. vm_compute. reflexivity.
  - intros lim. vm_compute. reflexivity.
Qed.

Lemma checkbox_is_yes_or_no_prefix_witness :
  (exists pre s : string,
     Text.leftmost (Places.checked "Exercise Therapy")
       "Exercise Therapy: MAYBE, Exercise Therapy : NOT YET" pre s
     /\ Places.checkbox_at "Exercise Therapy" s "NO")
  /\ entry (_extract_treatment_info "INJECTION : YESTERDAY") "injection"
     = Some (VStr "YES")
  /\ (VStr "YES" = VNone \/ VStr "YES" = VStr "YES" \/ VStr "YES" = VStr "NO").
Proof.
  assert (Hi : In ("injection", "INJECTION") Places.checkbox_rules)
    by (simpl; tauto).
  assert (He : In ("exercise_therapy", "Exercise Therapy")
                  Places.checkbox_rules) by (simpl; tauto).
  split; [ | split ].
  - refine (proj1 (proj1 (proj1 checkbox_is_yes_or_no_prefix
                            "exercise_therapy" "Exercise Therapy"
                            "Exercise Therapy: MAYBE, Exercise Therapy : NOT YET"
                            He) "NO") _).
    vm_compute. reflexivity.
  - exact (proj1 (proj2 checkbox_is_yes_or_no_prefix)
             "injection" "INJECTION" " " " " "YES" "TERDAY" Hi
             eq_refl eq_refl (or_introl eq_refl)).
  - refine (proj1 (proj2 (proj2 checkbox_is_yes_or_no_prefix))
              default_max_str_digits "INJECTION : YES" _ "injection"
              (VStr "YES") _ _ _).
    + vm_compute. reflexivity.
    + left. reflexivity.
    + vm_compute. reflexivity.
Defined.

(** What the single-line text rules ([patient_name], [dob], [date],
    [blood_pressure], [height], [temperature]) do on every text: a value
    that is present is a trimmed line of the text found after the label.
    The label is followed by optional whitespace, the colon and optional
    whitespace, and this whitespace may hold line breaks, so the line need
    not be the label's own; the line starts at the first character after
    them that is not whitespace and runs to the end of that character's
    line.  When only whitespace follows the colon up to the end of the
    text, the lookup gives the empty string, not [None]. *)
Lemma single_line_value_is_line_after_label :
  forall group name label : string,
    In (group, name, label) single_line_rules ->
    (forall (lim : nat) (text : string) (r : dict (dict value)) (v : string),
       parse_ocr_output lim init text = Return r ->
       field (Return r) group name = Some (VStr v) ->
       exists line, line_after label text line /\ v = Str.strip line)
    /\ (forall ws1 ws2 : string,
          Str.all Char.isspace ws1 = true ->
          Str.all Char.isspace ws2 = true ->
          _find_value (single_line_pattern label)
                      (label ++ ws1 ++ ":" ++ ws2)%string false
          = Return (VStr "")).
Proof.
  intros group name label Hin.
  pose proof (single_line_patterns _ _ _ Hin) as Hc. split.
  - intros lim text r v Hr Hv.
    pose proof (single_line_field _ _ _ _ _ _ _ Hr Hin Hv) as Hf.
    destruct (line_rule_value _ _ text Hc) as (v' & Hv' & [ -> | (line & Hl & ->) ]).
    + congruence.
    + exists line. split; [ exact Hl | congruence ].
  - intros ws1 ws2 H1 H2. now apply line_rule_blank.
Qed.

(** Claim C5 on the input that breaks it.  The single-line rules capture
    with a group of any characters and no DOTALL flag, so as to stay on
    one line, but the
    whitespace skipped after the colon takes line breaks too: when the
    line of "Patient Name :" is blank after the colon, [patient_name] is
    filled with the whole next line, here the line of the date of birth,
    and is neither made of characters of the label's own line nor the
    empty string.  The rule of [last_3_days], which skips no whitespace
    after its colon, stays on its line and gives the empty string on the
    same shape of text. *)
Theorem patient_name_taken_from_next_line :
  field (parse_ocr_output default_max_str_digits init
           ("Patient Name :" ++ Str.nl ++ "DOB : 1990-01-01")%string)
        "patient_details" "patient_name"
  = Some (VStr "DOB : 1990-01-01")
  /\ field (parse_ocr_output default_max_str_digits init
              ("Patient Name :" ++ Str.nl ++ "DOB : 1990-01-01")%string)
           "patient_details" "patient_name"
     <> Some (VStr "")
  /\ field (parse_ocr_output default_max_str_digits init
              ("Patient Name :" ++ Str.nl ++ "DOB : 1990-01-01")%string)
           "patient_details" "dob"
     = Some (VStr "1990-01-01")
  /\ field (parse_ocr_output default_max_str_digits init
              ("Describe any functional changes within the last three days (good or bad):"
               ++ Str.nl ++ "DOB : 1990-01-01")%string)
           "patient_changes" "last_3_days"
     = Some (VStr "").
Proof.
  repeat split; vm_compute; first [ reflexivity | discriminate ].
Qed.

(** Claim C6 on the input that breaks it.  With the default limit of the
    interpreter on the digits [int] converts, a text in which "HR:" is
    followed by 4301 digits makes [parse_ocr_output] raise [ValueError]
    instead of returning a record. *)
Theorem parse_ocr_output_raises_on_long_number :
  parse_ocr_output default_max_str_digits init
    ("HR: " ++ Str.times "1" 4301)%string
  = Raise ValueError.
Proof. vm_compute. reflexivity. Qed.

(** Claim C7.  Whatever the text, the difficulty ratings are extracted
    without an error and each is [None] or an integer from 0 to 5, and the
    pain symptoms are extracted without an error and each is [None] or an
    integer from 0 to 99; so it is in every record [parse_ocr_output]
    produces. *)
Theorem ratings_and_symptoms_in_range :
  (forall (lim : nat) (text : string),
     exists g,
       _extract_difficulty_ratings lim init text = Return g
       /\ forall (task : string) (v : value),
            dict_get g task = Some v -> int_or_none 0 5 v)
  /\ (forall (lim : nat) (text : string),
        exists g,
          _extract_pain_symptoms lim init text = Return g
          /\ forall (symptom : string) (v : value),
               dict_get g symptom = Some v -> int_or_none 0 99 v)
  /\ (forall (lim : nat) (text : string) (r : dict (dict value)),
        parse_ocr_output lim init text = Return r ->
        (forall (task : string) (v : value),
           field (Return r) "difficulty_ratings" task = Some v ->
           int_or_none 0 5 v)
        /\ (forall (symptom : string) (v : value),
              field (Return r) "pain_symptoms" symptom = Some v ->
              int_or_none 0 99 v)).
Proof.
  split; [ | split ].
  - intros lim text.
    destruct (_extract_difficulty_ratings_returns lim text) as (g & Hg).
    exists g. split; [ exact Hg | ]. intros task v.
    exact (_extract_difficulty_ratings_values _ _ _ _ _ Hg).
  - intros lim text.
    destruct (_extract_pain_symptoms_returns lim text) as (g & Hg).
    exists g. split; [ exact Hg | ]. intros symptom v.
    exact (_extract_pain_symptoms_values _ _ _ _ _ Hg).
  - intros lim text r Hr.
    destruct (parse_ocr_output_groups _ _ _ Hr)
      as (g1 & g2 & g3 & g4 & g5 & g6 & _ & _ & H3 & _ & H5 & _ & ->).
    split.
    + intros task v Hv. cbn in Hv.
      exact (_extract_difficulty_ratings_values _ _ _ _ _ H3 Hv).
    + intros symptom v Hv. cbn in Hv.
      exact (_extract_pain_symptoms_values _ _ _ _ _ H5 Hv).
Qed.

Lemma ratings_and_symptoms_in_range_witness :
  int_or_none 0 5 (VInt 5) /\ int_or_none 0 99 (VInt 12).
Proof.
  assert (H : exists r,
            parse_ocr_output default_max_str_digits init
              "Sleeping: 5 Pain: 123" = Return r
            /\ field (Return r) "difficulty_ratings" "sleeping" = Some (VInt 5)
            /\ field (Return r) "pain_symptoms" "pain" = Some (VInt 12)).
  { eexists. split; [ vm_compute; reflexivity | split; reflexivity ]. }
  destruct H as (r & Hr & Hs & Hp).
  destruct (proj2 (proj2 ratings_and_symptoms_in_range) _ _ _ Hr) as [H5 H99].
  split; [ exact (H5 _ _ Hs) | exact (H99 _ _ Hp) ].
Defined.

(** *** The one setting a run reads besides the text *)

Section Limits.

Variables lim1 lim2 : nat.
Hypothesis weaker : lim2 = 0 \/ 0 < lim1 <= lim2.

Lemma int_weaker_limit (x : option string) (a : Z) :
  int lim1 x = Return a -> int lim2 x = Return a.
Proof.
  unfold int. destruct x as [ s | ]; [ | discriminate ].
  match goal with
  | |- context [ let '(_, _) := ?M in _ ] => destruct M as [neg body]
  end.
  destruct (int_digits false 0 0 body) as [ [v n] | ]; [ | discriminate ].
  destruct ((0 <? lim1) && (640 <? n) && (lim1 <? n)) eqn:E1;
    [ discriminate | ].
  intros H.
  assert (E2 : (0 <? lim2) && (640 <? n) && (lim2 <? n) = false).
  { destruct (Nat.ltb_spec 0 lim1), (Nat.ltb_spec 640 n),
      (Nat.ltb_spec lim1 n), (Nat.ltb_spec 0 lim2), (Nat.ltb_spec lim2 n);
      simpl in *; try reflexivity; try discriminate; lia. }
  now rewrite E2.
Qed.

Lemma _find_numeric_value_weaker_limit (pattern text : string) (v : value) :
  _find_numeric_value lim1 pattern text = Return v ->
  _find_numeric_value lim2 pattern text = Return v.
Proof.
  unfold _find_numeric_value.
  destruct (search pattern text false) as [ [ m | ] | e ]; simpl;
    [ | tauto | tauto ].
  destruct (int lim1 (m_group1 m)) as [ a | e ] eqn:E; simpl;
    [ | discriminate ].
  now rewrite (int_weaker_limit _ _ E).
Qed.

Lemma dict_comp_from_weaker_limit (f1 f2 : string -> result value)
    (ks : list string) :
  (forall k v, f1 k = Return v -> f2 k = Return v) ->
  forall d d' : dict value,
    dict_comp_from f1 ks d = Return d' -> dict_comp_from f2 ks d = Return d'.
Proof.
  intros Hf. induction ks as [ | k ks IH ]; cbn [dict_comp_from];
    intros d d' H; [ exact H | ].
  returned H. rewrite (Hf _ _ E). simpl. now apply IH.
Qed.

(** A run that returns a record returns the same record when the limit is
    turned off or raised. *)
Lemma parse_ocr_output_weaker_limit (self : t) (text : string)
    (r : dict (dict value)) :
  parse_ocr_output lim1 self text = Return r ->
  parse_ocr_output lim2 self text = Return r.
Proof.
  unfold parse_ocr_output. intros H. returned H.
  unfold _extract_difficulty_ratings, dict_comp in E1 |- *.
  rewrite (dict_comp_from_weaker_limit _ _ _
             (fun k v => _find_numeric_value_weaker_limit _ text v) _ _ E1).
  unfold _extract_pain_symptoms, dict_comp in E3 |- *.
  rewrite (dict_comp_from_weaker_limit _ _ _
             (fun k v => _find_numeric_value_weaker_limit _ text v) _ _ E3).
  cbn [bind].
  assert (E6 : _extract_ma_data lim2 text = Return v4).
  { clear - E4 weaker. unfold _extract_ma_data in E4 |- *. returned E4.
    repeat match goal with
    | E : _find_numeric_value lim1 _ _ = Return _ |- _ =>
        rewrite (_find_numeric_value_weaker_limit _ _ _ E); clear E
    end.
    exact E4. }
  rewrite E6. exact H.
Qed.

End Limits.

(** Claim C8.  Two runs of [parse_ocr_output] on the same text give
    records that are equal, and equal field by field.  Nothing is kept
    from one run to the next, and besides the text and the processor's two
    name lists a run reads one thing only, the interpreter's limit on the
    digits [int] converts: the two runs may be made under different
    limits, and whenever both return, their records are equal.  The limit
    decides only whether a run returns: a run that returns a record
    returns the same record under every higher limit and with the limit
    turned off. *)
Theorem parse_ocr_output_runs_agree :
  (forall (self : t) (lim1 lim2 : nat) (text : string)
          (r1 r2 : dict (dict value)),
     parse_ocr_output lim1 self text = Return r1 ->
     parse_ocr_output lim2 self text = Return r2 ->
     r1 = r2
     /\ forall group name : string,
          field (Return r1) group name = field (Return r2) group name)
  /\ (forall (self : t) (lim1 lim2 : nat) (text : string)
             (r : dict (dict value)),
        lim2 = 0 \/ 0 < lim1 <= lim2 ->
        parse_ocr_output lim1 self text = Return r ->
        parse_ocr_output lim2 self text = Return r).
Proof.
  split.
  - intros self lim1 lim2 text r1 r2 H1 H2.
    apply (parse_ocr_output_weaker_limit lim1 0 (or_introl eq_refl)) in H1.
    apply (parse_ocr_output_weaker_limit lim2 0 (or_introl eq_refl)) in H2.
    rewrite H1 in H2. inversion H2; subst. split; reflexivity.
  - intros self lim1 lim2 text r Hw H.
    exact (parse_ocr_output_weaker_limit lim1 lim2 Hw self text r H).
Qed.

Lemma parse_ocr_output_runs_agree_witness :
  field (parse_ocr_output default_max_str_digits init "Stairs: 3, HR: 072")
        "medical_assistant_data" "hr"
  = field (parse_ocr_output 0 init "Stairs: 3, HR: 072")
          "medical_assistant_data" "hr"
  /\ parse_ocr_output 5000 init "Stairs: 3, HR: 072"
     = parse_ocr_output default_max_str_digits init "Stairs: 3, HR: 072".
Proof.
  assert (H1 : exists r, parse_ocr_output default_max_str_digits init
                           "Stairs: 3, HR: 072" = Return r)
    by (eexists; vm_compute; reflexivity).
  assert (H2 : exists r, parse_ocr_output 0 init "Stairs: 3, HR: 072"
                         = Return r)
    by (eexists; vm_compute; reflexivity).
  destruct H1 as (r1 & H1). destruct H2 as (r2 & H2). split.
  - rewrite H1, H2.
    exact (proj2 (proj1 parse_ocr_output_runs_agree init _ _ _ r1 r2 H1 H2)
             "medical_assistant_data" "hr").
  - rewrite H1.
    apply (proj2 parse_ocr_output_runs_agree init default_max_str_digits
             5000 _ r1); [ right; unfold default_max_str_digits; lia | exact H1 ].
Defined.

(** Claim C9.  When a rule's pattern matches at position [i] of the text
    and at no position before it, the search returns that match, whatever
    matches there are at later positions, and the three lookup helpers
    take their value from its group. *)
Theorem lookup_takes_leftmost_match :
  forall (lim : nat) (pattern : string) (r : regex) (text : string)
         (dotall : bool) (i : nat) (m : Match),
    compile pattern = Return r ->
    i <= String.length text ->
    match_at dotall r i (Str.skip i text) = Some m ->
    (forall j, j < i -> match_at dotall r j (Str.skip j text) = None) ->
    search pattern text dotall = Return (Some m)
    /\ m_start m = i
    /\ _find_value pattern text dotall
       = match m_group1 m with
         | Some g => Return (VStr (Str.strip g))
         | None => Raise AttributeError
         end
    /\ (dotall = false ->
        _find_numeric_value lim pattern text
        = bind (int lim (m_group1 m)) (fun n => Return (VInt n)))
    /\ (dotall = false ->
        _find_checkbox pattern text
        = Return (match m_group1 m with Some g => VStr g | None => VNone end)).
Proof.
  intros lim pattern r text dotall i m Hc Hi Hm Hnone.
  assert (Hs : search_from dotall r 0 text = Some m).
  { now apply (search_from_leftmost dotall r i text 0). }
  split; [ | split; [ | split; [ | split ] ] ].
  - now rewrite (search_compiled _ _ _ _ Hc), Hs.
  - exact (match_at_start _ _ _ _ _ Hm).
  - now rewrite (_find_value_compiled _ _ _ Hc), Hs.
  - intros ->. now rewrite (_find_numeric_value_compiled _ _ _ _ Hc), Hs.
  - intros ->. rewrite (_find_checkbox_compiled _ _ _ Hc), Hs.
    now destruct (m_group1 m).
Qed.

Lemma lookup_takes_leftmost_match_witness :
  match_at false (rating_rule "Stairs:") 12 (Str.skip 12 "x Stairs: 3 Stairs: 4")
  = Some (mkMatch 12 21 (Some "4"))
  /\ _find_numeric_value default_max_str_digits "Stairs:\s*([0-5])"
       "x Stairs: 3 Stairs: 4"
     = Return (VInt 3).
Proof.
  split; [ reflexivity | ].
  refine (proj1 (proj2 (proj2 (proj2
            (lookup_takes_leftmost_match default_max_str_digits
               "Stairs:\s*([0-5])" (rating_rule "Stairs:")
               "x Stairs: 3 Stairs: 4" false 2 (mkMatch 2 11 (Some "3"))
               eq_refl _ eq_refl _)))) eq_refl).
  - vm_compute. lia.
  - intros [ | [ | j ] ] Hj; [ reflexivity | reflexivity | lia ].
Defined.

(** Claim C10, as stated, fails on its example: labels are matched with
    the case of their letters, "Upstairs: 3" holds no "Stairs:", and the
    field is [None]. *)
Lemma upstairs_lower_case_cex :
  field (parse_ocr_output default_max_str_digits init "Upstairs: 3")
        "difficulty_ratings" "stairs"
  = Some VNone
  /\ field (parse_ocr_output default_max_str_digits init "Upstairs: 3")
           "difficulty_ratings" "stairs"
     <> Some (VInt 3).
Proof. split; vm_compute; [ reflexivity | discriminate ]. Qed.

(** Claim C10, amended.  Label matching is not anchored to the start of a
    line or to a word boundary, but it keeps the case of the letters.  A
    label that ends a longer word is matched, "UpStairs: 3" gives the
    rating 3, whereas "Upstairs: 3" gives [None]; and a label inside the
    value of another field is matched too: in "Patient Name : Stairs: 3"
    the name is "Stairs: 3" and the rating is 3. *)
Theorem label_match_is_unanchored_and_case_sensitive :
  (exists pre : string,
     pre <> "" /\ Str.all Char.isalpha pre = true
     /\ forall lim : nat,
          field (parse_ocr_output lim init (pre ++ "Stairs: 3")%string)
                "difficulty_ratings" "stairs" = Some (VInt 3))
  /\ (forall lim : nat,
        field (parse_ocr_output lim init "Upstairs: 3")
              "difficulty_ratings" "stairs" = Some VNone)
  /\ (forall lim : nat,
        field (parse_ocr_output lim init "Patient Name : Stairs: 3")
              "patient_details" "patient_name" = Some (VStr "Stairs: 3")
        /\ field (parse_ocr_output lim init "Patient Name : Stairs: 3")
                 "difficulty_ratings" "stairs" = Some (VInt 3)).
Proof.
  split; [ | split ].
  - exists "Up". split; [ discriminate | ]. split; [ reflexivity | ].
    intros [ | lim ]; vm_compute; reflexivity.
  - intros lim. vm_compute. reflexivity.
  - intros [ | lim ]; split; vm_compute; reflexivity.
Qed.

(** * Further properties *)

Import Fields.

(** ** Every field and its lookup *)

(** Each value of a record is what the lookup of its field returned. *)
Lemma parse_ocr_output_lookups (lim : nat) (text : string)
    (r : dict (dict value)) (group name : string) (v : value) :
  parse_ocr_output lim init text = Return r ->
  field (Return r) group name = Some v ->
  exists label, In (group, name, label, Return v) (lookups lim init text).
Proof.
  intros Hr Hv.
  destruct (parse_ocr_output_groups _ _ _ Hr)
    as (g1 & g2 & g3 & g4 & g5 & g6 & H1 & H2 & H3 & H4 & H5 & H6 & ->).
  unfold _extract_patient_info in H1. returned H1.
  unfold _extract_treatment_info in H2. returned H2.
  unfold _extract_difficulty_ratings, dict_comp in H3.
  cbn [dict_comp_from difficulty_tasks init] in H3. returned H3.
  unfold _extract_patient_changes in H4. returned H4.
  unfold _extract_pain_symptoms, dict_comp in H5.
  cbn [dict_comp_from pain_symptoms init] in H5. returned H5.
  unfold _extract_ma_data in H6. returned H6.
  inversion H1; inversion H2; inversion H3; inversion H4; inversion H5;
    inversion H6; subst; clear H1 H2 H3 H4 H5 H6.
  cbn [field dict_get] in Hv.
  repeat (match type of Hv with
          | context [ String.eqb ?a ?b ] =>
              destruct (String.eqb_spec a b) as [ Heq | Hne ];
              [ first [ discriminate Heq | subst ] | clear Hne ]
          end; cbn [dict_get] in Hv);
  try discriminate Hv; inversion Hv; subst; clear Hv;
  eexists;
  repeat match goal with
  | E : _ = Return ?w |- _ => try rewrite <- E; clear E
  end;
  unfold lookups; cbn [map app difficulty_tasks pain_symptoms init];
  repeat first [ left; reflexivity | right ].
Qed.

(** ** Trimmed values *)

Lemma rstrip_head (u : string) (c : ascii) (t : string) :
  Str.rstrip u = String c t -> exists u', u = String c u'.
Proof.
  destruct u as [ | a u ]; simpl; [ discriminate | ].
  destruct (Str.rstrip u).
  - destruct (Char.isspace a); [ discriminate | ].
    intros H. inversion H; subst. now exists u.
  - intros H. inversion H; subst. now exists u.
Qed.

Lemma rstrip_last (u : string) :
  forall (t : string) (c : ascii),
    Str.rstrip u = (t ++ String c "")%string -> Char.isspace c = false.
Proof.
  induction u as [ | a u IH ]; simpl; intros t c H.
  - destruct t; discriminate.
  - destruct (Str.rstrip u) as [ | b w ] eqn:E.
    + destruct (Char.isspace a) eqn:Ea; [ destruct t; discriminate | ].
      destruct t as [ | x t ]; simpl in H; inversion H; subst.
      * exact Ea.
      * destruct t; discriminate.
    + destruct t as [ | x t ]; simpl in H; inversion H; subst.
      now apply (IH t c).
Qed.

Lemma strip_trimmed (s : string) : Text.trimmed (Str.strip s).
Proof.
  unfold Str.strip, Str.lstrip. split.
  - intros c t H. apply rstrip_head in H. destruct H as (u' & H).
    now apply drop_while_head in H.
  - intros t c H. now apply rstrip_last in H.
Qed.

Lemma _find_value_trimmed (pattern text : string) (d : bool) (v : string) :
  _find_value pattern text d = Return (VStr v) -> Text.trimmed v.
Proof.
  unfold _find_value. destruct (search pattern text d) as [ [m | ] | ];
    cbn [bind]; try discriminate.
  destruct (m_group1 m); [ | discriminate ].
  intros H. inversion H; subst. apply strip_trimmed.
Qed.

Lemma _find_numeric_value_not_text (lim : nat) (pattern text v : string) :
  _find_numeric_value lim pattern text = Return (VStr v) -> False.
Proof.
  unfold _find_numeric_value. destruct (search pattern text false) as [ [m | ] | ];
    cbn [bind]; try discriminate.
  destruct (int lim (m_group1 m)); cbn [bind]; discriminate.
Qed.

Lemma yes_no_trimmed (v : string) : v = "YES" \/ v = "NO" -> Text.trimmed v.
Proof.
  intros [ -> | -> ]; split.
  - intros c t H. inversion H; subst. reflexivity.
  - intros [ | x [ | y [ | z t ] ] ] c H; inversion H; subst.
    + reflexivity.
    + destruct t; discriminate.
  - intros c t H. inversion H; subst. reflexivity.
  - intros [ | x [ | y t ] ] c H; inversion H; subst.
    + reflexivity.
    + destruct t; discriminate.
Qed.

Lemma checkbox_rule_trimmed (pattern l text v : string) :
  compile pattern = Return (checkbox_rule l) ->
  _find_checkbox pattern text = Return (VStr v) -> Text.trimmed v.
Proof.
  intros Hc H. destruct (checkbox_rule_value pattern l text Hc) as (w & Hw & Hv).
  apply yes_no_trimmed. rewrite Hw in H. inversion H; subst.
  destruct Hv as [ Hv | [ Hv | Hv ] ]; inversion Hv; tauto.
Qed.

(** X1.  No text in the output starts or ends with whitespace: what
    [_find_value] returns is trimmed whatever the pattern and the text,
    and so is every string of every record of [parse_ocr_output], the
    checkbox literals included. *)
Theorem output_strings_are_trimmed :
  (forall (pattern text : string) (dotall : bool) (v : string),
     _find_value pattern text dotall = Return (VStr v) -> Text.trimmed v)
  /\ (forall (lim : nat) (text : string) (r : dict (dict value))
             (group name v : string),
        parse_ocr_output lim init text = Return r ->
        field (Return r) group name = Some (VStr v) ->
        Text.trimmed v).
Proof.
  split; [ exact _find_value_trimmed | ].
  intros lim text r group name v Hr Hv.
  destruct (parse_ocr_output_lookups _ _ _ _ _ _ Hr Hv) as (label & Hin).
  unfold lookups in Hin. cbn [map app difficulty_tasks pain_symptoms init] in Hin.
  repeat (destruct Hin as [ Hin | Hin ];
          [ injection Hin as _ _ _ Hcall;
            first [ exact (_find_value_trimmed _ _ _ _ Hcall)
                  | exact (False_ind _ (_find_numeric_value_not_text _ _ _ _ Hcall))
                  | eapply (checkbox_rule_trimmed _ "INJECTION");
                    [ | exact Hcall ]; reflexivity
                  | eapply (checkbox_rule_trimmed _ "Exercise Therapy");
                    [ | exact Hcall ]; reflexivity ]
          | ]).
  contradiction.
Qed.

Lemma output_strings_are_trimmed_witness :
  Text.trimmed "Jane Doe".
Proof.
  refine (proj2 output_strings_are_trimmed default_max_str_digits
            ("Patient Name :   Jane Doe  " ++ Str.nl ++ "DOB : 1990-01-01")%string
            _ "patient_details" "patient_name" "Jane Doe" _ _).
  - vm_compute. reflexivity.
  - vm_compute. reflexivity.
Defined.

(** ** Labels *)

Section Occurs.

Variables (pattern l : string) (tail : regex) (text : string).
Hypothesis compiled : compile pattern = Return (lit_seq l tail).

Lemma search_from_occurs (d : bool) (m : Match) :
  search_from d (lit_seq l tail) 0 text = Some m -> Text.occurs l text.
Proof.
  intros H. apply search_from_group in H. destruct H as (i & s' & _ & H).
  rewrite exec_lit_seq in H.
  destruct (Str.after l (Str.skip i text)) as [s1 | ] eqn:E; [ | discriminate ].
  exists (Str.take i text), s1.
  rewrite <- (after_app _ _ _ E). now rewrite take_skip.
Qed.

Lemma _find_value_occurs (d : bool) (v : value) :
  _find_value pattern text d = Return v -> v <> VNone -> Text.occurs l text.
Proof.
  rewrite (_find_value_compiled _ _ _ compiled).
  destruct (search_from d (lit_seq l tail) 0 text) as [m | ] eqn:E.
  - intros _ _. exact (search_from_occurs _ _ E).
  - intros H Hv. inversion H; subst. contradiction.
Qed.

Lemma _find_numeric_value_occurs (lim : nat) (v : value) :
  _find_numeric_value lim pattern text = Return v -> v <> VNone ->
  Text.occurs l text.
Proof.
  rewrite (_find_numeric_value_compiled _ _ _ _ compiled).
  destruct (search_from false (lit_seq l tail) 0 text) as [m | ] eqn:E.
  - intros _ _. exact (search_from_occurs _ _ E).
  - intros H Hv. inversion H; subst. contradiction.
Qed.

Lemma _find_checkbox_occurs (v : value) :
  _find_checkbox pattern text = Return v -> v <> VNone -> Text.occurs l text.
Proof.
  rewrite (_find_checkbox_compiled _ _ _ compiled).
  destruct (search_from false (lit_seq l tail) 0 text) as [m | ] eqn:E.
  - intros _ _. exact (search_from_occurs _ _ E).
  - intros H Hv. inversion H; subst. contradiction.
Qed.

End Occurs.

(** X2.  A field is present only when its label stands in the text,
    letter for letter and in the same case: a value of a record that is
    not [None] comes from a lookup of the table whose label occurs in the
    text. *)
Theorem present_field_has_its_label_in_text :
  forall (lim : nat) (text : string) (r : dict (dict value))
         (group name : string) (v : value),
    parse_ocr_output lim init text = Return r ->
    field (Return r) group name = Some v ->
    v <> VNone ->
    exists label,
      In (group, name, label, Return v) (lookups lim init text)
      /\ Text.occurs label text.
Proof.
  intros lim text r group name v Hr Hv Hne.
  destruct (parse_ocr_output_lookups _ _ _ _ _ _ Hr Hv) as (label & Hin).
  exists label. split; [ exact Hin | ].
  unfold lookups in Hin. cbn [map app difficulty_tasks pain_symptoms init] in Hin.
  repeat (destruct Hin as [ Hin | Hin ];
          [ injection Hin as _ _ Hl Hcall; subst label;
            first [ eapply _find_value_occurs;
                    [ | exact Hcall | exact Hne ]; reflexivity
                  | eapply _find_numeric_value_occurs;
                    [ | exact Hcall | exact Hne ]; reflexivity
                  | eapply _find_checkbox_occurs;
                    [ | exact Hcall | exact Hne ]; reflexivity ]
          | ]).
  contradiction.
Qed.

Lemma present_field_has_its_label_in_text_witness :
  exists label,
    In ("difficulty_ratings", "stairs", label, Return (VInt 3))
       (lookups default_max_str_digits init "UpStairs: 3")
    /\ Text.occurs label "UpStairs: 3".
Proof.
  refine (present_field_has_its_label_in_text default_max_str_digits
            "UpStairs: 3" _ "difficulty_ratings" "stairs" (VInt 3) _ _ _).
  - vm_compute. reflexivity.
  - vm_compute. reflexivity.
  - discriminate.
Defined.

(** ** Runs of digits *)

Lemma take_while_le_longest_run (p : ascii -> bool) (s : string) :
  String.length (Str.take_while p s) <= Text.longest_run p s.
Proof.
  destruct s as [ | c s ]; [ simpl; lia | ].
  cbn [Text.longest_run]. apply Nat.le_max_l.
Qed.

Lemma longest_run_cons (p : ascii -> bool) (c : ascii) (s : string) :
  Text.longest_run p s <= Text.longest_run p (String c s).
Proof. cbn [Text.longest_run]. apply Nat.le_max_r. Qed.

Lemma longest_run_app (p : ascii -> bool) (pre s : string) :
  Text.longest_run p s <= Text.longest_run p (pre ++ s).
Proof.
  induction pre as [ | c pre IH ]; [ apply Nat.le_refl | ].
  change (String c pre ++ s)%string with (String c (pre ++ s)).
  pose proof (longest_run_cons p c (pre ++ s)). lia.
Qed.

Lemma longest_run_skip (p : ascii -> bool) (i : nat) (s : string) :
  Text.longest_run p (Str.skip i s) <= Text.longest_run p s.
Proof.
  rewrite <- (take_skip i s) at 2. apply longest_run_app.
Qed.

Lemma longest_run_drop_while (p q : ascii -> bool) (s : string) :
  Text.longest_run p (Str.drop_while q s) <= Text.longest_run p s.
Proof.
  rewrite <- (take_drop_while q s) at 2. apply longest_run_app.
Qed.

Section NumberRun.

Variables (lim : nat) (pattern l text : string).
Hypothesis compiled : compile pattern = Return (number_rule l).

(** The lookup of a number returns, or raises [ValueError] over a run of
    digits that the text holds and [int] refuses. *)
Lemma number_rule_outcome :
  (exists v, _find_numeric_value lim pattern text = Return v)
  \/ (_find_numeric_value lim pattern text = Raise ValueError
      /\ 0 < lim
      /\ Nat.max 640 lim < Text.longest_run Char.isdigit text).
Proof.
  rewrite (_find_numeric_value_compiled _ _ _ _ compiled).
  destruct (search_from false (number_rule l) 0 text) as [m | ] eqn:E;
    [ | left; now eexists ].
  apply search_from_group in E. destruct E as (i & s' & _ & E).
  rewrite exec_number_rule in E.
  destruct (Str.after l (Str.skip i text)) as [s1 | ] eqn:E1; [ | discriminate ].
  destruct (Str.lstrip s1) as [ | c s2 ] eqn:E2; [ discriminate | ].
  destruct (Ascii.eqb c ":"); [ | discriminate ].
  destruct (Str.lstrip s2) as [ | a s3 ] eqn:E3; [ discriminate | ].
  destruct (Char.isdigit a) eqn:Ea; [ | discriminate ].
  inversion E as [[Hs Hg]]. clear E Hs Hg.
  assert (Hrun : String.length (String a (Str.take_while Char.isdigit s3))
                 <= Text.longest_run Char.isdigit text).
  { pose proof (take_while_le_longest_run Char.isdigit (String a s3)) as H0.
    cbn [Str.take_while] in H0. rewrite Ea in H0.
    pose proof (longest_run_drop_while Char.isdigit Char.isspace s2) as H1.
    change (Str.drop_while Char.isspace s2) with (Str.lstrip s2) in H1.
    rewrite E3 in H1.
    pose proof (longest_run_cons Char.isdigit c s2) as H2.
    pose proof (longest_run_drop_while Char.isdigit Char.isspace s1) as H3.
    change (Str.drop_while Char.isspace s1) with (Str.lstrip s1) in H3.
    rewrite E2 in H3.
    pose proof (longest_run_app Char.isdigit l s1) as H4.
    rewrite <- (after_app _ _ _ E1) in H4.
    pose proof (longest_run_skip Char.isdigit i text) as H5.
    lia. }
  rewrite int_of_digits;
    [ | discriminate | cbn [Str.all]; rewrite Ea; apply take_while_all ].
  destruct (Nat.ltb_spec 0 lim) as [Hlim | Hlim];
    [ | left; now eexists ].
  destruct (Nat.ltb_spec 640
              (String.length (String a (Str.take_while Char.isdigit s3))))
    as [H640 | H640]; [ | left; now eexists ].
  destruct (Nat.ltb_spec lim
              (String.length (String a (Str.take_while Char.isdigit s3))))
    as [Hl | Hl]; [ | left; now eexists ].
  right. cbn [andb bind]. repeat split; [ exact Hlim | lia ].
Qed.

End NumberRun.

(** X3.  [parse_ocr_output] returns a record or raises [ValueError], and
    nothing else: no lookup fails on a group that took no part in its
    match, and no pattern is refused.  It raises only when the
    interpreter limits the digits [int] converts and the text holds a run
    of digits longer than that limit and than 640. *)
Theorem parse_ocr_output_raises_only_on_long_digit_run :
  forall (lim : nat) (text : string),
    (exists r, parse_ocr_output lim init text = Return r)
    \/ (parse_ocr_output lim init text = Raise ValueError
        /\ 0 < lim
        /\ Nat.max 640 lim < Text.longest_run Char.isdigit text).
Proof.
  intros lim text. unfold parse_ocr_output.
  destruct (_extract_patient_info_returns text) as (g1 & ->).
  destruct (_extract_treatment_info_returns text) as (g2 & ->).
  destruct (_extract_difficulty_ratings_returns lim text) as (g3 & ->).
  destruct (_extract_patient_changes_returns text) as (g4 & ->).
  destruct (_extract_pain_symptoms_returns lim text) as (g5 & ->).
  cbn [bind]. unfold _extract_ma_data.
  destruct (line_rule_value "Blood Pressure\s*:\s*(.*)" "Blood Pressure" text eq_refl)
    as (v1 & -> & _).
  destruct (line_rule_value "Height\s*:\s*(.*)" "Height" text eq_refl)
    as (v2 & -> & _).
  destruct (line_rule_value "Temperature\s*:\s*(.*)" "Temperature" text eq_refl)
    as (v3 & -> & _).
  cbn [bind].
  destruct (number_rule_outcome lim "HR\s*:\s*(\d+)" "HR" text eq_refl)
    as [ (n1 & ->) | (-> & H) ]; [ cbn [bind] | now right ].
  destruct (number_rule_outcome lim "Weight\s*:\s*(\d+)" "Weight" text eq_refl)
    as [ (n2 & ->) | (-> & H) ]; [ cbn [bind] | now right ].
  destruct (number_rule_outcome lim "SpO2\s*:\s*(\d+)" "SpO2" text eq_refl)
    as [ (n3 & ->) | (-> & H) ]; [ cbn [bind] | now right ].
  destruct (number_rule_outcome lim "Blood Glucose\s*:\s*(\d+)" "Blood Glucose"
              text eq_refl)
    as [ (n4 & ->) | (-> & H) ]; [ cbn [bind] | now right ].
  destruct (number_rule_outcome lim "Respirations\s*:\s*(\d+)" "Respirations"
              text eq_refl)
    as [ (n5 & ->) | (-> & H) ]; [ cbn [bind] | now right ].
  left. now eexists.
Qed.

(** ** Numbers *)


Lemma take_while_app_stop (p : ascii -> bool) (w tail : string) :
  Str.all p w = true -> Str.take_while p tail = "" ->
  Str.take_while p (w ++ tail) = w.
Proof.
  intros Hw Ht. induction w as [ | c w IH ]; simpl; [ exact Ht | ].
  simpl in Hw. apply andb_true_iff in Hw. destruct Hw as [Hc Hw].
  now rewrite Hc, (IH Hw).
Qed.

Lemma digit_not_space (c : ascii) :
  Char.isdigit c = true -> Char.isspace c = false.
Proof.
  intros H. destruct (Char.isspace c) eqn:E; [ | reflexivity ].
  apply space_not_digit in E. congruence.
Qed.

(** The number is read from the whole run of digits that follows the
    label, the colon and the whitespace; what comes after the run plays no
    part. *)
Lemma number_rule_run (lim : nat) (pattern l ws1 ws2 digits tail : string) :
  compile pattern = Return (number_rule l) ->
  Str.all Char.isspace ws1 = true ->
  Str.all Char.isspace ws2 = true ->
  digits <> "" ->
  Str.all Char.isdigit digits = true ->
  Str.take_while Char.isdigit tail = "" ->
  _find_numeric_value lim pattern (l ++ ws1 ++ ":" ++ ws2 ++ digits ++ tail)
  = bind (int lim (Some digits)) (fun n => Return (VInt n)).
Proof.
  intros Hc H1 H2 Hne Hd Ht.
  rewrite (_find_numeric_value_compiled _ _ _ _ Hc).
  destruct (search_from_start false (number_rule l)
              (l ++ ws1 ++ ":" ++ ws2 ++ digits ++ tail)
              (Str.drop_while Char.isdigit tail) (Some digits))
    as (m & -> & ->); [ | reflexivity ].
  rewrite exec_number_rule, after_prefix. unfold Str.lstrip.
  rewrite (drop_while_all _ ws1 _ H1).
  change (Str.drop_while Char.isspace (":" ++ ws2 ++ digits ++ tail))
    with (String ":" (ws2 ++ digits ++ tail)).
  cbn iota. rewrite Ascii.eqb_refl, (drop_while_all _ ws2 _ H2).
  destruct digits as [ | a ds ]; [ congruence | ].
  cbn [Str.all] in Hd. apply andb_true_iff in Hd. destruct Hd as [Ha Hds].
  change (String a ds ++ tail)%string with (String a (ds ++ tail)).
  cbn [Str.drop_while]. rewrite (digit_not_space a Ha), Ha.
  now rewrite (take_while_app_stop _ ds tail Hds Ht),
    (drop_while_all _ ds tail Hds).
Qed.

Lemma number_patterns (name label : string) :
  In (name, label) number_rules ->
  compile (number_pattern label) = Return (number_rule label).
Proof.
  simpl. intros H.
  repeat (destruct H as [ H | H ]; [ inversion H; subst; reflexivity | ]).
  contradiction.
Qed.

(** Which lookup fills a number. *)
Lemma number_field (lim : nat) (text : string) (r : dict (dict value))
    (name label : string) (v : value) :
  parse_ocr_output lim init text = Return r ->
  In (name, label) number_rules ->
  field (Return r) "medical_assistant_data" name = Some v ->
  _find_numeric_value lim (number_pattern label) text = Return v.
Proof.
  intros Hr Hin Hv.
  destruct (parse_ocr_output_groups _ _ _ Hr)
    as (g1 & g2 & g3 & g4 & g5 & g6 & _ & _ & _ & _ & _ & H6 & ->).
  unfold _extract_ma_data in H6. returned H6.
  inversion H6; subst; clear H6. simpl in Hin.
  repeat (destruct Hin as [ Hin | Hin ];
          [ inversion Hin; subst; cbn in Hv; inversion Hv; subst; assumption | ]).
  contradiction.
Qed.

(** Each number is a field of every record. *)
Lemma number_field_present (lim : nat) (text : string)
    (r : dict (dict value)) (name label : string) :
  parse_ocr_output lim init text = Return r ->
  In (name, label) number_rules ->
  exists v, field (Return r) "medical_assistant_data" name = Some v.
Proof.
  intros Hr Hin.
  destruct (parse_ocr_output_groups _ _ _ Hr)
    as (g1 & g2 & g3 & g4 & g5 & g6 & _ & _ & _ & _ & _ & H6 & ->).
  unfold _extract_ma_data in H6. returned H6.
  inversion H6; subst; clear H6. simpl in Hin.
  repeat (destruct Hin as [ Hin | Hin ];
          [ inversion Hin; subst; cbn; eexists; reflexivity | ]).
  contradiction.
Qed.

(** X4.  The vital-sign numbers ([hr], [weight], [spo2], [blood_glucose],
    [respirations]): the value is the number written by the whole run of
    digits that follows the label, the colon and optional whitespace,
    leading zeros allowed, and what follows the run is ignored, so that a
    fraction or a second number is cut off; a number that is present is
    never negative. *)
Theorem number_is_leading_digit_run :
  forall name label : string,
    In (name, label) number_rules ->
    (forall (lim : nat) (ws1 ws2 digits tail : string),
       Str.all Char.isspace ws1 = true ->
       Str.all Char.isspace ws2 = true ->
       digits <> "" ->
       Str.all Char.isdigit digits = true ->
       String.length digits <= 640 ->
       Str.take_while Char.isdigit tail = "" ->
       _find_numeric_value lim (number_pattern label)
         (label ++ ws1 ++ ":" ++ ws2 ++ digits ++ tail)%string
       = Return (VInt (decimal 0 digits))
       /\ (forall r : dict (dict value),
             parse_ocr_output lim init
               (label ++ ws1 ++ ":" ++ ws2 ++ digits ++ tail)%string
             = Return r ->
             field (Return r) "medical_assistant_data" name
             = Some (VInt (decimal 0 digits))))
    /\ (forall (lim : nat) (text : string) (r : dict (dict value)) (v : value),
          parse_ocr_output lim init text = Return r ->
          field (Return r) "medical_assistant_data" name = Some v ->
          v = VNone \/ exists n : Z, v = VInt n /\ (0 <= n)%Z).
Proof.
  intros name label Hin. pose proof (number_patterns _ _ Hin) as Hc. split.
  - intros lim ws1 ws2 digits tail H1 H2 Hne Hd Hlen Ht.
    assert (Hv : _find_numeric_value lim (number_pattern label)
                   (label ++ ws1 ++ ":" ++ ws2 ++ digits ++ tail)%string
                 = Return (VInt (decimal 0 digits))).
    { rewrite (number_rule_run lim _ label ws1 ws2 digits tail
                 Hc H1 H2 Hne Hd Ht).
      now rewrite (int_of_short_digits lim digits Hne Hd Hlen). }
    split; [ exact Hv | ].
    intros r Hr. destruct (number_field_present _ _ _ _ _ Hr Hin) as [v Hf].
    pose proof (number_field _ _ _ _ _ _ Hr Hin Hf) as Hl.
    rewrite Hv in Hl. now inversion Hl; subst.
  - intros lim text r v Hr Hv.
    pose proof (number_field _ _ _ _ _ _ Hr Hin Hv) as Hf.
    destruct (number_rule_value lim _ label text Hc)
      as [ (w & Hw & Hn) | (_ & Hraise) ]; [ | congruence ].
    rewrite Hw in Hf. now inversion Hf; subst.
Qed.

Lemma number_is_leading_digit_run_witness :
  (_find_numeric_value default_max_str_digits (number_pattern "Weight")
     "Weight : 072.5 kg" = Return (VInt 72)
   /\ forall r : dict (dict value),
        parse_ocr_output default_max_str_digits init "Weight : 072.5 kg"
        = Return r ->
        field (Return r) "medical_assistant_data" "weight"
        = Some (VInt 72))
  /\ ((VInt 72 = VNone) \/ exists n : Z, VInt 72 = VInt n /\ (0 <= n)%Z).
Proof.
  destruct (number_is_leading_digit_run "weight" "Weight"
              (or_intror (or_introl eq_refl))) as [Hrun Hpos].
  split.
  - refine (Hrun default_max_str_digits " " " " "072" ".5 kg" _ _ _ _ _ _);
      first [ reflexivity | discriminate | (vm_compute; lia) ].
  - refine (Hpos default_max_str_digits "Weight : 072.5 kg" _ (VInt 72) _ _).
    + vm_compute. reflexivity.
    + vm_compute. reflexivity.
Defined.

(** ** Symptom scores *)



(** ** The free-text fields of [patient_changes] *)

Lemma has_unindented_line_ahead (s : string) :
  Str.unindented_line_ahead s = true -> Text.has_unindented_line s = true.
Proof.
  destruct s as [ | c s ]; [ discriminate | ].
  intros H. cbn [Text.has_unindented_line]. now rewrite H.
Qed.

Lemma has_unindented_line_app (pre s : string) :
  Text.has_unindented_line s = true ->
  Text.has_unindented_line (pre ++ s) = true.
Proof.
  intros H. induction pre as [ | c pre IH ]; [ exact H | ].
  change (String c pre ++ s)%string with (String c (pre ++ s)).
  cbn [Text.has_unindented_line]. rewrite IH. apply orb_true_r.
Qed.

Lemma paragraph_after_unindented_line (l text w : string) :
  paragraph_after l text w -> Text.has_unindented_line text = true.
Proof.
  intros (pre & post & -> & Hahead & _).
  do 3 apply has_unindented_line_app.
  now apply has_unindented_line_ahead.
Qed.

(** The three lookups of [_extract_patient_changes], which never fails. *)
Lemma _extract_patient_changes_entries (text : string) :
  exists v1 v2 v3,
    _find_value "Patient changes since last treatment:(.*?)(?=\n\S)" text true
    = Return v1
    /\ _find_value "Patient changes since the start of treatment:(.*?)(?=\n\S)"
         text true
       = Return v2
    /\ _find_value
         "Describe any functional changes within the last three days \(good or bad\):(.*)"
         text false
       = Return v3
    /\ _extract_patient_changes text
       = Return [("since_last_treatment", v1);
                 ("since_start_of_treatment", v2); ("last_3_days", v3)].
Proof.
  unfold _extract_patient_changes.
  destruct (paragraph_rule_value
              "Patient changes since last treatment:(.*?)(?=\n\S)"
              "Patient changes since last treatment:" text eq_refl)
    as (v1 & H1 & _).
  destruct (paragraph_rule_value
              "Patient changes since the start of treatment:(.*?)(?=\n\S)"
              "Patient changes since the start of treatment:" text eq_refl)
    as (v2 & H2 & _).
  destruct (rest_rule_value
              "Describe any functional changes within the last three days \(good or bad\):(.*)"
              "Describe any functional changes within the last three days (good or bad):"
              text eq_refl)
    as (v3 & H3 & _).
  exists v1, v2, v3. rewrite H1, H2, H3. repeat split.
Qed.

(** X6.  The two multi-line fields need a next line to stop at: when no
    line break of the text is followed by a character that is not
    whitespace, as in a text of one line or when the paragraph is the last
    thing in the text, both are [None], whatever follows their labels.
    When [since_start_of_treatment] is present, it is the trimmed
    paragraph that runs from its label to the first place where a line
    break followed by a character that is not whitespace lies ahead. *)
Theorem paragraph_needs_a_following_line :
  (forall text : string,
     Text.has_unindented_line text = false ->
     entry (_extract_patient_changes text) "since_last_treatment" = Some VNone
     /\ entry (_extract_patient_changes text) "since_start_of_treatment"
        = Some VNone)
  /\ (forall text v : string,
        entry (_extract_patient_changes text) "since_start_of_treatment"
        = Some (VStr v) ->
        exists w,
          paragraph_after "Patient changes since the start of treatment:" text w
          /\ v = Str.strip w).
Proof.
  split.
  - intros text Hno.
    destruct (_extract_patient_changes_entries text)
      as (v1 & v2 & v3 & H1 & H2 & _ & ->).
    cbn [entry dict_get String.eqb Ascii.eqb Bool.eqb].
    destruct (paragraph_rule_value
                "Patient changes since last treatment:(.*?)(?=\n\S)"
                "Patient changes since last treatment:" text eq_refl)
      as (w1 & Hw1 & [ -> | (p & Hp & _) ]);
      [ | apply paragraph_after_unindented_line in Hp; congruence ].
    destruct (paragraph_rule_value
                "Patient changes since the start of treatment:(.*?)(?=\n\S)"
                "Patient changes since the start of treatment:" text eq_refl)
      as (w2 & Hw2 & [ -> | (p & Hp & _) ]);
      [ | apply paragraph_after_unindented_line in Hp; congruence ].
    split; congruence.
  - intros text v Hv.
    destruct (_extract_patient_changes_entries text)
      as (v1 & v2 & v3 & _ & H2 & _ & He).
    rewrite He in Hv. cbn in Hv. inversion Hv; subst; clear Hv.
    destruct (paragraph_rule_value
                "Patient changes since the start of treatment:(.*?)(?=\n\S)"
                "Patient changes since the start of treatment:" text eq_refl)
      as (w2 & Hw2 & [ -> | (p & Hp & ->) ]); [ congruence | ].
    exists p. split; [ exact Hp | congruence ].
Qed.

Lemma paragraph_needs_a_following_line_witness :
  (entry (_extract_patient_changes
            "Patient changes since last treatment: feeling better")
         "since_last_treatment" = Some VNone
   /\ entry (_extract_patient_changes
               "Patient changes since last treatment: feeling better")
            "since_start_of_treatment" = Some VNone)
  /\ exists w,
       paragraph_after "Patient changes since the start of treatment:"
         ("Patient changes since the start of treatment: stronger" ++ Str.nl
          ++ "Date : 2024-01-01")%string w
       /\ "stronger" = Str.strip w.
Proof.
  destruct paragraph_needs_a_following_line as [Hnone Hsome].
  split.
  - apply Hnone. reflexivity.
  - apply Hsome. vm_compute. reflexivity.
Defined.

(** [rest_rule]: the value is the rest of the label's line. *)
Lemma rest_rule_line (pattern l text : string) (v : string) :
  compile pattern = Return (rest_rule l) ->
  _find_value pattern text false = Return (VStr v) ->
  exists pre line post : string,
    text = (pre ++ l ++ line ++ post)%string
    /\ Str.all Char.not_LF line = true
    /\ Text.ends_line post
    /\ v = Str.strip line.
Proof.
  intros Hc. rewrite (_find_value_compiled _ _ _ Hc).
  destruct (search_from false (rest_rule l) 0 text) as [m | ] eqn:E;
    [ | discriminate ].
  apply search_from_group in E. destruct E as (i & s' & _ & E).
  rewrite exec_rest_rule in E.
  destruct (Str.after l (Str.skip i text)) as [s1 | ] eqn:E1; [ | discriminate ].
  inversion E as [[Hs Hg]]. clear E Hs Hg. intros H. inversion H; subst.
  exists (Str.take i text), (Str.take_while Char.not_LF s1),
         (Str.drop_while Char.not_LF s1).
  split; [ | split; [ | split ] ].
  - rewrite take_drop_while, <- (after_app _ _ _ E1). now rewrite take_skip.
  - apply take_while_all.
  - destruct (Str.drop_while Char.not_LF s1) as [ | b u ] eqn:E3;
      [ now left | right ].
    apply drop_while_head in E3. unfold Char.not_LF in E3.
    destruct (Ascii.eqb_spec b Char.LF) as [ -> | ]; [ | discriminate ].
    now exists u.
  - reflexivity.
Qed.

Lemma take_while_line (line post : string) :
  Str.all Char.not_LF line = true -> Text.ends_line post ->
  Str.take_while Char.not_LF (line ++ post) = line.
Proof.
  intros Hl Hp. apply take_while_app_stop; [ exact Hl | ].
  destruct Hp as [ -> | (t & ->) ]; reflexivity.
Qed.

(** X7.  [last_3_days] is read from its label's own line and no other:
    a value that is present is the trimmed rest of the line on which the
    label stands, and a text that starts with the label gives the trimmed
    rest of its first line, the empty string when the line ends at the
    label. *)
Theorem last_3_days_is_rest_of_its_line :
  (forall text v : string,
     entry (_extract_patient_changes text) "last_3_days" = Some (VStr v) ->
     exists pre line post : string,
       text = (pre
               ++ "Describe any functional changes within the last three days (good or bad):"
               ++ line ++ post)%string
       /\ Str.all Char.not_LF line = true
       /\ Text.ends_line post
       /\ v = Str.strip line)
  /\ (forall line post : string,
        Str.all Char.not_LF line = true ->
        Text.ends_line post ->
        entry (_extract_patient_changes
                 ("Describe any functional changes within the last three days (good or bad):"
                  ++ line ++ post)%string) "last_3_days"
        = Some (VStr (Str.strip line))).
Proof.
  split.
  - intros text v Hv.
    destruct (_extract_patient_changes_entries text)
      as (v1 & v2 & v3 & _ & _ & H3 & He).
    rewrite He in Hv. cbn in Hv. inversion Hv; subst; clear Hv.
    exact (rest_rule_line
             "Describe any functional changes within the last three days \(good or bad\):(.*)"
             "Describe any functional changes within the last three days (good or bad):"
             text v eq_refl H3).
  - intros line post Hl Hp.
    destruct (_extract_patient_changes_entries
                ("Describe any functional changes within the last three days (good or bad):"
                 ++ line ++ post)%string)
      as (v1 & v2 & v3 & _ & _ & H3 & ->).
    cbn. f_equal.
    rewrite (_find_value_compiled
               "Describe any functional changes within the last three days \(good or bad\):(.*)"
               (rest_rule "Describe any functional changes within the last three days (good or bad):")
               _ eq_refl) in H3.
    destruct (search_from_start false
                (rest_rule "Describe any functional changes within the last three days (good or bad):")
                ("Describe any functional changes within the last three days (good or bad):"
                 ++ line ++ post)
                (Str.drop_while Char.not_LF (line ++ post)) (Some line))
      as (m & Hm & Hg).
    + rewrite exec_rest_rule, after_prefix.
      now rewrite (take_while_line line post Hl Hp).
    + rewrite Hm, Hg in H3. now inversion H3.
Qed.

Lemma last_3_days_is_rest_of_its_line_witness :
  entry (_extract_patient_changes
           ("Describe any functional changes within the last three days (good or bad):"
            ++ "" ++ (Str.nl ++ "Pain: 4"))%string) "last_3_days"
  = Some (VStr "").
Proof.
  refine (proj2 last_3_days_is_rest_of_its_line "" (Str.nl ++ "Pain: 4")%string _ _).
  - reflexivity.
  - right. eexists. reflexivity.
Defined.

(** ** Rules generated from any list of names *)

Import Names.

Lemma label_char_atom (c : ascii) (s : string) (f : nat) :
  label_char c = true ->
  parse_atom (S f) (String c s) = Some (One (Char c), s).
Proof.
  destruct c as [[] [] [] [] [] [] [] []]; intros H;
    try discriminate H; reflexivity.
Qed.

Lemma label_char_no_quant (c : ascii) (s : string) :
  label_char c = true -> parse_quant (String c s) = None.
Proof.
  destruct c as [[] [] [] [] [] [] [] []]; intros H;
    try discriminate H; reflexivity.
Qed.

(** A literal character in front of a branch is parsed into one more item
    of the sequence. *)
Lemma parse_branch_label_char (c : ascii) (s : string) (f : nat) :
  label_char c = true ->
  parse_quant s = None ->
  parse_branch (S (S (S f))) (String c s) =
  match parse_branch (S (S f)) s with
  | Some (Empty, s2) => Some (OneOf (Char c), s2)
  | Some (r2, s2) => Some (Seq (OneOf (Char c)) r2, s2)
  | None => None
  end.
Proof.
  intros Hc Hq.
  assert (Hpiece : parse_piece (S (S f)) (String c s)
                   = Some (OneOf (Char c), s)).
  { cbn [parse_piece]. rewrite (label_char_atom c s f Hc), Hq. reflexivity. }
  assert (Hguard : parse_branch (S (S (S f))) (String c s) =
                   match parse_piece (S (S f)) (String c s) with
                   | Some (r1, s1) =>
                       match parse_branch (S (S f)) s1 with
                       | Some (Empty, s2) => Some (r1, s2)
                       | Some (r2, s2) => Some (Seq r1 r2, s2)
                       | None => None
                       end
                   | None => None
                   end).
  { clear Hpiece Hq. revert Hc.
    destruct c as [[] [] [] [] [] [] [] []]; intros Hc;
      try discriminate Hc; reflexivity. }
  rewrite Hguard, Hpiece.
  destruct (parse_branch (S (S f)) s) as [ [ [ ] ? ] | ]; reflexivity.
Qed.

Lemma lit_seq_not_empty (l : string) (r : regex) :
  r <> Empty -> lit_seq l r <> Empty.
Proof. destruct l; simpl; [ tauto | discriminate ]. Qed.

Lemma lit_seq_app (l1 l2 : string) (r : regex) :
  lit_seq (l1 ++ l2) r = lit_seq l1 (lit_seq l2 r).
Proof.
  induction l1 as [ | c l1 IH ]; simpl; [ reflexivity | now rewrite IH ].
Qed.

Lemma groups_lit_seq (l : string) (r : regex) :
  groups (lit_seq l r) = groups r.
Proof.
  induction l as [ | c l IH ]; simpl; [ reflexivity | exact IH ].
Qed.

(** A label of such characters in front of a branch is parsed into the
    literal run of its characters. *)
Lemma parse_branch_label (l : string) :
  Str.all label_char l = true ->
  forall (f : nat) (t rest : string) (r : regex),
    parse_branch (S (S f)) t = Some (r, rest) ->
    r <> Empty ->
    parse_quant t = None ->
    parse_branch (String.length l + S (S f)) (l ++ t) = Some (lit_seq l r, rest).
Proof.
  induction l as [ | c l IH ]; intros Hl f t rest r Ht Hr Hq; [ exact Ht | ].
  cbn [Str.all] in Hl. apply andb_true_iff in Hl. destruct Hl as [Hc Hl].
  change (String c l ++ t)%string with (String c (l ++ t)).
  replace (String.length (String c l) + S (S f))
    with (S (S (S (String.length l + f)))) by (cbn [String.length]; lia).
  rewrite parse_branch_label_char.
  - replace (S (S (String.length l + f)))
      with (String.length l + S (S f)) by lia.
    rewrite (IH Hl f t rest r Ht Hr Hq).
    pose proof (lit_seq_not_empty l r Hr) as Hne.
    cbn [lit_seq]. destruct (lit_seq l r); try reflexivity. congruence.
  - exact Hc.
  - destruct l as [ | a l ]; [ exact Hq | ].
    cbn [Str.all] in Hl. apply andb_true_iff in Hl.
    now apply label_char_no_quant.
Qed.

(** A pattern made of a label and a tail the parser reads with some fuel
    to spare compiles to the label followed by what the tail parses to. *)
Lemma compile_label (l tail : string) (r : regex) (k : nat) :
  Str.all label_char l = true ->
  (forall f, parse_branch (S (S (k + f))) tail = Some (r, "")) ->
  r <> Empty ->
  parse_quant tail = None ->
  groups r <= 1 ->
  k + 3 <= 4 * String.length tail ->
  compile (l ++ tail) = Return (lit_seq l r).
Proof.
  intros Hl Ht Hr Hq Hg Hk. unfold compile. rewrite length_app.
  replace (4 * (String.length l + String.length tail) + 4)
    with (S (String.length l
             + S (S (k + (3 * String.length l
                          + (4 * String.length tail + 1 - k))))))
    by lia.
  cbn [parse_alt].
  rewrite (parse_branch_label l Hl _ tail "" r (Ht _) Hr Hq).
  rewrite groups_lit_seq.
  destruct (Nat.leb_spec (groups r) 1); [ reflexivity | lia ].
Qed.

Lemma rating_pattern_compiles (l : string) :
  Str.all label_char l = true ->
  compile (l ++ ":\s*([0-5])") = Return (rating_rule (l ++ ":")).
Proof.
  intros Hl. unfold rating_rule. rewrite lit_seq_app.
  apply (compile_label l ":\s*([0-5])" _ 20 Hl).
  - intros f. reflexivity.
  - discriminate.
  - reflexivity.
  - cbn. lia.
  - cbn. lia.
Qed.

Lemma symptom_pattern_compiles (l : string) :
  Str.all label_char l = true ->
  compile (l ++ ":\s*([0-9]{1,2})") = Return (symptom_rule (l ++ ":")).
Proof.
  intros Hl. unfold symptom_rule. rewrite lit_seq_app.
  apply (compile_label l ":\s*([0-9]{1,2})" _ 20 Hl).
  - intros f. reflexivity.
  - discriminate.
  - reflexivity.
  - cbn. lia.
  - cbn. lia.
Qed.

Lemma name_char_title (c : ascii) :
  name_char c = true ->
  label_char (Char.upper c) = true /\ label_char (Char.lower c) = true
  /\ label_char (Char.upper (if Ascii.eqb c "_" then " "%char else c)) = true
  /\ label_char (Char.lower (if Ascii.eqb c "_" then " "%char else c)) = true.
Proof.
  destruct c as [[] [] [] [] [] [] [] []]; intros H;
    try discriminate H; repeat split.
Qed.

Lemma title_label (s : string) :
  plain_name s = true ->
  forall prev : bool, Str.all label_char (Str.title_from prev s) = true.
Proof.
  induction s as [ | c s IH ]; intros Hs prev; [ reflexivity | ].
  cbn [plain_name Str.all] in Hs. apply andb_true_iff in Hs.
  destruct Hs as [Hc Hs]. cbn [Str.title_from Str.all].
  destruct (name_char_title c Hc) as (Hu & Hlo & _ & _).
  rewrite (IH Hs). now destruct prev; rewrite ?Hu, ?Hlo.
Qed.

Lemma replace_title_label (s : string) :
  plain_name s = true ->
  forall prev : bool,
    Str.all label_char (Str.title_from prev (Str.replace "_" " " s)) = true.
Proof.
  induction s as [ | c s IH ]; intros Hs prev; [ reflexivity | ].
  cbn [plain_name Str.all] in Hs. apply andb_true_iff in Hs.
  destruct Hs as [Hc Hs]. cbn [Str.replace Str.title_from Str.all].
  destruct (name_char_title c Hc) as (_ & _ & Hu & Hlo).
  rewrite (IH Hs). now destruct prev; rewrite ?Hu, ?Hlo.
Qed.

Lemma task_label_label (s : string) :
  plain_name s = true -> Str.all label_char (task_label s) = true.
Proof. intros Hs. exact (replace_title_label s Hs false). Qed.

(** The keys of a comprehension are the names it ran over. *)
Lemma dict_comp_from_domain {V : Type} (f : string -> result V)
    (ks : list string) :
  forall (d d' : dict V) (k : string),
    dict_comp_from f ks d = Return d' ->
    (dict_get d' k <> None <-> In k ks \/ dict_get d k <> None).
Proof.
  induction ks as [ | k0 ks IH ]; cbn [dict_comp_from]; intros d d' k H.
  - inversion H; subst. simpl. tauto.
  - returned H. rewrite (IH _ _ k H). simpl.
    destruct (String.eqb_spec k0 k) as [ -> | Hne ].
    + rewrite dict_get_set_same. split; [ tauto | intros _; right; discriminate ].
    + rewrite (dict_get_set_other d k0 k v Hne). tauto.
Qed.

(** X8.  The rules generated from the two name lists work for any lists of
    names made of lower-case letters, digits and underscores, not only for
    the ones [__init__] sets: each label enters its pattern as literal
    text, the extraction returns, the result has one key for each name and
    no other, and the values are [None] or integers from 0 to 5 for the
    tasks and from 0 to 99 for the symptoms. *)
Theorem generated_rules_work_for_any_plain_names :
  forall (self : t) (lim : nat) (text : string),
    (forall task, In task (difficulty_tasks self) -> plain_name task = true) ->
    (forall symptom, In symptom (pain_symptoms self) ->
                     plain_name symptom = true) ->
    (exists g,
       _extract_difficulty_ratings lim self text = Return g
       /\ (forall task, dict_get g task <> None <->
                        In task (difficulty_tasks self))
       /\ (forall task v, dict_get g task = Some v -> int_or_none 0 5 v))
    /\ (exists g,
          _extract_pain_symptoms lim self text = Return g
          /\ (forall symptom, dict_get g symptom <> None <->
                              In symptom (pain_symptoms self))
          /\ (forall symptom v, dict_get g symptom = Some v ->
                                int_or_none 0 99 v)).
Proof.
  intros self lim text Htasks Hsymptoms. split.
  - assert (Hc : forall task, In task (difficulty_tasks self) ->
                   compile (task_label task ++ ":\s*([0-5])")
                   = Return (rating_rule (task_label task ++ ":"))).
    { intros task Hin. apply rating_pattern_compiles, task_label_label.
      now apply Htasks. }
    destruct (dict_comp_from_returns
                (fun task => _find_numeric_value lim
                               (task_label task ++ ":\s*([0-5])") text)
                (difficulty_tasks self)) with (d := @nil (string * value))
      as (g & Hg).
    { intros task Hin.
      destruct (rating_rule_value lim _ _ text (Hc task Hin)) as (v & Hv & _).
      now exists v. }
    exists g. split; [ exact Hg | split ].
    + intros task. rewrite (dict_comp_from_domain _ _ _ _ task Hg).
      simpl. tauto.
    + intros task v Hget.
      eapply dict_comp_values; [ | exact Hg | exact Hget ].
      intros k w Hk Hw.
      destruct (rating_rule_value lim _ _ text (Hc k Hk)) as (v' & Hv' & Hr).
      congruence.
  - assert (Hc : forall symptom, In symptom (pain_symptoms self) ->
                   compile (Str.title symptom ++ ":\s*([0-9]{1,2})")
                   = Return (symptom_rule (Str.title symptom ++ ":"))).
    { intros symptom Hin. apply symptom_pattern_compiles, title_label.
      now apply Hsymptoms. }
    destruct (dict_comp_from_returns
                (fun symptom => _find_numeric_value lim
                                  (Str.title symptom ++ ":\s*([0-9]{1,2})") text)
                (pain_symptoms self)) with (d := @nil (string * value))
      as (g & Hg).
    { intros symptom Hin.
      destruct (symptom_rule_value lim _ _ text (Hc symptom Hin))
        as (v & Hv & _).
      now exists v. }
    exists g. split; [ exact Hg | split ].
    + intros symptom. rewrite (dict_comp_from_domain _ _ _ _ symptom Hg).
      simpl. tauto.
    + intros symptom v Hget.
      eapply dict_comp_values; [ | exact Hg | exact Hget ].
      intros k w Hk Hw.
      destruct (symptom_rule_value lim _ _ text (Hc k Hk)) as (v' & Hv' & Hr).
      congruence.
Qed.

Lemma generated_rules_work_for_any_plain_names_witness :
  (exists g,
     _extract_difficulty_ratings default_max_str_digits
       (mk ["grip_strength"; "stairs"] ["lower_back"])
       "Grip Strength: 4" = Return g
     /\ (forall task, dict_get g task <> None <->
                      In task ["grip_strength"; "stairs"])
     /\ (forall task v, dict_get g task = Some v -> int_or_none 0 5 v))
  /\ (exists g,
        _extract_pain_symptoms default_max_str_digits
          (mk ["grip_strength"; "stairs"] ["lower_back"])
          "Grip Strength: 4" = Return g
        /\ (forall symptom, dict_get g symptom <> None <->
                            In symptom ["lower_back"])
        /\ (forall symptom v, dict_get g symptom = Some v ->
                              int_or_none 0 99 v)).
Proof.
  apply (generated_rules_work_for_any_plain_names
           (mk ["grip_strength"; "stairs"] ["lower_back"])
           default_max_str_digits "Grip Strength: 4").
  - intros task [ <- | [ <- | [] ] ]; reflexivity.
  - intros symptom [ <- | [] ]; reflexivity.
Defined.

(** ** What reaches the patients table *)

(** X9.  For a record [parse_ocr_output] returns, the name and the date of
    birth [insert_data] binds to its INSERT INTO patients are the record's
    own [patient_name] and [dob]; the lookup of [patient_details] does not
    fail, and the default ['Unknown'] is never taken, the two keys being
    always there: a form whose text has no [Patient Name] (or no [DOB])
    is stored with [None] in that column, not with ['Unknown']. *)
Theorem insert_data_never_takes_the_unknown_default :
  forall (lim : nat) (text : string) (r : dict (dict value)),
    parse_ocr_output lim init text = Return r ->
    exists name dob : value,
      DatabaseManager.patients_parameters r = Some (name, dob)
      /\ field (Return r) "patient_details" "patient_name" = Some name
      /\ field (Return r) "patient_details" "dob" = Some dob
      /\ (~ Text.occurs "Patient Name" text -> name = VNone)
      /\ (~ Text.occurs "DOB" text -> dob = VNone).
Proof.
  intros lim text r Hr.
  destruct (parse_ocr_output_groups _ _ _ Hr)
    as (g1 & g2 & g3 & g4 & g5 & g6 & H1 & _ & _ & _ & _ & _ & ->).
  unfold _extract_patient_info in H1. returned H1.
  inversion H1; subst; clear H1.
  exists v, v0. repeat split.
  - intros Hno. destruct v as [ | s | n ]; [ reflexivity | | ];
      exfalso; apply Hno;
      (eapply (_find_value_occurs "Patient Name\s*:\s*(.*)" "Patient Name");
       [ reflexivity | exact E | discriminate ]).
  - intros Hno. destruct v0 as [ | s | n ]; [ reflexivity | | ];
      exfalso; apply Hno;
      (eapply (_find_value_occurs "DOB\s*:\s*(.*)" "DOB");
       [ reflexivity | exact E0 | discriminate ]).
Qed.

Lemma insert_data_never_takes_the_unknown_default_witness :
  exists name dob : value,
    DatabaseManager.patients_parameters
      [("patient_details", [("patient_name", VNone);
                            ("dob", VStr "1990-01-01")]);
       ("treatment_details", [("date", VNone); ("injection", VNone);
                              ("exercise_therapy", VNone)]);
       ("difficulty_ratings",
          map (fun task => (task, VNone)) (difficulty_tasks init));
       ("patient_changes", [("since_last_treatment", VNone);
                            ("since_start_of_treatment", VNone);
                            ("last_3_days", VNone)]);
       ("pain_symptoms",
          map (fun symptom => (symptom, VNone)) (pain_symptoms init));
       ("medical_assistant_data",
          [("blood_pressure", VNone); ("hr", VNone); ("weight", VNone);
           ("height", VNone); ("spo2", VNone); ("temperature", VNone);
           ("blood_glucose", VNone); ("respirations", VNone)])]
    = Some (name, dob)
    /\ Some VNone = Some name
    /\ Some (VStr "1990-01-01") = Some dob
    /\ (~ Text.occurs "Patient Name" "DOB : 1990-01-01" -> name = VNone)
    /\ (~ Text.occurs "DOB" "DOB : 1990-01-01" -> dob = VNone).
Proof.
  exact (insert_data_never_takes_the_unknown_default
           default_max_str_digits "DOB : 1990-01-01" _ eq_refl).
Defined.
